(** * Capacitor measurements of the component tester firmware (cap.c)

    A shallow embedding of [firmware/cap.c]: the ESR measurement
    [MeasureESR], the two capacitance estimators [LargeCap] and [SmallCap],
    the orchestrator [MeasureCap] and the reference calibration [RefCap],
    followed by the properties proved about them.

    The target is an 8-bit AVR: [int] is 16 bits wide, [long] 32 bits.
    Every C integer is a [Z] and each assignment writes out the wrap-around
    of the variable's type ([u8], [u16], [u32], [s8], [s16], [s32]).

    The firmware talks to the hardware through I/O registers and through
    helper functions of other source files.  Both are modelled the same way:
    what the program sends out is appended to a trace of events, and what it
    reads back comes from an oracle, one stream of answers per source,
    indexed by the number of reads made so far.  A theorem quantified over
    the oracle holds for whatever the hardware answers.

    A piece of code is a function from the state to an optional result and
    state.  There is no result where C leaves the behaviour undefined (a
    capacitor or resistor outside its array, a division by zero) and where a
    loop runs out of fuel.  Fuel bounds the loops whose exit depends on
    what the hardware answers, the polling of Timer1 and the discharge
    below 980 mV, and the passes through the label [large_cap]; the
    busy-waits on the flags of the ADC and of Timer0 are single events.

    [MeasureESR] is the variant compiled with SW_ESR.  The constants of
    config.h and the functions of the other source files are the fields of
    [Build]. *)

From Stdlib Require Import ZArith Lia Bool List.
From stdpp Require Import base list.
Import ListNotations.
Local Open Scope Z_scope.

(** ** Machine integers *)

Definition u8 (x : Z) : Z := x mod 256.
Definition u16 (x : Z) : Z := x mod 65536.
Definition u32 (x : Z) : Z := x mod 4294967296.
Definition s8 (x : Z) : Z := (x + 128) mod 256 - 128.
Definition s16 (x : Z) : Z := (x + 32768) mod 65536 - 32768.
Definition s32 (x : Z) : Z := (x + 2147483648) mod 4294967296 - 2147483648.

Definition UINT16_MAX : Z := 65535.
Definition UINT32_MAX : Z := 4294967295.

(** [(1 << n)] *)
Definition bit (n : Z) : Z := Z.shiftl 1 n.
(** [~x] on an 8-bit register *)
Definition not8 (x : Z) : Z := u8 (Z.lnot x).
(** a C scalar used as a condition *)
Definition nonzero (x : Z) : bool := negb (x =? 0).

(** ** Bit numbers of the AVR registers used here (avr/io.h) *)

Definition ADEN : Z := 7.
Definition ADSC : Z := 6.
Definition ADIF : Z := 4.
Definition ACME : Z := 6.
Definition ACBG : Z := 6.
Definition ACIC : Z := 2.
Definition ICF1 : Z := 5.
Definition OCF1B : Z := 2.
Definition OCF1A : Z := 1.
Definition TOV1 : Z := 0.
Definition CS10 : Z := 0.
Definition CS00 : Z := 0.
Definition WGM01 : Z := 1.
Definition OCF0A : Z := 1.

(** ** Data structures (common.h) *)

Module Capacitor.
Record t : Type := mk {
  A : Z;                (* probe pin #1 *)
  B : Z;                (* probe pin #2 *)
  Scale : Z;            (* exponent of factor (value * 10^x) *)
  Raw : Z;              (* raw capacitance value *)
  Value : Z;            (* corrected capacitance value *)
  I_leak_Value : Z;     (* leakage current: value *)
  I_leak_Scale : Z;     (* leakage current: exponent *)
  U_loss : Z            (* voltage loss in 0.1% (SW_C_VLOSS) *)
}.
(* Cap->A = a; Cap->B = b; Cap->Scale = s; Cap->Raw = r; Cap->Value = v; *)
Definition set_result (a b s r v : Z) (c : t) : t :=
  mk a b s r v (I_leak_Value c) (I_leak_Scale c) (U_loss c).
Definition set_I_leak_Value (v : Z) (c : t) : t :=
  mk (A c) (B c) (Scale c) (Raw c) (Value c) v (I_leak_Scale c) (U_loss c).
Definition set_I_leak_Scale (v : Z) (c : t) : t :=
  mk (A c) (B c) (Scale c) (Raw c) (Value c) (I_leak_Value c) v (U_loss c).
Definition set_U_loss (v : Z) (c : t) : t :=
  mk (A c) (B c) (Scale c) (Raw c) (Value c) (I_leak_Value c) (I_leak_Scale c) v.
End Capacitor.
Abbreviation Capacitor_Type := Capacitor.t.

Module Resistor.
Record t : Type := mk { A : Z; B : Z; Scale : Z; Value : Z }.
End Resistor.
Abbreviation Resistor_Type := Resistor.t.

Module Diode.
Record t : Type := mk { A : Z; C : Z; V_f : Z }.
End Diode.
Abbreviation Diode_Type := Diode.t.

(** The adjustment values kept in EEPROM.  [RZero] and [CapZero] are
    arrays indexed by the probe pair in the builds with [R_MULTIOFFSET] and
    [CAP_MULTIOFFSET]; the other builds keep a single value, held here at
    index 0. *)
Module Adjust.
Record t : Type := mk {
  RiL : Z;
  RZero : Z -> Z;
  CapZero : Z -> Z;
  RefOffset : Z;
  CompOffset : Z
}.
Definition set_RefOffset (v : Z) (nv : t) : t :=
  mk (RiL nv) (RZero nv) (CapZero nv) v (CompOffset nv).
Definition set_CompOffset (v : Z) (nv : t) : t :=
  mk (RiL nv) (RZero nv) (CapZero nv) (RefOffset nv) v.
End Adjust.
Abbreviation Adjust_Type := Adjust.t.

Module Config.
Record t : Type := mk {
  Ref : Z;              (* track reference source used lastly *)
  AutoScale : Z;        (* flag to disable/enable ADC auto scaling *)
  Bandgap : Z;          (* voltage of internal bandgap reference (mV) *)
  Samples : Z           (* number of ADC samples *)
}.
Definition set_Ref (v : Z) (c : t) : t := mk v (AutoScale c) (Bandgap c) (Samples c).
Definition set_AutoScale (v : Z) (c : t) : t := mk (Ref c) v (Bandgap c) (Samples c).
Definition set_Bandgap (v : Z) (c : t) : t := mk (Ref c) (AutoScale c) v (Samples c).
Definition set_Samples (v : Z) (c : t) : t := mk (Ref c) (AutoScale c) (Bandgap c) v.
End Config.
Abbreviation Config_Type := Config.t.

Module Checking.
Record t : Type := mk {
  Found : Z;            (* component type *)
  Resistors : Z;        (* number of resistors found *)
  Diodes : Z            (* number of diodes found *)
}.
Definition set_Found (v : Z) (c : t) : t := mk v (Resistors c) (Diodes c).
End Checking.
Abbreviation Check_Type := Checking.t.

Module Probe.
Record t : Type := mk {
  ID_1 : Z; ID_2 : Z;   (* probe IDs *)
  Rl_1 : Z; Rl_2 : Z;   (* register bits of Rl for the probes *)
  Rh_1 : Z;             (* register bits of Rh for probe-1 *)
  Pin_1 : Z; Pin_2 : Z; (* register bits of the probe pins *)
  Ch_1 : Z; Ch_2 : Z    (* ADC MUX input channels *)
}.
End Probe.
Abbreviation Probes_Type := Probe.t.

(** ** Build configuration (config.h, common.h) and helper functions of the
    other source files (functions.h) taken as given *)

Record Build : Type := {
  CPU_FREQ : Z;
  MCU_CYCLES_PER_US : Z;
  MCU_CYCLES_PER_ADC : Z;
  ADC_CLOCK_DIV : Z;
  ADC_REF_BANDGAP : Z;
  ADC_REF_VCC : Z;
  ADC_SAMPLES : Z;
  CAP_FACTOR_SMALL : Z;
  CAP_FACTOR_MID : Z;
  CAP_FACTOR_LARGE : Z;
  CAP_DISCHARGED : Z;
  PULL_UP : Z;
  PULL_1MS : Z;
  PULL_10MS : Z;
  TABLE_SMALL_CAP : Z;
  TABLE_LARGE_CAP : Z;
  COMP_ERROR : Z;
  COMP_RESISTOR : Z;
  COMP_CAPACITOR : Z;
  COMP_DIODE : Z;
  COMP_FET : Z;
  TP1 : Z;
  TP2 : Z;
  TP3 : Z;
  TP_CAP : Z;
  ADJUST_RH : Z;
  (* feature switches *)
  R_MULTIOFFSET : bool;
  CAP_MULTIOFFSET : bool;
  HW_ADJUST_CAP : bool;
  SW_C_VLOSS : bool;
  (* functions of other source files *)
  CmpValue : Z -> Z -> Z -> Z -> Z;
  RescaleValue : Z -> Z -> Z -> Z;
  GetFactor : Z -> Z -> Z;
  GetOffsetIndex : Z -> Z -> Z;
  UpdateProbes2 : Z -> Z -> Probes_Type -> Probes_Type;
  SearchDiode : Check_Type -> list Diode_Type -> Z -> Z -> option Diode_Type
}.

(** ** Hardware: registers, events and oracles *)

Inductive reg : Type :=
| ADC_PORT | ADC_DDR | R_PORT | R_DDR | ADJUST_PORT | ADJUST_DDR
| ADMUX | ADCSRA | ADCSRB | ADCW | ACSR
| TCCR0A | TCCR0B | TCNT0 | OCR0A | TIFR0
| TCCR1A | TCCR1B | TCNT1 | ICR1 | TIFR1.

Inductive event : Type :=
| Wr (r : reg) (v : Z)             (* r = v *)
| WrAnd (r : reg) (m : Z)          (* r &= m *)
| WrOr (r : reg) (m : Z)           (* r |= m *)
| Rd (r : reg) (v : Z)             (* v read from r *)
| AwaitClear (r : reg) (m : Z)     (* while (r & m); *)
| AwaitSet (r : reg) (m : Z)       (* while (!(r & m)); *)
| Wait_us (n : Z)                  (* waitNus(), waitNms() *)
| MilliSleep (ms : Z)
| Wdt_reset
| Call_DischargeProbes (failed : bool)
| Call_DischargeCap (a b : Z)
| Call_PullProbe (mask mode : Z)
| Call_ReadU (ch v : Z).

(** What the hardware answers: the k-th value read from each source. *)
Record Hardware : Type := {
  ADCW_in : nat -> Z;              (* ADC data register *)
  ReadU_in : nat -> Z;             (* ReadU(): voltage in mV *)
  TIFR1_in : nat -> Z;             (* Timer1 flags *)
  ICR1_in : nat -> Z;              (* Timer1 input capture register *)
  TCNT1_in : nat -> Z;             (* Timer1 counter *)
  Discharge_in : nat -> bool       (* DischargeProbes(): true when it fails *)
}.

(** ** Global variables (variables.h) and the state of a run *)

Record World : Type := mkWorld {
  NV : Adjust_Type;
  Cfg : Config_Type;
  Check : Check_Type;
  Probes : Probes_Type;
  Caps : list Capacitor_Type;
  Resistors : list Resistor_Type;
  Diodes : list Diode_Type;
  n_ADCW : nat;
  n_ReadU : nat;
  n_TIFR1 : nat;
  n_ICR1 : nat;
  n_TCNT1 : nat;
  n_Discharge : nat;
  trace : list event               (* newest event first *)
}.

Definition set_NV (v : Adjust_Type) (w : World) : World :=
  mkWorld v (Cfg w) (Check w) (Probes w) (Caps w) (Resistors w) (Diodes w)
          (n_ADCW w) (n_ReadU w) (n_TIFR1 w) (n_ICR1 w) (n_TCNT1 w) (n_Discharge w) (trace w).
Definition set_Cfg (v : Config_Type) (w : World) : World :=
  mkWorld (NV w) v (Check w) (Probes w) (Caps w) (Resistors w) (Diodes w)
          (n_ADCW w) (n_ReadU w) (n_TIFR1 w) (n_ICR1 w) (n_TCNT1 w) (n_Discharge w) (trace w).
Definition set_Check (v : Check_Type) (w : World) : World :=
  mkWorld (NV w) (Cfg w) v (Probes w) (Caps w) (Resistors w) (Diodes w)
          (n_ADCW w) (n_ReadU w) (n_TIFR1 w) (n_ICR1 w) (n_TCNT1 w) (n_Discharge w) (trace w).
Definition set_Probes (v : Probes_Type) (w : World) : World :=
  mkWorld (NV w) (Cfg w) (Check w) v (Caps w) (Resistors w) (Diodes w)
          (n_ADCW w) (n_ReadU w) (n_TIFR1 w) (n_ICR1 w) (n_TCNT1 w) (n_Discharge w) (trace w).
Definition set_Caps (v : list Capacitor_Type) (w : World) : World :=
  mkWorld (NV w) (Cfg w) (Check w) (Probes w) v (Resistors w) (Diodes w)
          (n_ADCW w) (n_ReadU w) (n_TIFR1 w) (n_ICR1 w) (n_TCNT1 w) (n_Discharge w) (trace w).
Definition log (e : event) (w : World) : World :=
  mkWorld (NV w) (Cfg w) (Check w) (Probes w) (Caps w) (Resistors w) (Diodes w)
          (n_ADCW w) (n_ReadU w) (n_TIFR1 w) (n_ICR1 w) (n_TCNT1 w) (n_Discharge w)
          (e :: trace w).
Definition tick_ADCW (w : World) : World :=
  mkWorld (NV w) (Cfg w) (Check w) (Probes w) (Caps w) (Resistors w) (Diodes w)
          (S (n_ADCW w)) (n_ReadU w) (n_TIFR1 w) (n_ICR1 w) (n_TCNT1 w) (n_Discharge w) (trace w).
Definition tick_ReadU (w : World) : World :=
  mkWorld (NV w) (Cfg w) (Check w) (Probes w) (Caps w) (Resistors w) (Diodes w)
          (n_ADCW w) (S (n_ReadU w)) (n_TIFR1 w) (n_ICR1 w) (n_TCNT1 w) (n_Discharge w) (trace w).
Definition tick_TIFR1 (w : World) : World :=
  mkWorld (NV w) (Cfg w) (Check w) (Probes w) (Caps w) (Resistors w) (Diodes w)
          (n_ADCW w) (n_ReadU w) (S (n_TIFR1 w)) (n_ICR1 w) (n_TCNT1 w) (n_Discharge w) (trace w).
Definition tick_ICR1 (w : World) : World :=
  mkWorld (NV w) (Cfg w) (Check w) (Probes w) (Caps w) (Resistors w) (Diodes w)
          (n_ADCW w) (n_ReadU w) (n_TIFR1 w) (S (n_ICR1 w)) (n_TCNT1 w) (n_Discharge w) (trace w).
Definition tick_TCNT1 (w : World) : World :=
  mkWorld (NV w) (Cfg w) (Check w) (Probes w) (Caps w) (Resistors w) (Diodes w)
          (n_ADCW w) (n_ReadU w) (n_TIFR1 w) (n_ICR1 w) (S (n_TCNT1 w)) (n_Discharge w) (trace w).
Definition tick_Discharge (w : World) : World :=
  mkWorld (NV w) (Cfg w) (Check w) (Probes w) (Caps w) (Resistors w) (Diodes w)
          (n_ADCW w) (n_ReadU w) (n_TIFR1 w) (n_ICR1 w) (n_TCNT1 w) (S (n_Discharge w)) (trace w).

(** ** The monad of firmware code: state passing over [World]; [None] is a
    run whose behaviour C leaves undefined or whose polling loop was given
    too little fuel. *)

Definition M (X : Type) : Type := World -> option (X * World).

#[export] Instance M_ret : MRet M := fun X x w => Some (x, w).
#[export] Instance M_bind : MBind M := fun X Y k m w =>
  match m w with
  | Some (x, w') => k x w'
  | None => None
  end.

Definition undefined {X} : M X := fun _ => None.
Definition gets {X} (f : World -> X) : M X := fun w => Some (f w, w).
Definition modify (f : World -> World) : M unit := fun w => Some (tt, f w).
(** [return;] of a [void] function, and the empty statement *)
Definition skip : M unit := mret tt.
Definition when (c : bool) (m : M unit) : M unit := if c then m else skip.


(** * The firmware *)

Section Firmware.

Variable bc : Build.
Variable hw : Hardware.

(** ** Primitive actions *)

Definition emit (e : event) : M unit := modify (log e).
Definition out (r : reg) (v : Z) : M unit := emit (Wr r v).
Definition out_and (r : reg) (m : Z) : M unit := emit (WrAnd r m).
Definition out_or (r : reg) (m : Z) : M unit := emit (WrOr r m).
Definition await_clear (r : reg) (m : Z) : M unit := emit (AwaitClear r m).
Definition await_set (r : reg) (m : Z) : M unit := emit (AwaitSet r m).
Definition wait_us (n : Z) : M unit := emit (Wait_us n).
Definition wdt_reset : M unit := emit Wdt_reset.

Definition in_ADCW : M Z := fun w =>
  let v := u16 (ADCW_in hw (n_ADCW w)) in
  Some (v, log (Rd ADCW v) (tick_ADCW w)).
Definition in_TIFR1 : M Z := fun w =>
  let v := u8 (TIFR1_in hw (n_TIFR1 w)) in
  Some (v, log (Rd TIFR1 v) (tick_TIFR1 w)).
Definition in_ICR1 : M Z := fun w =>
  let v := u16 (ICR1_in hw (n_ICR1 w)) in
  Some (v, log (Rd ICR1 v) (tick_ICR1 w)).
Definition in_TCNT1 : M Z := fun w =>
  let v := u16 (TCNT1_in hw (n_TCNT1 w)) in
  Some (v, log (Rd TCNT1 v) (tick_TCNT1 w)).

(** [ReadU()] of the ADC module: the voltage of a channel in mV. *)
Definition ReadU (ch : Z) : M Z := fun w =>
  let v := u16 (ReadU_in hw (n_ReadU w)) in
  Some (v, log (Call_ReadU ch v) (tick_ReadU w)).

(** [DischargeProbes()] of the main module: on failure it records
    [COMP_ERROR] in [Check.Found]. *)
Definition DischargeProbes : M unit := fun w =>
  let failed := Discharge_in hw (n_Discharge w) in
  let w1 := log (Call_DischargeProbes failed) (tick_Discharge w) in
  Some (tt, if failed
            then set_Check (Checking.set_Found (COMP_ERROR bc) (Check w1)) w1
            else w1).

Definition DischargeCap (a b : Z) : M unit := emit (Call_DischargeCap a b).
Definition PullProbe (mask mode : Z) : M unit := emit (Call_PullProbe mask mode).
Definition call_UpdateProbes2 (p1 p2 : Z) : M unit :=
  modify (fun w => set_Probes (UpdateProbes2 bc p1 p2 (Probes w)) w).

(** A [Capacitor_Type *] is an index into [Caps]; an index outside the
    array has no defined behaviour. *)
Definition deref (Cap : nat) : M Capacitor_Type := fun w =>
  match Caps w !! Cap with
  | Some c => Some (c, w)
  | None => None
  end.
Definition store (Cap : nat) (f : Capacitor_Type -> Capacitor_Type) : M unit := fun w =>
  match Caps w !! Cap with
  | Some c => Some (tt, set_Caps (<[Cap := f c]> (Caps w)) w)
  | None => None
  end.

(** [NV.RZero] resp. [NV.RZero[n]] for the current probe pair *)
Definition NV_RZero (nv : Adjust_Type) (p : Probes_Type) : Z :=
  if R_MULTIOFFSET bc
  then Adjust.RZero nv (u8 (GetOffsetIndex bc (Probe.ID_1 p) (Probe.ID_2 p)))
  else Adjust.RZero nv 0.

(** [NV.CapZero] resp. [NV.CapZero[n]] for the current probe pair *)
Definition NV_CapZero (nv : Adjust_Type) (p : Probes_Type) : Z :=
  if CAP_MULTIOFFSET bc
  then Adjust.CapZero nv (u8 (GetOffsetIndex bc (Probe.ID_1 p) (Probe.ID_2 p)))
  else Adjust.CapZero nv 0.

(** ** ESR measurement (SW_ESR) *)

Definition SetUpDelayTimer (Cycles : Z) : M Z :=
  let Flag := 0 in
  if Cycles <? 17 then mret Flag
  else
    let Cycles := u8 (Cycles - 17) in
    out TCCR0B 0;;
    out TCCR0A (bit WGM01);;
    out OCR0A Cycles;;
    let Flag := 1 in
    mret Flag.

Definition DelayTimer : M unit :=
  out TCNT0 0;;
  out TCCR0B (bit CS00);;
  await_set TIFR0 (bit OCF0A);;
  out TCCR0B 0;;
  out TIFR0 (bit OCF0A).

(** The delay that shifts the middle of the pulse to the ADC's sample and
    hold, as the [uint8_t] handed to [SetUpDelayTimer]. *)
Definition ESR_delay_cycles : Z :=
  let U_1 := u16 (Z.quot (MCU_CYCLES_PER_ADC bc * 25) 10
                  - MCU_CYCLES_PER_US bc * 10
                  - MCU_CYCLES_PER_US bc * 2 - 10) in
  let U_1 := if CPU_FREQ bc =? 8000000 then u16 (U_1 - 4) else U_1 in
  u8 U_1.

(** One run of the measurement loop.  The loop state is
    [(U_2, U_4, Sum_1, Sum_2)]. *)
Definition ESR_round (Probe1 Probe2 Bits : Z) (st : Z * Z * Z * Z)
  : M (Z * Z * Z * Z) :=
  let '(U_2, U_4, Sum_1, Sum_2) := st in
  p ← gets Probes;
  wdt_reset;;
  (* mitigate runaway of cap's charge/voltage *)
  when (U_4 <? 50) (
    out ADC_DDR (Probe.Pin_2 p);;
    out R_PORT (Probe.Rl_1 p);;
    out R_DDR (Probe.Rl_1 p);;
    wait_us 2;;
    out R_DDR 0;;
    out R_PORT 0);;
  when (U_2 <? 50) (
    out ADC_DDR (Probe.Pin_1 p);;
    out R_PORT (Probe.Rl_2 p);;
    out R_DDR (Probe.Rl_2 p);;
    wait_us 2;;
    out R_DDR 0;;
    out R_PORT 0);;
  (* forward mode, probe-1 only: voltage at RiL *)
  out ADC_DDR (Probe.Pin_1 p);;
  out R_PORT (Probe.Rl_1 p);;
  out R_DDR (Probe.Rl_1 p);;
  out ADMUX Probe1;;
  out ADCSRA Bits;; await_clear ADCSRA (bit ADSC);;
  out ADCSRA Bits;; await_clear ADCSRA (bit ADSC);;
  U_1 ← in_ADCW;
  (* forward mode, positive charging pulse: voltage at DUT *)
  out ADMUX Probe2;;
  out ADCSRA Bits;; await_clear ADCSRA (bit ADSC);;
  out ADCSRA Bits;;
  wait_us 10;;
  DelayTimer;;
  out R_PORT (Probe.Rl_2 p);;
  out R_DDR (Probe.Rl_2 p);;
  wait_us 2;;
  when (CPU_FREQ bc <? 8000000) (wait_us 2);;
  out R_DDR 0;;
  await_clear ADCSRA (bit ADSC);;
  U_2 ← in_ADCW;
  (* reverse mode, probe-2 only: voltage at RiL *)
  out ADC_DDR (Probe.Pin_2 p);;
  out R_PORT (Probe.Rl_2 p);;
  out R_DDR (Probe.Rl_2 p);;
  out ADMUX Probe2;;
  out ADCSRA Bits;; await_clear ADCSRA (bit ADSC);;
  out ADCSRA Bits;; await_clear ADCSRA (bit ADSC);;
  U_3 ← in_ADCW;
  (* reverse mode, negative charging pulse: voltage at DUT *)
  out ADMUX Probe1;;
  out ADCSRA Bits;; await_clear ADCSRA (bit ADSC);;
  out ADCSRA Bits;;
  wait_us 10;;
  DelayTimer;;
  out R_PORT (Probe.Rl_1 p);;
  out R_DDR (Probe.Rl_1 p);;
  wait_us 2;;
  when (CPU_FREQ bc <? 8000000) (wait_us 2);;
  out R_DDR 0;;
  await_clear ADCSRA (bit ADSC);;
  U_4 ← in_ADCW;
  (* manage measured values *)
  let Sum_1 := u32 (Sum_1 + U_1) in
  let Sum_1 := u32 (Sum_1 + U_3) in
  let Sum_2 := u32 (Sum_2 + U_2) in
  let Sum_2 := u32 (Sum_2 + U_4) in
  mret (U_2, U_4, Sum_1, Sum_2).

(** [while (n > 0) { ...; n--; }] *)
Fixpoint ESR_loop (Probe1 Probe2 Bits : Z) (n : nat) (st : Z * Z * Z * Z)
  : M (Z * Z * Z * Z) :=
  match n with
  | O => mret st
  | S n' =>
      st' ← ESR_round Probe1 Probe2 Bits st;
      ESR_loop Probe1 Probe2 Bits n' st'
  end.

(** "process measurements": the value of [ESR] after the sums are known. *)
Definition ESR_process (ESR : Z) (nv : Adjust_Type) (p : Probes_Type)
    (c : Capacitor_Type) (Sum_1 Sum_2 : Z) : Z :=
  if Sum_2 >? Sum_1 then
    let Sum_2 := u32 (Sum_2 - Sum_1) in
    let Value := u32 (u16 (Adjust.RiL nv * 10)) in
    let Value := u32 (Value * Sum_2) in
    let Value := Value / Sum_1 in
    let U_1 := u16 Value in
    let U_2 := u16 (NV_RZero nv p) in
    if U_1 >? U_2 then
      let U_1 := u16 (U_1 - U_2) in
      U_1
    else
      if CmpValue bc (Capacitor.Value c) (Capacitor.Scale c) 1000 (-6) >? 0
      then 0
      else ESR
  else ESR.

Definition MeasureESR (Cap : option nat) : M Z :=
  let ESR := UINT16_MAX in
  match Cap with
  | None => mret ESR
  | Some Cap =>
    c ← deref Cap;
    (* check for a capacitor >= 10nF *)
    if CmpValue bc (Capacitor.Value c) (Capacitor.Scale c) 10 (-9) <? 0
    then mret ESR else
    DischargeProbes;;
    Found ← gets (fun w => Checking.Found (Check w));
    if Found =? COMP_ERROR bc then mret ESR else
    DischargeCap (Capacitor.A c) (Capacitor.B c);;
    call_UpdateProbes2 (Capacitor.A c) (Capacitor.B c);;
    p ← gets Probes;
    let Probe1 := Probe.Ch_1 p in
    let Probe2 := Probe.Ch_2 p in
    let Probe1 := u8 (Z.lor Probe1 (ADC_REF_BANDGAP bc)) in
    let Probe2 := u8 (Z.lor Probe2 (ADC_REF_BANDGAP bc)) in
    let Bits := u8 (Z.lor (Z.lor (Z.lor (bit ADSC) (bit ADEN)) (bit ADIF))
                          (ADC_CLOCK_DIV bc)) in
    let Sum_1 := 1 in
    let Sum_2 := 1 in
    let n := ESR_delay_cycles in
    Flag ← SetUpDelayTimer n;
    if Flag =? 0 then mret ESR else
    out ADC_PORT 0;;
    out ADMUX Probe1;;
    wait_us 10000;;
    let U_2 := 50 in
    let U_4 := 0 in
    '(_, _, Sum_1, Sum_2) ← ESR_loop Probe1 Probe2 Bits 255 (U_2, U_4, Sum_1, Sum_2);
    (* probes: reset to safe mode *)
    out ADC_DDR 0;;
    out R_PORT 0;;
    (* process measurements *)
    nv ← gets NV;
    p ← gets Probes;
    c ← deref Cap;
    let ESR := ESR_process ESR nv p c Sum_1 Sum_2 in
    (* clean up *)
    modify (fun w => set_Cfg (Config.set_Ref (ADC_REF_BANDGAP bc) (Cfg w)) w);;
    DischargeProbes;;
    mret ESR
  end.

(** ** Capacitance measurement for large caps (>4.7uF) *)

(** The charge loop [while (TempByte)]: [n] bounds the loop runs, the
    source bounds them by 500 pulses.  Returns [(Pulses, U_Cap)]. *)
Fixpoint LargeCap_charge (n : nat) (Mode U_Zero Pulses : Z) : M (Z * Z) :=
  match n with
  | O => undefined
  | S n' =>
      p ← gets Probes;
      let Pulses := u16 (Pulses + 1) in
      PullProbe (Probe.Rl_1 p) Mode;;
      U_Cap ← ReadU (Probe.Ch_1 p);
      (* consider zero offset: uint16_t against int16_t compares unsigned *)
      let U_Cap := if U_Cap >? u16 U_Zero
                   then u16 (U_Cap - u16 U_Zero)
                   else 0 in
      let TempByte := 1 in
      (* end loop if charging is too slow *)
      let TempByte := if (Pulses =? 126) && (U_Cap <? 75) then 0 else TempByte in
      (* end loop if 300mV are reached *)
      let TempByte := if U_Cap >=? 300 then 0 else TempByte in
      (* end loop if maximum number of pulses is reached (timeout) *)
      let TempByte := if Pulses =? 500 then 0 else TempByte in
      wdt_reset;;
      if nonzero TempByte
      then LargeCap_charge n' Mode U_Zero Pulses
      else mret (Pulses, U_Cap)
  end.

(** [while (TempInt > 0) { TempInt--; U_leak = ReadU(Probes.Ch_1); wdt_reset(); }] *)
Fixpoint LargeCap_hold (TempInt : nat) (ch U_leak : Z) : M Z :=
  match TempInt with
  | O => mret U_leak
  | S TempInt' =>
      U_leak ← ReadU ch;
      wdt_reset;;
      LargeCap_hold TempInt' ch U_leak
  end.

(** [while (Value > bound) { Value /= 10; Scale++; }] *)
Fixpoint rescale (fuel : nat) (bound Value Scale : Z) : option (Z * Z) :=
  match fuel with
  | O => if Value >? bound then None else Some (Value, Scale)
  | S fuel' =>
      if Value >? bound
      then rescale fuel' bound (Value / 10) (s8 (Scale + 1))
      else Some (Value, Scale)
  end.

Definition lift {X} (o : option X) : M X := fun w =>
  match o with
  | Some x => Some (x, w)
  | None => None
  end.

(** [a / b] on unsigned operands; dividing by zero has no defined
    behaviour. *)
Definition udiv (a b : Z) : option Z := if b =? 0 then None else Some (a / b).

(** From "Check if DUT sustains the charge" to the end of the function. *)
Definition LargeCap_finish (Cap : nat) (Flag Mode Pulses U_Cap : Z) : M Z :=
  p ← gets Probes;
  let U_Drop := 0 in
  let U_leak := 0 in
  '(Flag, U_Drop, U_leak) ←
    (if Flag =? 3 then
       (* check self-discharging for measuring period *)
       U_Drop ← ReadU (Probe.Ch_1 p);
       let TempInt := Pulses in
       U_leak ← LargeCap_hold (Z.to_nat TempInt) (Probe.Ch_1 p) U_leak;
       U_Drop ← (if U_Drop >? U_leak then
                   let U_Drop := u16 (U_Drop - U_leak) in
                   (* U_Cap is 300 or more where Flag is 3 *)
                   when (SW_C_VLOSS bc)
                     (store Cap (Capacitor.set_U_loss
                                   (u16 (u32 (U_Drop * 1000) / U_Cap))));;
                   mret U_Drop
                 else mret 0);
       (* if voltage drop is too large, consider DUT not to be a cap *)
       let Flag := if U_Drop >? 100 then 0 else Flag in
       (* second measurement with a specific delay *)
       U_leak ← ReadU (Probe.Ch_1 p);
       (if nonzero (Z.land Mode (PULL_10MS bc))
        then wait_us 1000000
        else wait_us 100000);;
       TempInt ← ReadU (Probe.Ch_1 p);
       let U_leak := if U_leak >? TempInt then u16 (U_leak - TempInt) else 0 in
       mret (Flag, U_Drop, U_leak)
     else mret (Flag, U_Drop, U_leak));
  (* calculate capacitance *)
  if Flag =? 3 then
    let Scale := -9 in
    let Raw := u32 (u16 (GetFactor bc (u16 (U_Cap + U_Drop)) (TABLE_LARGE_CAP bc))) in
    let Raw := u32 (Raw * Pulses) in
    let Raw := if nonzero (Z.land Mode (PULL_10MS bc)) then u32 (Raw * 10) else Raw in
    let '(Raw, Scale) := if Raw >? UINT32_MAX / 1000
                         then (Raw / 1000, s8 (Scale + 3))
                         else (Raw, Scale) in
    let Value := Raw in
    let Value := u32 (Value * 1000) in
    Value ← lift (if nonzero (Z.land Mode (PULL_10MS bc))
                  then udiv Value (u32 (1000 - CAP_FACTOR_LARGE bc))
                  else udiv Value (u32 (1000 - CAP_FACTOR_MID bc)));
    (* copy data *)
    store Cap (Capacitor.set_result (Probe.ID_2 p) (Probe.ID_1 p) Scale Raw Value);;
    (* calculate the self-discharge leakage current *)
    '(Value, Scale) ← lift (rescale 10 800000 Value Scale);
    let Value := u32 (Value * U_leak) in
    let Value := Value / 1000 in
    let Scale := if nonzero (Z.land Mode (PULL_1MS bc)) then s8 (Scale + 1) else Scale in
    '(Value, Scale) ← lift (rescale 10 UINT16_MAX Value Scale);
    store Cap (Capacitor.set_I_leak_Value (u16 Value));;
    store Cap (Capacitor.set_I_leak_Scale Scale);;
    mret Flag
  else mret Flag.

(** The function from the label [large_cap] on; [goto large_cap] is the
    recursive call and [runs] bounds the number of passes. *)
Fixpoint LargeCap_from (runs : nat) (Cap : nat) (Flag Mode : Z) : M Z :=
  match runs with
  | O => undefined
  | S runs' =>
      (* prepare probes *)
      DischargeProbes;;
      Found ← gets (fun w => Checking.Found (Check w));
      if Found =? COMP_ERROR bc then mret 0 else
      p ← gets Probes;
      (* get zero offset *)
      out ADC_PORT 0;;
      out ADC_DDR (Probe.Pin_2 p);;
      out R_PORT (Probe.Rl_2 p);;
      out R_DDR (Probe.Rl_2 p);;
      v ← ReadU (Probe.Ch_1 p);
      let U_Zero := s16 v in
      v ← ReadU (Probe.Ch_2 p);
      let U_Zero := s16 (U_Zero - v) in
      out R_PORT 0;;
      out R_DDR 0;;
      (* charge DUT with up to 500 pulses until it reaches 300mV *)
      let Pulses := 0 in
      '(Pulses, U_Cap) ← LargeCap_charge 500 Mode U_Zero Pulses;
      (* if 300mV are not reached DUT isn't a cap or much too large *)
      let Flag := if U_Cap <? 300 then 1 else Flag in
      (* if 1300mV are reached with one pulse, we got a small cap *)
      if (Pulses =? 1) && (U_Cap >? 1300) then
        if nonzero (Z.land Mode (PULL_10MS bc)) then
          let Mode := u8 (Z.lor (PULL_1MS bc) (PULL_UP bc)) in
          LargeCap_from runs' Cap Flag Mode
        else
          let Flag := 2 in
          LargeCap_finish Cap Flag Mode Pulses U_Cap
      else
        LargeCap_finish Cap Flag Mode Pulses U_Cap
  end.

Definition LargeCap (runs : nat) (Cap : nat) : M Z :=
  let Flag := 3 in
  let Mode := u8 (Z.lor (PULL_10MS bc) (PULL_UP bc)) in
  LargeCap_from runs Cap Flag Mode.

(** ** Capacitance measurement for small caps (<4.7uF) *)

(** [CPU_FREQ / 5000]: the number of Timer1 overflows after which charging
    is given up. *)
Definition overflow_budget : Z := Z.quot (CPU_FREQ bc) 5000.

(** The timer loop [while (1)], polling TIFR1; [fuel] bounds the number of
    polls.  Returns [(TempByte, Ticks2)]. *)
Fixpoint timer_loop (fuel : nat) (Ticks2 : Z) : M (Z * Z) :=
  match fuel with
  | O => undefined
  | S fuel' =>
      TempByte ← in_TIFR1;
      (* end loop if input capture flag is set (= same voltage) *)
      if nonzero (Z.land TempByte (bit ICF1)) then mret (TempByte, Ticks2) else
      (* detect timer overflow by checking the overflow flag *)
      if nonzero (Z.land TempByte (bit TOV1)) then
        out TIFR1 (bit TOV1);;
        wdt_reset;;
        let Ticks2 := u16 (Ticks2 + 1) in
        (* end loop if charging takes too long (13.1s) *)
        if Ticks2 =? overflow_budget
        then mret (TempByte, Ticks2)
        else timer_loop fuel' Ticks2
      else timer_loop fuel' Ticks2
  end.

(** "combine both counter values" and subtract the processing overhead *)
Definition SmallCap_ticks (Ticks Ticks2 : Z) : Z :=
  let Raw := u32 Ticks in
  let Raw := Z.lor Raw (u32 (Z.shiftl (u32 Ticks2) 16)) in
  if Raw >? 2 then u32 (Raw - 2) else Raw.

(** "calculate capacitance": [(Scale, Raw, Value)] as copied to [Cap]. *)
Definition SmallCap_calc (nv : Adjust_Type) (cfg : Config_Type) (p : Probes_Type)
    (Ticks Ticks2 : Z) : option (Z * Z * Z) :=
  let Raw := SmallCap_ticks Ticks Ticks2 in
  let Scale := -12 in
  let '(Raw, Scale) := if Raw >? UINT32_MAX / 1000
                       then (Raw / 1000, s8 (Scale + 3))
                       else (Raw, Scale) in
  (* multiply with factor from table *)
  let Raw := u32 (Raw * u16 (GetFactor bc
                               (u16 (Config.Bandgap cfg + Adjust.CompOffset nv))
                               (TABLE_SMALL_CAP bc))) in
  (* divide by CPU frequency to get the time and multiply with table scale *)
  Raw ← udiv Raw (u32 (Z.quot (CPU_FREQ bc) 10000));
  (* optional compensation *)
  Raw ← (if CAP_FACTOR_SMALL bc =? 0 then Some Raw
         else udiv (u32 (Raw * 1000)) (u32 (1000 - CAP_FACTOR_SMALL bc)));
  let Value := Raw in
  (* take care about zero offset if feasable *)
  let Value := if Scale =? -12 then
                 (* the offset is converted to the type of Value *)
                 if Value >=? u32 (NV_CapZero nv p)
                 then u32 (Value - u32 (NV_CapZero nv p))
                 else 0
               else Value in
  Some (Scale, Raw, Value).

(** [while (ReadU(ch) > 980) { }] : discharge below the bandgap reference *)
Fixpoint discharge_below (fuel : nat) (ch : Z) : M unit :=
  match fuel with
  | O => undefined
  | S fuel' =>
      v ← ReadU ch;
      if v >? 980 then discharge_below fuel' ch else mret tt
  end.

(** Self-adjustment of the offsets of the bandgap reference and of the
    analog comparator (builds without HW_ADJUST_CAP). *)
Definition SmallCap_adjust (fuel : nat) (Value U_c : Z) : M unit :=
  p ← gets Probes;
  discharge_below fuel (Probe.Ch_1 p);;
  out R_DDR 0;;
  modify (fun w => set_Cfg (Config.set_AutoScale 0 (Cfg w)) w);;
  Ticks ← ReadU (Probe.Ch_1 p);
  modify (fun w => set_Cfg (Config.set_AutoScale 1 (Cfg w)) w);;
  Ticks2 ← ReadU (Probe.Ch_1 p);
  out R_DDR (Probe.Rh_1 p);;
  let Offset := s16 (Ticks - Ticks2) in
  Bandgap ← gets (fun w => Config.Bandgap (Cfg w));
  let Ticks := u16 Bandgap in
  Ticks ← (if (Offset <? -4) || (Offset >? 4) then
             let TempLong := s32 Offset in
             let TempLong := s32 (TempLong * Ticks) in
             if Ticks2 =? 0 then undefined else
             let TempLong := Z.quot TempLong Ticks2 in
             modify (fun w => set_NV (Adjust.set_RefOffset
                       (s8 (Adjust.RefOffset (NV w) + s8 TempLong)) (NV w)) w);;
             mret (u16 (Ticks + s8 Value))
           else mret Ticks);
  (* U_offset = U_c - U_bandgap *)
  let Offset := s16 (U_c - Ticks) in
  (* limit offset to a valid range of -50mV - 50mV *)
  when ((Offset >? -50) && (Offset <? 50))
    (modify (fun w => set_NV (Adjust.set_CompOffset (s8 Offset) (NV w)) w)).

(** [while (n) { wait5us(); n--; }] *)
Fixpoint wait5us_times (n : nat) : M unit :=
  match n with
  | O => mret tt
  | S n' => wait_us 5;; wait5us_times n'
  end.

(** The voltage loss measurement (builds with SW_C_VLOSS); [Some r] is an
    early [return r]. *)
Definition SmallCap_vloss (Cap : nat) (Scale Value : Z) : M (option Z) :=
  if CmpValue bc Value Scale 50 (-9) =? 1 then
    let Ticks := u16 (RescaleValue bc Value Scale (-8)) in
    DischargeProbes;;
    Found ← gets (fun w => Checking.Found (Check w));
    if Found =? COMP_ERROR bc then mret (Some 0) else
    p ← gets Probes;
    (* get zero offset *)
    out ADC_PORT 0;;
    out ADC_DDR (Probe.Pin_2 p);;
    out R_PORT 0;;
    out R_DDR (Probe.Rl_1 p);;
    U_Zero ← ReadU (Probe.Ch_1 p);
    (* charge cap for a specific time (half of time units) *)
    out R_PORT (Probe.Rl_1 p);;
    let Ticks2 := Ticks / 2 in
    wait5us_times (Z.to_nat Ticks2);;
    (* get start voltage *)
    out R_DDR 0;;
    out R_PORT 0;;
    wdt_reset;;
    modify (fun w => set_Cfg (Config.set_Samples 5 (Cfg w)) w);;
    Ticks2 ← ReadU (Probe.Ch_1 p);
    let Ticks2 := if Ticks2 >? U_Zero then u16 (Ticks2 - U_Zero) else 0 in
    (* wait for a specific time (full time) *)
    wait5us_times (Z.to_nat Ticks);;
    (* get end voltage *)
    Ticks ← ReadU (Probe.Ch_1 p);
    modify (fun w => set_Cfg (Config.set_Samples (ADC_SAMPLES bc) (Cfg w)) w);;
    wdt_reset;;
    let Ticks := if Ticks >? U_Zero then u16 (Ticks - U_Zero) else 0 in
    (* calculate V_loss *)
    when (Ticks2 >? Ticks)
      (let U_Zero := u16 (Ticks2 - Ticks) in
       store Cap (Capacitor.set_U_loss (u16 (u32 (U_Zero * 500) / Ticks2))));;
    mret None
  else mret None.

Definition SmallCap (fuel : nat) (Cap : nat) : M Z :=
  let Flag := 3 in
  let Ticks2 := 0 in
  (* prepare probes *)
  DischargeProbes;;
  Found ← gets (fun w => Checking.Found (Check w));
  if Found =? COMP_ERROR bc then mret 0 else
  p ← gets Probes;
  let TPs := Z.lor (Z.lor (bit (TP1 bc)) (bit (TP2 bc))) (bit (TP3 bc)) in
  (* set probes: Gnd -- all probes / Gnd -- Rh -- probe-1 *)
  out R_PORT 0;;
  out ADC_DDR (u8 TPs);;
  out ADC_PORT 0;;
  out R_DDR (Probe.Rh_1 p);;
  (* set up analog comparator *)
  out ADCSRB (bit ACME);;
  out ACSR (Z.lor (bit ACBG) (bit ACIC));;
  out ADMUX (u8 (Z.lor (ADC_REF_VCC bc) (Probe.Ch_1 p)));;
  out ADCSRA (ADC_CLOCK_DIV bc);;
  wait_us 200;;
  (* set up timer *)
  out TCCR1A 0;;
  out TCCR1B 0;;
  out TCNT1 0;;
  out TIFR1 (Z.lor (Z.lor (Z.lor (bit ICF1) (bit OCF1B)) (bit OCF1A)) (bit TOV1));;
  out R_PORT (Probe.Rh_1 p);;
  (* enable timer *)
  let TempByte := if Found =? COMP_FET bc
                  then u8 (Z.land TPs (Z.lnot (Probe.Pin_1 p)))
                  else Probe.Pin_2 p in
  out TCCR1B (bit CS10);;
  out ADC_DDR TempByte;;
  (* timer loop *)
  '(TempByte, Ticks2) ← timer_loop fuel Ticks2;
  (* stop counter *)
  out TCCR1B 0;;
  out TIFR1 (bit ICF1);;
  Ticks ← in_ICR1;
  (* disable charging *)
  out R_DDR 0;;
  (* catch missed timer overflow *)
  counter ← in_TCNT1;
  Ticks2 ← (if (counter >? Ticks) && nonzero (Z.land TempByte (bit TOV1)) then
              out TIFR1 (bit TOV1);;
              mret (u16 (Ticks2 + 1))
            else mret Ticks2);
  (* enable ADC again *)
  out ADCSRA (Z.lor (Z.lor (bit ADEN) (bit ADIF)) (ADC_CLOCK_DIV bc));;
  out_and ADCSRB (not8 (bit ACME));;
  (* get voltage of DUT *)
  U_c ← (if HW_ADJUST_CAP bc then mret 0 else ReadU (Probe.Ch_1 p));
  (* start discharging DUT *)
  out R_PORT 0;;
  out R_DDR (Probe.Rh_1 p);;
  (* skip measurement if charging took too long *)
  let Flag := if Ticks2 >=? overflow_budget then 1 else Flag in
  (* calculate capacitance *)
  if Flag =? 3 then
    nv ← gets NV;
    cfg ← gets Cfg;
    '(Scale, Raw, Value) ← lift (SmallCap_calc nv cfg p Ticks Ticks2);
    (* copy data *)
    store Cap (Capacitor.set_result (Probe.ID_2 p) (Probe.ID_1 p) Scale Raw Value);;
    (* self-adjust the offsets if C is 100nF up to 20uF *)
    when (negb (HW_ADJUST_CAP bc) &&
          (((Scale =? -12) && (Value >=? 100000)) ||
           ((Scale =? -9) && (Value <=? 20000))))
      (SmallCap_adjust fuel Value U_c);;
    early ← (if SW_C_VLOSS bc then SmallCap_vloss Cap Scale Value else mret None);
    match early with
    | Some r => mret r
    | None => mret Flag
    end
  else mret Flag.

(** ** Capacitance between two probe pins *)

(** The loop through the resistors found: [rs] is the array from
    [Resistor] on, and the result is [TempByte] after the loop.  Reading
    past the end of the array has no defined behaviour. *)
Fixpoint MeasureCap_resistors (rs : list Resistor_Type)
    (count Probe1 Probe2 TempByte : Z) : option Z :=
  match rs with
  | [] => if TempByte <? count then None else Some TempByte
  | Resistor :: rs' =>
      if TempByte <? count then
        let TempByte :=
          if ((Resistor.A Resistor =? Probe1) && (Resistor.B Resistor =? Probe2)) ||
             ((Resistor.A Resistor =? Probe2) && (Resistor.B Resistor =? Probe1))
          then
            (* check for low value < 10 Ohms *)
            if CmpValue bc (Resistor.Value Resistor) (Resistor.Scale Resistor) 10 0 =? -1
            then 99
            else TempByte
          else TempByte in
        MeasureCap_resistors rs' count Probe1 Probe2 (u8 (TempByte + 1))
      else Some TempByte
  end.

(** reset cap data *)
Definition Cap_reset (c : Capacitor_Type) : Capacitor_Type :=
  Capacitor.mk 0 0 (-12) 0 0 0 (Capacitor.I_leak_Scale c)
               (if SW_C_VLOSS bc then 0 else Capacitor.U_loss c).

Definition MeasureCap (fuel : nat) (Probe1 Probe2 ID : Z) : M unit :=
  let Cap := Z.to_nat ID in
  store Cap Cap_reset;;
  chk ← gets Check;
  if Checking.Found chk =? COMP_ERROR bc then skip else
  (* a resistor < 10 Ohms could be also a large cap *)
  is_resistor ←
    (if Checking.Found chk =? COMP_RESISTOR bc then
       rs ← gets Resistors;
       TempByte ← lift (MeasureCap_resistors rs (Checking.Resistors chk) Probe1 Probe2 0);
       mret (negb (TempByte =? 100))
     else mret false);
  if (is_resistor : bool) then skip else
  (* skip measurement for "dangerous" diodes *)
  ds ← gets Diodes;
  let low_Vf := match SearchDiode bc chk ds Probe1 Probe2 with
                | Some Diode => Diode.V_f Diode <? 1500
                | None => false
                end in
  if low_Vf then skip else
  (* run measurements *)
  call_UpdateProbes2 Probe1 Probe2;;
  TempByte ← LargeCap fuel Cap;
  TempByte ← (if TempByte =? 2 then SmallCap fuel Cap else mret TempByte);
  (* check for plausibility *)
  chk ← gets Check;
  c ← deref Cap;
  when (Checking.Found chk <? COMP_DIODE bc)
    (if Checking.Found chk =? COMP_RESISTOR bc then
       when (Capacitor.Scale c >=? -6)
         (modify (fun w => set_Check (Checking.set_Found (COMP_CAPACITOR bc) (Check w)) w))
     else
       when ((Capacitor.Scale c >? -12) || (Capacitor.Value c >=? 5))
         (modify (fun w => set_Check (Checking.set_Found (COMP_CAPACITOR bc) (Check w)) w)));;
  (* clean up *)
  DischargeProbes;;
  out ADC_DDR 0;;
  out ADC_PORT 0;;
  out R_DDR 0;;
  out R_PORT 0.

(** ** Reference cap for the voltage offsets (HW_ADJUST_CAP) *)

(** The discharge loop [while (TempByte <= 50)]; the result is [TempByte]
    after the loop. *)
Fixpoint RefCap_discharge (n : nat) (TempByte : Z) : M Z :=
  match n with
  | O => if TempByte <=? 50 then undefined else mret TempByte
  | S n' =>
      if TempByte <=? 50 then
        U_c ← ReadU (TP_CAP bc);
        if U_c <=? CAP_DISCHARGED bc
        then RefCap_discharge n' 100
        else
          let TempByte := u8 (TempByte + 1) in
          emit (MilliSleep 20);;
          RefCap_discharge n' TempByte
      else mret TempByte
  end.

Definition RefCap (fuel : nat) : M Z :=
  let Flag := 0 in
  (* discharge cap *)
  out_and ADC_DDR (not8 (bit (TP_CAP bc)));;
  out_or ADJUST_DDR (bit (ADJUST_RH bc));;
  out_and ADJUST_PORT (not8 (bit (ADJUST_RH bc)));;
  TempByte ← RefCap_discharge 52 0;
  if negb (TempByte =? 100) then mret Flag else
  let Ticks2 := 0 in
  (* set up analog comparator *)
  out ADCSRB (bit ACME);;
  out ACSR (Z.lor (bit ACBG) (bit ACIC));;
  out ADMUX (u8 (Z.lor (ADC_REF_VCC bc) (TP_CAP bc)));;
  out ADCSRA (ADC_CLOCK_DIV bc);;
  wait_us 200;;
  (* set up timer *)
  out TCCR1A 0;;
  out TCCR1B 0;;
  out TCNT1 0;;
  out TIFR1 (Z.lor (Z.lor (Z.lor (bit ICF1) (bit OCF1B)) (bit OCF1A)) (bit TOV1));;
  out TCCR1B (bit CS10);;
  out_or ADJUST_PORT (bit (ADJUST_RH bc));;
  (* timer loop *)
  '(TempByte, Ticks2) ← timer_loop fuel Ticks2;
  (* stop counter *)
  out TCCR1B 0;;
  out TIFR1 (bit ICF1);;
  out_and ADJUST_DDR (not8 (bit (ADJUST_RH bc)));;
  (* catch missed timer overflow *)
  flags ← in_TIFR1;
  when (nonzero (Z.land flags (bit TOV1))) (out TIFR1 (bit TOV1));;
  (* enable ADC again *)
  out ADCSRA (Z.lor (Z.lor (bit ADEN) (bit ADIF)) (ADC_CLOCK_DIV bc));;
  out_and ADCSRB (not8 (bit ACME));;
  (* get voltage of DUT *)
  U_c ← ReadU (TP_CAP bc);
  (* start discharging DUT *)
  out_and ADJUST_PORT (not8 (bit (ADJUST_RH bc)));;
  out_or ADJUST_DDR (bit (ADJUST_RH bc));;
  (* check for charging timeout *)
  let Flag := if Ticks2 <? overflow_budget then 1 else Flag in
  if nonzero Flag then
    discharge_below fuel (TP_CAP bc);;
    out_and ADJUST_DDR (not8 (bit (ADJUST_RH bc)));;
    modify (fun w => set_Cfg (Config.set_AutoScale 0 (Cfg w)) w);;
    Ticks ← ReadU (TP_CAP bc);
    modify (fun w => set_Cfg (Config.set_AutoScale 1 (Cfg w)) w);;
    Ticks2 ← ReadU (TP_CAP bc);
    out_or ADJUST_DDR (bit (ADJUST_RH bc));;
    let Offset := s16 (Ticks - Ticks2) in
    Bandgap ← gets (fun w => Config.Bandgap (Cfg w));
    let Ticks := u16 Bandgap in
    Ticks ← (if (Offset <? -4) || (Offset >? 4) then
               let Value := s32 Offset in
               let Value := s32 (Value * Ticks) in
               if Ticks2 =? 0 then undefined else
               let Value := Z.quot Value Ticks2 in
               modify (fun w => set_NV (Adjust.set_RefOffset
                         (s8 (Adjust.RefOffset (NV w) + s8 Value)) (NV w)) w);;
               let Ticks := u16 (Ticks + s8 Value) in
               modify (fun w => set_Cfg (Config.set_Bandgap Ticks (Cfg w)) w);;
               mret Ticks
             else mret Ticks);
    (* U_offset = U_c - U_bandgap *)
    let Offset := s16 (U_c - Ticks) in
    (* limit offset to a valid range of -50mV - 50mV *)
    when ((Offset >? -50) && (Offset <? 50))
      (modify (fun w => set_NV (Adjust.set_CompOffset (s8 Offset) (NV w)) w));;
    mret Flag
  else mret Flag.

(** ** Vocabulary of the properties *)

(** [m], started in [w], returns [x] and leaves [w']. *)
Definition runs {X} (m : M X) (w : World) (x : X) (w' : World) : Prop :=
  m w = Some (x, w').

(** [m], started in [w], returns, and its result and final state satisfy
    [Q]. *)
Definition wp {X} (m : M X) (Q : X -> World -> Prop) (w : World) : Prop :=
  exists x w', m w = Some (x, w') /\ Q x w'.

(** Whenever [m], started in [w], returns, its result and final state
    satisfy [Q]. *)
Definition wlp {X} (m : M X) (Q : X -> World -> Prop) (w : World) : Prop :=
  forall x w', m w = Some (x, w') -> Q x w'.

(** What a piece of code leaves as it was: the global variables.  The
    counters of the oracles and the trace advance. *)
Definition same_globals (w w' : World) : Prop :=
  NV w' = NV w /\ Cfg w' = Cfg w /\ Check w' = Check w /\
  Probes w' = Probes w /\ Caps w' = Caps w /\
  Resistors w' = Resistors w /\ Diodes w' = Diodes w.

(** The ADC readings of [n] runs of the ESR loop, from the [k]-th value
    read on: each run reads U_1, U_2, U_3, U_4 in this order; U_1 and U_3
    are taken without the DUT, U_2 and U_4 with it. *)
Fixpoint unloaded_sum (k n : nat) : Z :=
  match n with
  | O => 0
  | S n' => u16 (ADCW_in hw k) + u16 (ADCW_in hw (2 + k)) + unloaded_sum (4 + k) n'
  end.
Fixpoint loaded_sum (k n : nat) : Z :=
  match n with
  | O => 0
  | S n' => u16 (ADCW_in hw (1 + k)) + u16 (ADCW_in hw (3 + k)) + loaded_sum (4 + k) n'
  end.

(** [Sum_1] and [Sum_2] at the end of the 255 loop runs of a measurement
    started in [w] *)
Definition ESR_Sum_1 (w : World) : Z := 1 + unloaded_sum (n_ADCW w) 255.
Definition ESR_Sum_2 (w : World) : Z := 1 + loaded_sum (n_ADCW w) 255.

(** The ESR measurement is carried out: the capacitor is large enough, the
    probes could be discharged and the delay timer could be set up. *)
Definition ESR_measured (Cap : nat) (c : Capacitor_Type) (w : World) : Prop :=
  Caps w !! Cap = Some c /\
  CmpValue bc (Capacitor.Value c) (Capacitor.Scale c) 10 (-9) >= 0 /\
  Checking.Found (Check w) <> COMP_ERROR bc /\
  Discharge_in hw (n_Discharge w) = false /\
  17 <= ESR_delay_cycles.

(** The probes as [MeasureESR] sets them up for the capacitor [c] *)
Definition ESR_probes (c : Capacitor_Type) (w : World) : Probes_Type :=
  UpdateProbes2 bc (Capacitor.A c) (Capacitor.B c) (Probes w).

(** The events of a trace that satisfy [f] *)
Fixpoint count_events (f : event -> bool) (t : list event) : nat :=
  match t with
  | [] => O
  | e :: t' => if f e then S (count_events f t') else count_events f t'
  end.

Definition is_pulse (e : event) : bool :=
  match e with
  | Call_PullProbe _ _ => true
  | _ => false
  end.

(** The charging pulses sent so far *)
Definition pulses (w : World) : nat := count_events is_pulse (trace w).

(** A pass of [LargeCap] through its label [large_cap] whose first
    [ReadU()] is the [k]-th: the zero offset it measures, the voltage of
    the DUT after the [i]-th pulse with the zero offset considered, and
    whether the first pulse takes the DUT above 1300 mV. *)
Definition LargeCap_U_Zero (k : nat) : Z :=
  s16 (s16 (u16 (ReadU_in hw k)) - u16 (ReadU_in hw (1 + k))).
Definition LargeCap_U_Cap (k i : nat) : Z :=
  let U_Cap := u16 (ReadU_in hw (1 + i + k)) in
  if U_Cap >? u16 (LargeCap_U_Zero k)
  then u16 (U_Cap - u16 (LargeCap_U_Zero k))
  else 0.
Definition LargeCap_single_pulse (k : nat) : bool :=
  LargeCap_U_Cap k 1 >? 1300.

(** [DischargeProbes()], called in [w], leaves no error behind. *)
Definition discharged (w : World) : bool :=
  negb (Discharge_in hw (n_Discharge w)) &&
  negb (Checking.Found (Check w) =? COMP_ERROR bc).

(** A pass through [large_cap] that starts in [w] in mode [Mode] ends in
    [goto large_cap]: the probes are discharged, the first pulse takes the
    DUT above 1300 mV and the mode is one of 10 ms pulses. *)
Definition LargeCap_restarts (Mode : Z) (w : World) : bool :=
  discharged w && LargeCap_single_pulse (n_ReadU w) &&
  nonzero (Z.land Mode (PULL_10MS bc)).

(** The passes of a call through [large_cap]: each pass calls
    [DischargeProbes()] once, and nothing else in [LargeCap] does. *)
Definition LargeCap_passes (w w' : World) : nat :=
  (n_Discharge w' - n_Discharge w)%nat.

(** The [k]-th poll of TIFR1 shows the input capture flag, resp. the
    overflow flag; the polls with the overflow flag among the [n] polls
    from the [k]-th on. *)
Definition captured (k : nat) : bool :=
  nonzero (Z.land (u8 (TIFR1_in hw k)) (bit ICF1)).
Definition overflowed (k : nat) : bool :=
  nonzero (Z.land (u8 (TIFR1_in hw k)) (bit TOV1)).
Fixpoint overflows (k n : nat) : nat :=
  match n with
  | O => O
  | S n' => ((if overflowed k then 1 else 0) + overflows (S k) n')%nat
  end.

(** No capture event before the overflow counter reaches its budget: none
    of the [n] polls from the [k]-th on shows the capture flag, and the
    last of them shows the overflow that uses up the budget. *)
Definition timer_times_out (k n : nat) : Prop :=
  (forall i, (i < n)%nat -> captured (k + i) = false) /\
  (exists n', n = S n' /\ overflowed (k + n') = true) /\
  Z.of_nat (overflows k n) = overflow_budget.

(** The zero offset of the capacitance, as [SmallCap] compares it with
    the value *)
Definition SmallCap_CapZero (w : World) : Z := u32 (NV_CapZero (NV w) (Probes w)).

(** [c'] holds the same capacitance as [c]. *)
Definition same_capacitance (c c' : Capacitor_Type) : Prop :=
  Capacitor.Scale c' = Capacitor.Scale c /\
  Capacitor.Raw c' = Capacitor.Raw c /\
  Capacitor.Value c' = Capacitor.Value c.

End Firmware.

(** * The older ESR measurement (SW_OLD_ESR)

    The second [MeasureESR] of cap.c, compiled instead of the first one in
    builds with SW_OLD_ESR: pulses of full length around the sample and
    hold of the ADC, a lower limit of 180 nF and no answer of 0 Ohm. *)

Module OldESR.
Section Firmware.

Variable bc : Build.
Variable hw : Hardware.

Definition SetupDelayTimer (Cycles : Z) : M Z :=
  let Flag := 0 in
  if Cycles <? 17 then mret Flag
  else
    let Cycles := u8 (Cycles - 17) in
    out TCCR0B 0;;
    out TCCR0A (bit WGM01);;
    out OCR0A Cycles;;
    let Flag := 1 in
    mret Flag.

(** The delay of half a pulse, as the [uint8_t] handed to
    [SetupDelayTimer]. *)
Definition delay_cycles : Z :=
  let U_1 := u16 (Z.quot (MCU_CYCLES_PER_ADC bc * 25) 10
                  - MCU_CYCLES_PER_US bc * 5 - 10) in
  u8 U_1.

(** One run of the measurement loop.  The loop state is [(Sum_1, Sum_2)]. *)
Definition round (Probe1 Probe2 Bits : Z) (st : Z * Z) : M (Z * Z) :=
  let '(Sum_1, Sum_2) := st in
  p ← gets Probes;
  (* forward mode, probe-1 only: voltage at probe-1 *)
  out ADC_DDR (Probe.Pin_1 p);;
  out R_PORT (Probe.Rl_1 p);;
  out R_DDR (Probe.Rl_1 p);;
  out ADMUX Probe1;;
  wdt_reset;;
  out ADCSRA Bits;; await_clear ADCSRA (bit ADSC);;
  out ADCSRA Bits;; await_clear ADCSRA (bit ADSC);;
  U_1 ← in_ADCW hw;
  (* forward mode, positive charging pulse: voltage at probe-2 *)
  out ADMUX Probe2;;
  out ADCSRA Bits;; await_clear ADCSRA (bit ADSC);;
  out ADCSRA Bits;;
  wait_us 5;;
  out R_PORT (Probe.Rl_2 p);;
  out R_DDR (Probe.Rl_2 p);;
  DelayTimer;;
  DelayTimer;;
  out R_PORT 0;;
  out R_DDR 0;;
  await_clear ADCSRA (bit ADSC);;
  U_2 ← in_ADCW hw;
  (* prevent runaway of cap's charge *)
  when (U_2 <=? 100) (
    out R_PORT (Probe.Rl_2 p);;
    out R_DDR (Probe.Rl_2 p);;
    wait_us 2;;
    DelayTimer;;
    out R_DDR 0;;
    out R_PORT 0);;
  (* reverse mode, probe-2 only: voltage at probe-2 *)
  out ADC_DDR (Probe.Pin_2 p);;
  out R_PORT (Probe.Rl_2 p);;
  out R_DDR (Probe.Rl_2 p);;
  out ADMUX Probe2;;
  wdt_reset;;
  out ADCSRA Bits;; await_clear ADCSRA (bit ADSC);;
  out ADCSRA Bits;; await_clear ADCSRA (bit ADSC);;
  U_3 ← in_ADCW hw;
  (* reverse mode, negative charging pulse: voltage at probe-1 *)
  out ADMUX Probe1;;
  out ADCSRA Bits;; await_clear ADCSRA (bit ADSC);;
  out ADCSRA Bits;;
  wait_us 5;;
  out R_PORT (Probe.Rl_1 p);;
  out R_DDR (Probe.Rl_1 p);;
  DelayTimer;;
  DelayTimer;;
  out R_PORT 0;;
  out R_DDR 0;;
  await_clear ADCSRA (bit ADSC);;
  U_4 ← in_ADCW hw;
  (* prevent runaway of cap's charge *)
  when (U_4 <=? 100) (
    out R_PORT (Probe.Rl_1 p);;
    out R_DDR (Probe.Rl_1 p);;
    wait_us 2;;
    DelayTimer;;
    out R_DDR 0;;
    out R_PORT 0);;
  (* manage measured values *)
  let U_1 := u16 (U_1 + U_3) in
  let Sum_1 := u32 (Sum_1 + U_1) in
  let U_2 := u16 (U_2 + U_4) in
  let Sum_2 := u32 (Sum_2 + U_2) in
  mret (Sum_1, Sum_2).

(** [while (n > 0) { ...; n--; }] *)
Fixpoint loop (Probe1 Probe2 Bits : Z) (n : nat) (st : Z * Z) : M (Z * Z) :=
  match n with
  | O => mret st
  | S n' =>
      st' ← round Probe1 Probe2 Bits st;
      loop Probe1 Probe2 Bits n' st'
  end.

(** "process measurements" and "calculate ESR": the value of [ESR] after
    the sums are known. *)
Definition process (ESR : Z) (nv : Adjust_Type) (p : Probes_Type)
    (Sum_1 Sum_2 : Z) : Z :=
  (* calculate voltage across the DUT *)
  let Sum_2 := if Sum_2 >? Sum_1 then u32 (Sum_2 - Sum_1) else 0 in
  (* ESR = Sum_2 * RiL / Sum_1 *)
  let Value := u32 (u16 (Adjust.RiL nv * 10)) in
  let Value := u32 (Value * Sum_2) in
  let Value := Value / Sum_1 in
  let U_1 := u16 Value in
  (* consider probe resistance *)
  let U_2 := u16 (NV_RZero bc nv p) in
  if U_1 >? U_2 then
    let U_1 := u16 (U_1 - U_2) in
    U_1
  else ESR.

Definition MeasureESR (Cap : option nat) : M Z :=
  let ESR := UINT16_MAX in
  match Cap with
  | None => mret ESR
  | Some Cap =>
    c ← deref Cap;
    (* check for a capacitor >= 0.18uF *)
    if CmpValue bc (Capacitor.Value c) (Capacitor.Scale c) 180 (-9) <? 0
    then mret ESR else
    DischargeProbes bc hw;;
    Found ← gets (fun w => Checking.Found (Check w));
    if Found =? COMP_ERROR bc then mret ESR else
    DischargeCap (Capacitor.A c) (Capacitor.B c);;
    call_UpdateProbes2 bc (Capacitor.A c) (Capacitor.B c);;
    p ← gets Probes;
    let Probe1 := Probe.Ch_1 p in
    let Probe2 := Probe.Ch_2 p in
    let Probe1 := u8 (Z.lor Probe1 (ADC_REF_BANDGAP bc)) in
    let Probe2 := u8 (Z.lor Probe2 (ADC_REF_BANDGAP bc)) in
    let Bits := u8 (Z.lor (Z.lor (Z.lor (bit ADSC) (bit ADEN)) (bit ADIF))
                          (ADC_CLOCK_DIV bc)) in
    let Sum_1 := 1 in
    let Sum_2 := 1 in
    let n := delay_cycles in
    Flag ← SetupDelayTimer n;
    if Flag =? 0 then mret ESR else
    (* charge capacitor with a negative pulse of half length *)
    out ADC_PORT 0;;
    out ADMUX Probe1;;
    wait_us 10000;;
    out ADC_DDR (Probe.Pin_2 p);;
    out R_PORT (Probe.Rl_1 p);;
    out R_DDR (Probe.Rl_1 p);;
    DelayTimer;;
    out R_PORT 0;;
    out R_DDR 0;;
    (* measurement loop *)
    '(Sum_1, Sum_2) ← loop Probe1 Probe2 Bits 255 (Sum_1, Sum_2);
    (* process measurements *)
    nv ← gets NV;
    p ← gets Probes;
    let ESR := process ESR nv p Sum_1 Sum_2 in
    (* clean up *)
    modify (fun w => set_Cfg (Config.set_Ref (ADC_REF_BANDGAP bc) (Cfg w)) w);;
    DischargeProbes bc hw;;
    mret ESR
  end.

(** The ADC readings of [n] runs of the loop, from the [k]-th value read
    on: each run adds U_1 + U_3 to the sum without load and U_2 + U_4 to
    the sum with load, after taking the two in 16 bits. *)
Fixpoint unloaded_sum (k n : nat) : Z :=
  match n with
  | O => 0
  | S n' => u16 (u16 (ADCW_in hw k) + u16 (ADCW_in hw (2 + k)))
            + unloaded_sum (4 + k) n'
  end.
Fixpoint loaded_sum (k n : nat) : Z :=
  match n with
  | O => 0
  | S n' => u16 (u16 (ADCW_in hw (1 + k)) + u16 (ADCW_in hw (3 + k)))
            + loaded_sum (4 + k) n'
  end.

Definition Sum_1 (w : World) : Z := 1 + unloaded_sum (n_ADCW w) 255.
Definition Sum_2 (w : World) : Z := 1 + loaded_sum (n_ADCW w) 255.

(** The measurement is carried out: the capacitor is large enough, the
    probes could be discharged and the delay timer could be set up. *)
Definition measured (Cap : nat) (c : Capacitor_Type) (w : World) : Prop :=
  Caps w !! Cap = Some c /\
  CmpValue bc (Capacitor.Value c) (Capacitor.Scale c) 180 (-9) >= 0 /\
  Checking.Found (Check w) <> COMP_ERROR bc /\
  Discharge_in hw (n_Discharge w) = false /\
  17 <= delay_cycles.

End Firmware.
End OldESR.



(** * A sample build and sample runs

    An ATmega328 at 8 MHz with stand-ins for the helper functions; the
    concrete runs below are evaluated on it. *)

Definition sample_CmpValue (v1 s1 v2 s2 : Z) : Z :=
  let m := Z.min s1 s2 in
  let x := v1 * 10 ^ (s1 - m) in
  let y := v2 * 10 ^ (s2 - m) in
  if x <? y then -1 else if x =? y then 0 else 1.

Definition sample_RescaleValue (v s s' : Z) : Z :=
  if s' <=? s then v * 10 ^ (s - s') else v / 10 ^ (s' - s).

Definition sample_UpdateProbes2 (p1 p2 : Z) (_ : Probes_Type) : Probes_Type :=
  Probe.mk p1 p2
           (Z.shiftl 1 (2 * p1)) (Z.shiftl 1 (2 * p2))
           (Z.shiftl 2 (2 * p1))
           (Z.shiftl 1 p1) (Z.shiftl 1 p2)
           p1 p2.

Definition sample_SearchDiode (chk : Check_Type) (ds : list Diode_Type) (a c : Z)
  : option Diode_Type :=
  List.find (fun d => (Diode.A d =? a) && (Diode.C d =? c))
            (firstn (Z.to_nat (Checking.Diodes chk)) ds).

Definition sample_build : Build := {|
  CPU_FREQ := 8000000;
  MCU_CYCLES_PER_US := 8;
  MCU_CYCLES_PER_ADC := 64;
  ADC_CLOCK_DIV := 6;
  ADC_REF_BANDGAP := 192;
  ADC_REF_VCC := 64;
  ADC_SAMPLES := 25;
  CAP_FACTOR_SMALL := 0;
  CAP_FACTOR_MID := -40;
  CAP_FACTOR_LARGE := -90;
  CAP_DISCHARGED := 2;
  PULL_UP := 1;
  PULL_1MS := 8;
  PULL_10MS := 16;
  TABLE_SMALL_CAP := 1;
  TABLE_LARGE_CAP := 2;
  COMP_ERROR := 1;
  COMP_RESISTOR := 10;
  COMP_CAPACITOR := 11;
  COMP_DIODE := 20;
  COMP_FET := 31;
  TP1 := 0;
  TP2 := 1;
  TP3 := 2;
  TP_CAP := 7;
  ADJUST_RH := 5;
  R_MULTIOFFSET := false;
  CAP_MULTIOFFSET := false;
  HW_ADJUST_CAP := false;
  SW_C_VLOSS := false;
  CmpValue := sample_CmpValue;
  RescaleValue := sample_RescaleValue;
  GetFactor := fun _ ID => if ID =? 1 then 800 else 20000;
  GetOffsetIndex := fun a b => a + b - 1;
  UpdateProbes2 := sample_UpdateProbes2;
  SearchDiode := sample_SearchDiode
|}.

Definition sample_cap (Value Scale : Z) : Capacitor_Type :=
  Capacitor.mk 0 1 Scale Value Value 0 0 0.

(** Nothing found yet, three capacitor records, the first of [Value] *
    10^[Scale] F. *)
Definition sample_world (Value Scale : Z) : World := {|
  NV := Adjust.mk 200 (fun _ => 20) (fun _ => 40) 0 0;
  Cfg := Config.mk 0 1 1100 25;
  Check := Checking.mk 0 0 0;
  Probes := sample_UpdateProbes2 0 1 (Probe.mk 0 0 0 0 0 0 0 0 0);
  Caps := [sample_cap Value Scale; sample_cap 0 (-12); sample_cap 0 (-12)];
  Resistors := [];
  Diodes := [];
  n_ADCW := 0;
  n_ReadU := 0;
  n_TIFR1 := 0;
  n_ICR1 := 0;
  n_TCNT1 := 0;
  n_Discharge := 0;
  trace := []
|}.

(** Hardware that answers 0 everywhere and discharges at once. *)
Definition quiet : Hardware := {|
  ADCW_in := fun _ => 0;
  ReadU_in := fun _ => 0;
  TIFR1_in := fun _ => 0;
  ICR1_in := fun _ => 0;
  TCNT1_in := fun _ => 0;
  Discharge_in := fun _ => false
|}.

(** An ESR run whose ADC reads [lo] without the DUT and [hi] with it. *)
Definition esr_hardware (lo hi : Z) : Hardware := {|
  ADCW_in := fun k => if Nat.even k then lo else hi;
  ReadU_in := fun _ => 0;
  TIFR1_in := fun _ => 0;
  ICR1_in := fun _ => 0;
  TCNT1_in := fun _ => 0;
  Discharge_in := fun _ => false
|}.

(** A DUT that exceeds 1300 mV with the first pulse of every pass of
    [LargeCap]: each pass reads the zero offset twice and the DUT once. *)
Definition small_dut : Hardware := {|
  ADCW_in := fun _ => 0;
  ReadU_in := fun k => if Nat.eqb (k mod 3) 2 then 1400 else 0;
  TIFR1_in := fun _ => 0;
  ICR1_in := fun _ => 0;
  TCNT1_in := fun _ => 0;
  Discharge_in := fun _ => false
|}.

(** A timer that overflows at every poll and never captures. *)
Definition no_capture : Hardware := {|
  ADCW_in := fun _ => 0;
  ReadU_in := fun _ => 0;
  TIFR1_in := fun _ => bit TOV1;
  ICR1_in := fun _ => 0;
  TCNT1_in := fun _ => 0;
  Discharge_in := fun _ => false
|}.

(** A capture event after [overflows] timer overflows with the counter at
    [ticks]; the DUT is at [U_c] mV then and at 900 mV afterwards. *)
Definition capture_after (overflows : nat) (ticks U_c : Z) : Hardware := {|
  ADCW_in := fun _ => 0;
  ReadU_in := fun k => if Nat.eqb k 0 then U_c else 900;
  TIFR1_in := fun k => if Nat.ltb k overflows then bit TOV1 else bit ICF1;
  ICR1_in := fun _ => ticks;
  TCNT1_in := fun _ => 0;
  Discharge_in := fun _ => false
|}.

(** A diode with a forward voltage of 700 mV found between probes 0 and 1. *)
Definition diode_world : World := {|
  NV := Adjust.mk 200 (fun _ => 20) (fun _ => 40) 0 0;
  Cfg := Config.mk 0 1 1100 25;
  Check := Checking.mk 20 0 1;
  Probes := sample_UpdateProbes2 0 1 (Probe.mk 0 0 0 0 0 0 0 0 0);
  Caps := [sample_cap 470 (-9); sample_cap 0 (-12); sample_cap 0 (-12)];
  Resistors := [];
  Diodes := [Diode.mk 0 1 700];
  n_ADCW := 0;
  n_ReadU := 0;
  n_TIFR1 := 0;
  n_ICR1 := 0;
  n_TCNT1 := 0;
  n_Discharge := 0;
  trace := []
|}.

(** * Further vocabulary of the properties *)

Section Vocabulary.

Variable bc : Build.
Variable hw : Hardware.

(** Nothing in the capacitor records differs but, in a build with
    SW_C_VLOSS, the voltage loss of the record [Cap]. *)
Definition only_U_loss (Cap : nat) (w w' : World) : Prop :=
  Caps w' = Caps w \/
  (SW_C_VLOSS bc = true /\
   exists c U, Caps w !! Cap = Some c /\
               Caps w' = <[Cap := Capacitor.set_U_loss U c]> (Caps w)).


(** What [LargeCap] leaves in the record after a measurement with the
    probes [p]. *)
Definition LargeCap_record (p : Probes_Type) (c : Capacitor_Type) : Prop :=
  Capacitor.A c = Probe.ID_2 p /\ Capacitor.B c = Probe.ID_1 p /\
  (Capacitor.Scale c = -9 \/ Capacitor.Scale c = -6) /\
  0 <= Capacitor.Raw c <= UINT32_MAX / 1000 /\
  (Capacitor.Value c =
     Capacitor.Raw c * 1000 / u32 (1000 - CAP_FACTOR_LARGE bc) \/
   Capacitor.Value c =
     Capacitor.Raw c * 1000 / u32 (1000 - CAP_FACTOR_MID bc)).

(** The charge loop of a pass of [LargeCap] whose first [ReadU()] is the
    [k]-th goes on after pulse [i]: the pulse is not the last of the 500,
    the DUT is below 300 mV, and at pulse 126 it is not below 75 mV. *)
Definition LargeCap_goes_on (k i : nat) : bool :=
  negb (Nat.eqb i 500) &&
  (LargeCap_U_Cap hw k i <? 300) &&
  negb (Nat.eqb i 126 && (LargeCap_U_Cap hw k i <? 75)).

(** The charge loop of that pass ends with pulse [e]. *)
Definition LargeCap_ends_at (k e : nat) : Prop :=
  (1 <= e)%nat /\
  (forall i, (1 <= i < e)%nat -> LargeCap_goes_on k i = true) /\
  LargeCap_goes_on k e = false.

(** The voltage drop of the DUT over the time of [e] more conversions,
    after the [e] pulses of that pass. *)
Definition LargeCap_U_Drop (k e : nat) : Z :=
  let U_Drop := u16 (ReadU_in hw (2 + e + k)) in
  let U_leak := u16 (ReadU_in hw (2 + e + e + k)) in
  if U_Drop >? U_leak then u16 (U_Drop - U_leak) else 0.

(** The raw capacitance in nF that [LargeCap] takes from [e] pulses of
    10 ms: the factor of the table for the voltage reached, drop included,
    times the pulses times 10. *)
Definition LargeCap_raw_10ms (k e : nat) : Z :=
  u32 (u32 (u32 (u16 (GetFactor bc
                        (u16 (LargeCap_U_Cap hw k e + LargeCap_U_Drop k e))
                        (TABLE_LARGE_CAP bc)))
            * Z.of_nat e)
       * 10).

(** The timer loop started at the [k]-th poll of TIFR1 sees the capture
    flag at its poll number [n] (counted from 0) and not before. *)
Definition captured_at (k n : nat) : Prop :=
  (forall i, (i < n)%nat -> captured hw (k + i) = false) /\
  captured hw (k + n) = true.

(** The overflow counter of [SmallCap] after a capture at poll [n]: the
    overflows seen before, and one more when the flags of the last poll
    show an overflow and the counter is beyond the captured value. *)
Definition SmallCap_overflows (w : World) (n : nat) : Z :=
  let counted := Z.of_nat (overflows hw (n_TIFR1 w) n) in
  let TempByte := u8 (TIFR1_in hw (n_TIFR1 w + n)) in
  let Ticks := u16 (ICR1_in hw (n_ICR1 w)) in
  if (u16 (TCNT1_in hw (n_TCNT1 w)) >? Ticks) && nonzero (Z.land TempByte (bit TOV1))
  then counted + 1
  else counted.

(** [SmallCap] runs its self-adjustment after storing this scale and
    value. *)
Definition SmallCap_adjusts (Scale Value : Z) : bool :=
  negb (HW_ADJUST_CAP bc) &&
  (((Scale =? -12) && (Value >=? 100000)) || ((Scale =? -9) && (Value <=? 20000))).

Definition is_sleep (e : event) : bool :=
  match e with
  | MilliSleep _ => true
  | _ => false
  end.

(** The calls of [MilliSleep()] so far *)
Definition sleeps (w : World) : nat := count_events is_sleep (trace w).

(** A resistor between the two probes, in either direction, of less than
    10 Ohms *)
Definition low_resistor (Probe1 Probe2 : Z) (r : Resistor_Type) : bool :=
  (((Resistor.A r =? Probe1) && (Resistor.B r =? Probe2)) ||
   ((Resistor.A r =? Probe2) && (Resistor.B r =? Probe1))) &&
  (CmpValue bc (Resistor.Value r) (Resistor.Scale r) 10 0 =? -1).

End Vocabulary.

(** * Further sample hardware and a further sample state *)

(** A DUT read at [U] mV whenever it is read: the zero offset of
    [LargeCap], the difference of two readings, is 0. *)
Definition steady_dut (U : Z) : Hardware := {|
  ADCW_in := fun _ => 0;
  ReadU_in := fun _ => U;
  TIFR1_in := fun _ => 0;
  ICR1_in := fun _ => 0;
  TCNT1_in := fun _ => 0;
  Discharge_in := fun _ => false
|}.

(** Probes that [DischargeProbes()] cannot discharge *)
Definition stuck_probes : Hardware := {|
  ADCW_in := fun _ => 0;
  ReadU_in := fun _ => 0;
  TIFR1_in := fun _ => 0;
  ICR1_in := fun _ => 0;
  TCNT1_in := fun _ => 0;
  Discharge_in := fun _ => true
|}.

(** A resistor of 1 kOhm found between probes 0 and 1 *)
Definition resistor_world : World := {|
  NV := Adjust.mk 200 (fun _ => 20) (fun _ => 40) 0 0;
  Cfg := Config.mk 0 1 1100 25;
  Check := Checking.mk 10 1 0;
  Probes := sample_UpdateProbes2 0 1 (Probe.mk 0 0 0 0 0 0 0 0 0);
  Caps := [sample_cap 470 (-9); sample_cap 0 (-12); sample_cap 0 (-12)];
  Resistors := [Resistor.mk 0 1 0 1000];
  Diodes := [];
  n_ADCW := 0;
  n_ReadU := 0;
  n_TIFR1 := 0;
  n_ICR1 := 0;
  n_TCNT1 := 0;
  n_Discharge := 0;
  trace := []
|}.

(** * Properties *)

Section Properties.

Variable bc : Build.
Variable hw : Hardware.

Lemma same_globals_refl w : same_globals w w.
Proof. repeat split. Qed.

Lemma same_globals_trans w1 w2 w3 :
  same_globals w1 w2 -> same_globals w2 w3 -> same_globals w1 w3.
Proof.
  unfold same_globals. intros (?&?&?&?&?&?&?) (?&?&?&?&?&?&?).
  repeat split; congruence.
Qed.

(** ** Machine integers *)

Lemma u8_range x : 0 <= u8 x < 256.
Proof. unfold u8. apply Z.mod_pos_bound. lia. Qed.
Lemma u16_range x : 0 <= u16 x < 65536.
Proof. unfold u16. apply Z.mod_pos_bound. lia. Qed.
Lemma u32_range x : 0 <= u32 x < 4294967296.
Proof. unfold u32. apply Z.mod_pos_bound. lia. Qed.
Lemma u8_id x : 0 <= x < 256 -> u8 x = x.
Proof. unfold u8. intros. apply Z.mod_small. lia. Qed.
Lemma u16_id x : 0 <= x < 65536 -> u16 x = x.
Proof. unfold u16. intros. apply Z.mod_small. lia. Qed.
Lemma u32_id x : 0 <= x < 4294967296 -> u32 x = x.
Proof. unfold u32. intros. apply Z.mod_small. lia. Qed.
Lemma s8_id x : -128 <= x < 128 -> s8 x = x.
Proof. unfold s8. intros. rewrite Z.mod_small; lia. Qed.
Lemma s16_range x : -32768 <= s16 x < 32768.
Proof. unfold s16. pose proof (Z.mod_pos_bound (x + 32768) 65536). lia. Qed.

(** ** Running monadic code *)

Lemma runs_bind {X Y} (m : M X) (k : X -> M Y) w x w1 y w2 :
  runs m w x w1 -> runs (k x) w1 y w2 -> runs (m ≫= k) w y w2.
Proof. unfold runs, mbind, M_bind. intros ->. auto. Qed.

Lemma runs_ret {X} (x : X) w : runs (mret x) w x w.
Proof. reflexivity. Qed.

Lemma returns_bind {X Y} (m : M X) (k : X -> M Y) w x w1 y :
  runs m w x w1 -> (exists w2, runs (k x) w1 y w2) ->
  exists w2, runs (m ≫= k) w y w2.
Proof. intros H (w2 & H2). exists w2. eapply runs_bind; eauto. Qed.

Lemma runs_inj {X} (m : M X) w x w1 y w2 :
  runs m w x w1 -> runs m w y w2 -> x = y /\ w1 = w2.
Proof. unfold runs. intros H1 H2. rewrite H1 in H2. inversion H2. auto. Qed.

Ltac proj_simpl :=
  cbn [NV Cfg Check Probes Caps Resistors Diodes
       n_ADCW n_ReadU n_TIFR1 n_ICR1 n_TCNT1 n_Discharge trace
       log tick_ADCW tick_ReadU tick_TIFR1 tick_ICR1 tick_TCNT1 tick_Discharge
       set_NV set_Cfg set_Check set_Probes set_Caps] in *.
Ltac step :=
  eapply returns_bind; [reflexivity | cbv beta iota zeta; proj_simpl].
Ltac step_by H :=
  eapply returns_bind; [exact H | cbv beta iota zeta; proj_simpl].
Ltac finish := eexists; apply runs_ret.

Lemma runs_deref Cap c w : Caps w !! Cap = Some c -> runs (deref Cap) w c w.
Proof. unfold runs, deref. intros ->. reflexivity. Qed.

Lemma runs_DischargeProbes_ok w :
  Discharge_in hw (n_Discharge w) = false ->
  runs (DischargeProbes bc hw) w tt (log (Call_DischargeProbes false) (tick_Discharge w)).
Proof. unfold runs, DischargeProbes. intros ->. reflexivity. Qed.

Lemma runs_DischargeProbes w :
  exists w', runs (DischargeProbes bc hw) w tt w'
             /\ NV w' = NV w /\ Cfg w' = Cfg w /\ Probes w' = Probes w
             /\ Caps w' = Caps w /\ n_ADCW w' = n_ADCW w /\ n_ReadU w' = n_ReadU w.
Proof.
  unfold runs, DischargeProbes.
  destruct (Discharge_in hw (n_Discharge w)); eexists; (split; [reflexivity|]);
    repeat split.
Qed.

(** ** ESR measurement *)

Lemma unloaded_sum_range k n : 0 <= unloaded_sum hw k n <= 131070 * Z.of_nat n.
Proof.
  revert k. induction n as [|n IH]; intros k; cbn [unloaded_sum]; [lia|].
  specialize (IH (4 + k)%nat).
  pose proof (u16_range (ADCW_in hw k)).
  pose proof (u16_range (ADCW_in hw (2 + k))). lia.
Qed.

Lemma loaded_sum_range k n : 0 <= loaded_sum hw k n <= 131070 * Z.of_nat n.
Proof.
  revert k. induction n as [|n IH]; intros k; cbn [loaded_sum]; [lia|].
  specialize (IH (4 + k)%nat).
  pose proof (u16_range (ADCW_in hw (1 + k))).
  pose proof (u16_range (ADCW_in hw (3 + k))). lia.
Qed.

Lemma ESR_round_spec Probe1 Probe2 Bits U_2 U_4 Sum_1 Sum_2 w :
  exists w',
    ESR_round bc hw Probe1 Probe2 Bits (U_2, U_4, Sum_1, Sum_2) w =
      Some ((u16 (ADCW_in hw (1 + n_ADCW w)), u16 (ADCW_in hw (3 + n_ADCW w)),
             u32 (u32 (Sum_1 + u16 (ADCW_in hw (n_ADCW w)))
                  + u16 (ADCW_in hw (2 + n_ADCW w))),
             u32 (u32 (Sum_2 + u16 (ADCW_in hw (1 + n_ADCW w)))
                  + u16 (ADCW_in hw (3 + n_ADCW w)))), w')
    /\ same_globals w w' /\ n_ADCW w' = (4 + n_ADCW w)%nat
    /\ n_Discharge w' = n_Discharge w.
Proof.
  unfold ESR_round.
  destruct (U_4 <? 50), (U_2 <? 50), (CPU_FREQ bc <? 8000000);
    (eexists; split; [reflexivity | repeat split]).
Qed.

Lemma ESR_loop_spec Probe1 Probe2 Bits n :
  forall U_2 U_4 Sum_1 Sum_2 w,
    0 <= Sum_1 -> 0 <= Sum_2 ->
    Sum_1 + 131070 * Z.of_nat n < 4294967296 ->
    Sum_2 + 131070 * Z.of_nat n < 4294967296 ->
    exists U_2' U_4' w',
      runs (ESR_loop bc hw Probe1 Probe2 Bits n (U_2, U_4, Sum_1, Sum_2)) w
           (U_2', U_4', Sum_1 + unloaded_sum hw (n_ADCW w) n,
                        Sum_2 + loaded_sum hw (n_ADCW w) n) w'
      /\ same_globals w w' /\ n_Discharge w' = n_Discharge w.
Proof.
  induction n as [|n IH]; intros U_2 U_4 Sum_1 Sum_2 w H1 H2 B1 B2.
  - exists U_2, U_4, w. cbn [ESR_loop unloaded_sum loaded_sum].
    rewrite !Z.add_0_r. split; [apply runs_ret|]. split; [apply same_globals_refl|auto].
  - destruct (ESR_round_spec Probe1 Probe2 Bits U_2 U_4 Sum_1 Sum_2 w)
      as (w1 & E & G1 & NA & ND).
    pose proof (u16_range (ADCW_in hw (n_ADCW w))) as R0.
    pose proof (u16_range (ADCW_in hw (1 + n_ADCW w))) as R1.
    pose proof (u16_range (ADCW_in hw (2 + n_ADCW w))) as R2.
    pose proof (u16_range (ADCW_in hw (3 + n_ADCW w))) as R3.
    rewrite (u32_id (Sum_1 + _)) in E by lia.
    rewrite (u32_id (Sum_1 + _ + _)) in E by lia.
    rewrite (u32_id (Sum_2 + _)) in E by lia.
    rewrite (u32_id (Sum_2 + _ + _)) in E by lia.
    edestruct (IH (u16 (ADCW_in hw (1 + n_ADCW w))) (u16 (ADCW_in hw (3 + n_ADCW w)))
                 (Sum_1 + u16 (ADCW_in hw (n_ADCW w)) + u16 (ADCW_in hw (2 + n_ADCW w)))
                 (Sum_2 + u16 (ADCW_in hw (1 + n_ADCW w)) + u16 (ADCW_in hw (3 + n_ADCW w)))
                 w1) as (U_2' & U_4' & w2 & E2 & G2 & ND2); try lia.
    exists U_2', U_4', w2. split; [|split].
    + cbn [ESR_loop unloaded_sum loaded_sum]. eapply runs_bind; [exact E|].
      rewrite NA in E2. rewrite !Z.add_assoc. exact E2.
    + eapply same_globals_trans; eauto.
    + congruence.
Qed.

Lemma ESR_sums_range w :
  1 <= ESR_Sum_1 hw w <= 33422851 /\ 1 <= ESR_Sum_2 hw w <= 33422851.
Proof.
  unfold ESR_Sum_1, ESR_Sum_2.
  pose proof (unloaded_sum_range (n_ADCW w) 255).
  pose proof (loaded_sum_range (n_ADCW w) 255). lia.
Qed.

(** A measurement that is carried out returns what "process measurements"
    makes of the two sums. *)
Lemma MeasureESR_run Cap c w :
  ESR_measured bc hw Cap c w ->
  exists w',
    runs (MeasureESR bc hw (Some Cap)) w
         (ESR_process bc UINT16_MAX (NV w) (ESR_probes bc c w) c
            (ESR_Sum_1 hw w) (ESR_Sum_2 hw w)) w'.
Proof.
  intros (HC & Hcmp & HF & HD & Hn).
  unfold MeasureESR, ESR_probes. cbv beta iota zeta.
  step_by (runs_deref _ _ _ HC).
  replace (CmpValue bc (Capacitor.Value c) (Capacitor.Scale c) 10 (-9) <? 0) with false
    by (symmetry; apply Z.ltb_ge; lia).
  step_by (runs_DischargeProbes_ok _ HD).
  step.
  rewrite (proj2 (Z.eqb_neq _ _) HF).
  do 3 step.
  eapply returns_bind.
  { unfold runs, SetUpDelayTimer.
    replace (ESR_delay_cycles bc <? 17) with false by (symmetry; apply Z.ltb_ge; lia).
    reflexivity. }
  cbv beta iota zeta. change (1 =? 0) with false. cbv iota.
  do 3 step.
  edestruct (ESR_loop_spec
               (u8 (Z.lor (Probe.Ch_1 (UpdateProbes2 bc (Capacitor.A c) (Capacitor.B c) (Probes w)))
                          (ADC_REF_BANDGAP bc)))
               (u8 (Z.lor (Probe.Ch_2 (UpdateProbes2 bc (Capacitor.A c) (Capacitor.B c) (Probes w)))
                          (ADC_REF_BANDGAP bc)))
               (u8 (Z.lor (Z.lor (Z.lor (bit ADSC) (bit ADEN)) (bit ADIF)) (ADC_CLOCK_DIV bc)))
               255%nat 50 0 1 1) as (U_2' & U_4' & w2 & E & G & ND);
    [lia | lia | lia | lia |].
  step_by E.
  destruct G as (GNV & GCfg & GCheck & GProbes & GCaps & _).
  proj_simpl.
  do 4 step.
  eapply returns_bind.
  { apply runs_deref. proj_simpl. rewrite GCaps. exact HC. }
  cbv beta iota zeta.
  step.
  edestruct runs_DischargeProbes as (w3 & E3 & _).
  step_by E3.
  rewrite GNV, GProbes.
  finish.
Qed.

(** The result of a measurement whose sums pass the validity guard *)
Lemma MeasureESR_valid_sums Cap c w :
  ESR_measured bc hw Cap c w ->
  ESR_Sum_2 hw w > ESR_Sum_1 hw w ->
  let Sum_1 := ESR_Sum_1 hw w in
  let Sum_2 := ESR_Sum_2 hw w in
  let RZero := u16 (NV_RZero bc (NV w) (ESR_probes bc c w)) in
  let raw := u16 (u32 (u16 (Adjust.RiL (NV w) * 10) * (Sum_2 - Sum_1)) / Sum_1) in
  exists w',
    runs (MeasureESR bc hw (Some Cap)) w
         (if raw >? RZero then raw - RZero
          else if CmpValue bc (Capacitor.Value c) (Capacitor.Scale c) 1000 (-6) >? 0
               then 0 else UINT16_MAX) w'.
Proof.
  intros HM Hgt Sum_1 Sum_2 RZero raw.
  pose proof (ESR_sums_range w) as (R1 & R2). fold Sum_1 Sum_2 in R1, R2, Hgt.
  destruct (MeasureESR_run Cap c w HM) as (w' & E). exists w'.
  unfold ESR_process in E. fold Sum_1 Sum_2 in E.
  replace (Sum_2 >? Sum_1) with true in E by (symmetry; apply Z.gtb_lt; lia).
  rewrite (u32_id (Sum_2 - Sum_1)) in E by lia.
  rewrite (u32_id (u16 _)) in E by (pose proof (u16_range (Adjust.RiL (NV w) * 10)); lia).
  fold raw RZero in E.
  destruct (raw >? RZero) eqn:Hraw; [|exact E].
  rewrite u16_id in E; [exact E|].
  apply Z.gtb_lt in Hraw.
  pose proof (u16_range (u32 (u16 (Adjust.RiL (NV w) * 10) * (Sum_2 - Sum_1)) / Sum_1)) as H.
  pose proof (u16_range (NV_RZero bc (NV w) (ESR_probes bc c w))) as H0.
  fold raw in H. fold RZero in H0. lia.
Qed.

(** X17.  For every ESR measurement that is carried out and
    passes its validity guard ([Sum_2 > Sum_1]), [MeasureESR] computes
    (RiL * 10) * (Sum_2 - Sum_1) / Sum_1 in machine arithmetic: RiL * 10 in
    16 bits, the product in 32 bits, and the quotient cut to its low 16
    bits gives the raw ESR.  When the raw ESR exceeds the zero offset RZero
    the result is their difference; otherwise it is 0 for a capacitor that
    compares greater than 1000 uF and UINT16_MAX else.  Whenever none of
    the three steps overflows, the raw ESR is the exact quotient. *)
Theorem MeasureESR_formula Cap c w :
  ESR_measured bc hw Cap c w ->
  ESR_Sum_2 hw w > ESR_Sum_1 hw w ->
  let Sum_1 := ESR_Sum_1 hw w in
  let Sum_2 := ESR_Sum_2 hw w in
  let RiL := Adjust.RiL (NV w) in
  let RZero := u16 (NV_RZero bc (NV w) (ESR_probes bc c w)) in
  let raw := u16 (u32 (u16 (RiL * 10) * (Sum_2 - Sum_1)) / Sum_1) in
  (exists w',
     runs (MeasureESR bc hw (Some Cap)) w
          (if raw >? RZero then raw - RZero
           else if CmpValue bc (Capacitor.Value c) (Capacitor.Scale c) 1000 (-6) >? 0
                then 0 else UINT16_MAX) w')
  /\ (0 <= RiL * 10 < 65536 ->
      RiL * 10 * (Sum_2 - Sum_1) < 4294967296 ->
      RiL * 10 * (Sum_2 - Sum_1) / Sum_1 < 65536 ->
      raw = RiL * 10 * (Sum_2 - Sum_1) / Sum_1).
Proof.
  intros HM Hgt Sum_1 Sum_2 RiL RZero raw.
  pose proof (ESR_sums_range w) as (R1 & R2). fold Sum_1 Sum_2 in R1, R2, Hgt.
  split.
  - exact (MeasureESR_valid_sums Cap c w HM Hgt).
  - intros HR HP HQ. unfold raw.
    rewrite (u16_id (RiL * 10)) by lia.
    assert (0 <= RiL * 10 * (Sum_2 - Sum_1)) by nia.
    rewrite u32_id by lia.
    apply u16_id. split; [apply Z.div_pos; lia | lia].
Qed.

(** C6.  For every ESR measurement in which the loaded sum is at most the
    unloaded sum at the end of the 255 loop runs, [MeasureESR] returns the
    failure sentinel UINT16_MAX. *)
Theorem MeasureESR_invalid_sums Cap c w :
  ESR_measured bc hw Cap c w ->
  ESR_Sum_2 hw w <= ESR_Sum_1 hw w ->
  exists w', runs (MeasureESR bc hw (Some Cap)) w UINT16_MAX w'.
Proof.
  intros HM Hle.
  destruct (MeasureESR_run Cap c w HM) as (w' & E). exists w'.
  unfold ESR_process in E.
  replace (ESR_Sum_2 hw w >? ESR_Sum_1 hw w) with false in E
    by (symmetry; rewrite Z.gtb_ltb; apply Z.ltb_ge; lia).
  exact E.
Qed.

(** ** Capacitance measurement for large caps *)

Lemma same_globals_by_eq w w' :
  NV w' = NV w -> Cfg w' = Cfg w -> Check w' = Check w -> Probes w' = Probes w ->
  Caps w' = Caps w -> Resistors w' = Resistors w -> Diodes w' = Diodes w ->
  same_globals w w'.
Proof. unfold same_globals. auto 10. Qed.

Ltac frame := apply same_globals_by_eq; reflexivity.

(** One run of the charge loop *)
Lemma LargeCap_charge_step Mode U_Zero n Pulses w :
  LargeCap_charge hw (S n) Mode U_Zero Pulses w =
    let Pulses := u16 (Pulses + 1) in
    let v := u16 (ReadU_in hw (n_ReadU w)) in
    let U_Cap := if v >? u16 U_Zero then u16 (v - u16 U_Zero) else 0 in
    let w1 := log Wdt_reset
                (log (Call_ReadU (Probe.Ch_1 (Probes w)) v)
                   (tick_ReadU (log (Call_PullProbe (Probe.Rl_1 (Probes w)) Mode) w))) in
    (if nonzero (if Pulses =? 500 then 0
                 else if U_Cap >=? 300 then 0
                      else if (Pulses =? 126) && (U_Cap <? 75) then 0 else 1)
     then LargeCap_charge hw n Mode U_Zero Pulses
     else mret (Pulses, U_Cap)) w1.
Proof. reflexivity. Qed.

(** The charge loop ends within the 500 pulses. *)
Lemma LargeCap_charge_returns Mode U_Zero n :
  forall Pulses w,
    0 <= Pulses < 500 -> 500 - Pulses <= Z.of_nat n ->
    exists Pulses' U_Cap w',
      runs (LargeCap_charge hw n Mode U_Zero Pulses) w (Pulses', U_Cap) w'
      /\ Pulses < Pulses' <= 500
      /\ same_globals w w' /\ n_Discharge w' = n_Discharge w.
Proof.
  induction n as [|n IH]; intros Pulses w HP Hn; [lia|].
  unfold runs. rewrite LargeCap_charge_step. cbv zeta.
  rewrite (u16_id (Pulses + 1)) by lia.
  match goal with |- context [nonzero ?c] => destruct (nonzero c) eqn:Hloop end.
  - destruct (Pulses + 1 =? 500) eqn:H500; [discriminate|].
    apply Z.eqb_neq in H500.
    edestruct (IH (Pulses + 1)) as (P' & U' & w' & E & HP' & G & ND); [lia|lia|].
    exists P', U', w'. split; [exact E|]. split; [lia|]. split.
    + eapply same_globals_trans; [|exact G]. frame.
    + rewrite ND. reflexivity.
  - eexists _, _, _. split; [reflexivity|]. split; [lia|]. split; [frame|reflexivity].
Qed.

(** The first pulse: at 300 mV or more the loop ends with it, below 300 mV
    more pulses follow. *)
Lemma LargeCap_charge_first_exit Mode k w :
  n_ReadU w = (2 + k)%nat ->
  LargeCap_U_Cap hw k 1 >= 300 ->
  runs (LargeCap_charge hw 500 Mode (LargeCap_U_Zero hw k) 0) w
       (1, LargeCap_U_Cap hw k 1)
       (log Wdt_reset
          (log (Call_ReadU (Probe.Ch_1 (Probes w)) (u16 (ReadU_in hw (2 + k))))
             (tick_ReadU (log (Call_PullProbe (Probe.Rl_1 (Probes w)) Mode) w)))).
Proof.
  intros Hk H300. unfold runs. change 500%nat with (S 499).
  rewrite LargeCap_charge_step. cbv zeta.
  change (u16 (0 + 1)) with 1. rewrite Hk.
  change (1 =? 500) with false. change (1 =? 126) with false. cbv iota.
  rewrite andb_false_l.
  change (if u16 (ReadU_in hw (2 + k)) >? u16 (LargeCap_U_Zero hw k)
          then u16 (u16 (ReadU_in hw (2 + k)) - u16 (LargeCap_U_Zero hw k))
          else 0) with (LargeCap_U_Cap hw k 1).
  replace (LargeCap_U_Cap hw k 1 >=? 300) with true
    by (symmetry; rewrite Z.geb_leb; apply Z.leb_le; lia).
  reflexivity.
Qed.

Lemma LargeCap_charge_first_more Mode k w :
  n_ReadU w = (2 + k)%nat ->
  LargeCap_U_Cap hw k 1 < 300 ->
  exists Pulses U_Cap w',
    runs (LargeCap_charge hw 500 Mode (LargeCap_U_Zero hw k) 0) w (Pulses, U_Cap) w'
    /\ 1 < Pulses <= 500
    /\ same_globals w w' /\ n_Discharge w' = n_Discharge w.
Proof.
  intros Hk H300. unfold runs. change 500%nat with (S 499).
  rewrite LargeCap_charge_step. cbv zeta.
  change (u16 (0 + 1)) with 1. rewrite Hk.
  change (1 =? 500) with false. change (1 =? 126) with false. cbv iota.
  rewrite andb_false_l.
  change (if u16 (ReadU_in hw (2 + k)) >? u16 (LargeCap_U_Zero hw k)
          then u16 (u16 (ReadU_in hw (2 + k)) - u16 (LargeCap_U_Zero hw k))
          else 0) with (LargeCap_U_Cap hw k 1).
  replace (LargeCap_U_Cap hw k 1 >=? 300) with false
    by (symmetry; rewrite Z.geb_leb; apply Z.leb_gt; lia).
  edestruct (LargeCap_charge_returns Mode (LargeCap_U_Zero hw k) 499 1)
    as (P' & U' & w' & E & HP' & G & ND); [lia|lia|].
  exists P', U', w'. split; [exact E|]. split; [lia|]. split.
  - eapply same_globals_trans; [|exact G]. frame.
  - rewrite ND. reflexivity.
Qed.

(** The early exit of the charge loop: no 300 mV before pulse 126 and less
    than 75 mV at pulse 126. *)
Lemma LargeCap_charge_slow Mode k d :
  forall n P w,
    (P + d = 126)%nat -> (1 <= d <= n)%nat ->
    n_ReadU w = (2 + k + P)%nat ->
    (forall i, (P < i < 126)%nat -> LargeCap_U_Cap hw k i < 300) ->
    LargeCap_U_Cap hw k 126 < 75 ->
    exists w',
      runs (LargeCap_charge hw n Mode (LargeCap_U_Zero hw k) (Z.of_nat P)) w
           (126, LargeCap_U_Cap hw k 126) w'
      /\ same_globals w w' /\ n_Discharge w' = n_Discharge w
      /\ pulses w' = (pulses w + d)%nat.
Proof.
  induction d as [|d IH]; intros n P w HPd Hd Hk Hlow H126; [lia|].
  destruct n as [|n]; [lia|].
  unfold runs. rewrite LargeCap_charge_step. cbv zeta.
  rewrite (u16_id (Z.of_nat P + 1)) by lia.
  rewrite Hk.
  replace (2 + k + P)%nat with (1 + S P + k)%nat by lia.
  change (if u16 (ReadU_in hw (1 + S P + k)) >? u16 (LargeCap_U_Zero hw k)
          then u16 (u16 (ReadU_in hw (1 + S P + k)) - u16 (LargeCap_U_Zero hw k))
          else 0) with (LargeCap_U_Cap hw k (S P)).
  replace (Z.of_nat P + 1 =? 500) with false by (symmetry; apply Z.eqb_neq; lia).
  destruct d as [|d].
  - (* pulse 126 *)
    replace (S P) with 126%nat by lia.
    replace (Z.of_nat P + 1) with 126 by lia.
    replace (LargeCap_U_Cap hw k 126 >=? 300) with false
      by (symmetry; rewrite Z.geb_leb; apply Z.leb_gt; lia).
    replace (LargeCap_U_Cap hw k 126 <? 75) with true
      by (symmetry; apply Z.ltb_lt; lia).
    eexists. split; [reflexivity|]. split; [frame|]. split; [reflexivity|].
    unfold pulses. proj_simpl. cbn [count_events is_pulse]. lia.
  - replace (LargeCap_U_Cap hw k (S P) >=? 300) with false
      by (symmetry; rewrite Z.geb_leb; apply Z.leb_gt; apply Hlow; lia).
    replace (Z.of_nat P + 1 =? 126) with false by (symmetry; apply Z.eqb_neq; lia).
    rewrite andb_false_l. change (nonzero 1) with true. cbv iota.
    replace (Z.of_nat P + 1) with (Z.of_nat (S P)) by lia.
    edestruct (IH n (S P)) as (w' & E & G & ND & HPul);
      [lia | lia | | | exact H126 | ].
    3:{ exists w'. split; [exact E|]. split; [|split].
        - eapply same_globals_trans; [|exact G]. frame.
        - rewrite ND. reflexivity.
        - rewrite HPul. unfold pulses. proj_simpl. cbn [count_events is_pulse]. lia. }
    + proj_simpl. lia.
    + intros i Hi. apply Hlow. lia.
Qed.

(** ** Reasoning by postconditions *)

Lemma wp_runs {X} (m : M X) Q w :
  wp m Q w <-> exists x w', runs m w x w' /\ Q x w'.
Proof. reflexivity. Qed.

Lemma wp_result {X} (m : M X) (x : X) (P : World -> Prop) w :
  wp m (fun r w' => r = x /\ P w') w -> exists w', runs m w x w' /\ P w'.
Proof. intros (r & w' & E & -> & HP). exists w'. auto. Qed.

Lemma wp_ret {X} (x : X) (Q : X -> World -> Prop) w : Q x w -> wp (mret x) Q w.
Proof. intros H. exists x, w. split; [reflexivity|exact H]. Qed.

Lemma wp_bind {X Y} (m : M X) (k : X -> M Y) (Q : Y -> World -> Prop) w :
  wp m (fun x w1 => wp (k x) Q w1) w -> wp (m ≫= k) Q w.
Proof.
  intros (x & w1 & E & y & w2 & E2 & HQ). exists y, w2. split; [|exact HQ].
  unfold mbind, M_bind. rewrite E. exact E2.
Qed.

Lemma wp_mono {X} (m : M X) (Q Q' : X -> World -> Prop) w :
  wp m Q w -> (forall x w', Q x w' -> Q' x w') -> wp m Q' w.
Proof. intros (x & w' & E & HQ) H. exists x, w'. auto. Qed.

Lemma wp_gets {X} (f : World -> X) (Q : X -> World -> Prop) w :
  Q (f w) w -> wp (gets f) Q w.
Proof. intros H. exists (f w), w. split; [reflexivity|exact H]. Qed.

Lemma wp_modify (f : World -> World) (Q : unit -> World -> Prop) w :
  Q tt (f w) -> wp (modify f) Q w.
Proof. intros H. exists tt, (f w). split; [reflexivity|exact H]. Qed.

Lemma wp_emit (e : event) (Q : unit -> World -> Prop) w :
  Q tt (log e w) -> wp (emit e) Q w.
Proof. apply wp_modify. Qed.

Lemma wp_ReadU ch (Q : Z -> World -> Prop) w :
  Q (u16 (ReadU_in hw (n_ReadU w)))
    (log (Call_ReadU ch (u16 (ReadU_in hw (n_ReadU w)))) (tick_ReadU w)) ->
  wp (ReadU hw ch) Q w.
Proof. intros H. eexists _, _. split; [reflexivity|exact H]. Qed.

Lemma wp_in_TIFR1 (Q : Z -> World -> Prop) w :
  Q (u8 (TIFR1_in hw (n_TIFR1 w)))
    (log (Rd TIFR1 (u8 (TIFR1_in hw (n_TIFR1 w)))) (tick_TIFR1 w)) ->
  wp (in_TIFR1 hw) Q w.
Proof. intros H. eexists _, _. split; [reflexivity|exact H]. Qed.

Lemma wp_in_ICR1 (Q : Z -> World -> Prop) w :
  Q (u16 (ICR1_in hw (n_ICR1 w)))
    (log (Rd ICR1 (u16 (ICR1_in hw (n_ICR1 w)))) (tick_ICR1 w)) ->
  wp (in_ICR1 hw) Q w.
Proof. intros H. eexists _, _. split; [reflexivity|exact H]. Qed.

Lemma wp_in_TCNT1 (Q : Z -> World -> Prop) w :
  Q (u16 (TCNT1_in hw (n_TCNT1 w)))
    (log (Rd TCNT1 (u16 (TCNT1_in hw (n_TCNT1 w)))) (tick_TCNT1 w)) ->
  wp (in_TCNT1 hw) Q w.
Proof. intros H. eexists _, _. split; [reflexivity|exact H]. Qed.

Lemma wp_DischargeProbes (Q : unit -> World -> Prop) w :
  (forall w', runs (DischargeProbes bc hw) w tt w' ->
     Q tt w') ->
  wp (DischargeProbes bc hw) Q w.
Proof. intros H. eexists _, _. split; [reflexivity|]. apply H. reflexivity. Qed.

Lemma wp_store Cap f (Q : unit -> World -> Prop) w :
  (Cap < length (Caps w))%nat ->
  (forall c, Caps w !! Cap = Some c ->
     Q tt (set_Caps (<[Cap := f c]> (Caps w)) w)) ->
  wp (store Cap f) Q w.
Proof.
  intros HV H. destruct (lookup_lt_is_Some_2 _ _ HV) as (c & Hc).
  exists tt, (set_Caps (<[Cap := f c]> (Caps w)) w). split; [|auto].
  unfold store. rewrite Hc. reflexivity.
Qed.

Lemma wp_deref Cap (Q : Capacitor_Type -> World -> Prop) w :
  (Cap < length (Caps w))%nat ->
  (forall c, Caps w !! Cap = Some c -> Q c w) ->
  wp (deref Cap) Q w.
Proof.
  intros HV H. destruct (lookup_lt_is_Some_2 _ _ HV) as (c & Hc).
  exists c, w. split; [|auto]. unfold deref. rewrite Hc. reflexivity.
Qed.

Lemma wp_lift {X} (o : option X) x (Q : X -> World -> Prop) w :
  o = Some x -> Q x w -> wp (lift o) Q w.
Proof. intros -> H. exists x, w. split; [reflexivity|exact H]. Qed.

Lemma wp_of_runs {X} (m : M X) x w w' (Q : X -> World -> Prop) :
  runs m w x w' -> Q x w' -> wp m Q w.
Proof. intros E H. exists x, w'. auto. Qed.

Ltac wp_step :=
  lazymatch goal with
  | |- wp (mbind _ _) _ _ => apply wp_bind
  | |- wp (mret _) _ _ => apply wp_ret
  | |- wp skip _ _ => apply wp_ret
  | |- wp (gets _) _ _ => apply wp_gets
  | |- wp (modify _) _ _ => apply wp_modify
  | |- wp (call_UpdateProbes2 _ _ _) _ _ => apply wp_modify
  | |- wp (emit _) _ _ => apply wp_emit
  | |- wp (out _ _) _ _ => apply wp_emit
  | |- wp (out_and _ _) _ _ => apply wp_emit
  | |- wp (out_or _ _) _ _ => apply wp_emit
  | |- wp (await_clear _ _) _ _ => apply wp_emit
  | |- wp (await_set _ _) _ _ => apply wp_emit
  | |- wp (wait_us _) _ _ => apply wp_emit
  | |- wp wdt_reset _ _ => apply wp_emit
  | |- wp (PullProbe _ _) _ _ => apply wp_emit
  | |- wp (DischargeCap _ _) _ _ => apply wp_emit
  | |- wp (ReadU _ _) _ _ => apply wp_ReadU
  | |- wp (in_TIFR1 _) _ _ => apply wp_in_TIFR1
  | |- wp (in_ICR1 _) _ _ => apply wp_in_ICR1
  | |- wp (in_TCNT1 _) _ _ => apply wp_in_TCNT1
  | |- wp (when _ _) _ _ => unfold when
  | |- wp (if ?c then _ else _) _ _ => destruct c eqn:?
  end; cbv beta iota zeta; proj_simpl.

Lemma wp_LargeCap_hold ch n :
  forall U_leak w (Q : Z -> World -> Prop),
    (forall U' w', same_globals w w' -> n_Discharge w' = n_Discharge w ->
                   pulses w' = pulses w -> Q U' w') ->
    wp (LargeCap_hold hw n ch U_leak) Q w.
Proof.
  induction n as [|n IH]; intros U_leak w Q HQ; cbn [LargeCap_hold].
  - apply wp_ret, HQ; [apply same_globals_refl|reflexivity|reflexivity].
  - do 4 wp_step. apply IH. intros U' w' G ND HP. apply HQ.
    + eapply same_globals_trans; [|exact G]. frame.
    + rewrite ND. reflexivity.
    + rewrite HP. reflexivity.
Qed.

Lemma rescale_returns bound fuel :
  forall Value Scale,
    1 <= bound -> 0 <= Value < 10 ^ Z.of_nat fuel ->
    exists Value' Scale', rescale fuel bound Value Scale = Some (Value', Scale').
Proof.
  induction fuel as [|fuel IH]; intros Value Scale Hb HV; cbn [rescale].
  - change (10 ^ Z.of_nat 0) with 1 in HV.
    replace (Value >? bound) with false by (symmetry; rewrite Z.gtb_ltb; apply Z.ltb_ge; lia).
    eauto.
  - destruct (Value >? bound); [|eauto].
    apply IH; [lia|].
    rewrite Nat2Z.inj_succ, Z.pow_succ_r in HV by lia.
    split; [apply Z.div_pos; lia|].
    apply Z.div_lt_upper_bound; lia.
Qed.

Lemma div_range x d : 0 <= x -> 0 <= d -> 0 <= x / d <= x.
Proof.
  intros Hx Hd. destruct (Z.eq_dec d 0) as [->|Hd0].
  - rewrite Z.div_0_r. lia.
  - split; [apply Z.div_pos; lia|].
    apply Z.div_le_upper_bound; [lia|]. nia.
Qed.

Lemma u32_div_range x d : 0 <= u32 x / u32 d < 10 ^ Z.of_nat 10.
Proof.
  pose proof (u32_range x). pose proof (u32_range d).
  pose proof (div_range (u32 x) (u32 d)).
  change (10 ^ Z.of_nat 10) with 10000000000. lia.
Qed.

Lemma u32_div_const_range x d : 0 <= d -> 0 <= u32 x / d < 10 ^ Z.of_nat 10.
Proof.
  intros Hd. pose proof (u32_range x).
  pose proof (div_range (u32 x) d).
  change (10 ^ Z.of_nat 10) with 10000000000. lia.
Qed.

Ltac solve_valid :=
  proj_simpl; rewrite ?length_insert;
  repeat match goal with H : Caps _ = Caps _ |- _ => rewrite H end;
  assumption.

Ltac wp_rescale :=
  lazymatch goal with
  | |- wp (lift (rescale 10 ?b ?V ?S)) _ _ =>
      let E := fresh "E" in
      destruct (rescale_returns b 10 V S) as (? & ? & E);
      [ unfold UINT16_MAX; lia
      | first [apply u32_div_range | apply u32_div_const_range; lia]
      | eapply wp_lift; [exact E|]; cbv beta iota zeta; proj_simpl ]
  end.

Ltac wp_udiv :=
  lazymatch goal with
  | |- wp (lift (udiv _ ?d)) _ _ =>
      let E := fresh "E" in
      assert (E : (d =? 0) = false) by (apply Z.eqb_neq; assumption);
      unfold udiv; rewrite E; clear E;
      eapply wp_lift; [reflexivity|]; cbv beta iota zeta; proj_simpl
  | |- wp (lift (if ?c then udiv _ _ else udiv _ _)) _ _ =>
      destruct c eqn:?
  end.

Ltac wp_more :=
  first
    [ wp_step
    | wp_rescale
    | wp_udiv
    | apply wp_store; [solve_valid | intros ? ?]; cbv beta iota zeta; proj_simpl
    | lazymatch goal with
      | |- wp (let '(_, _) := if ?c then _ else _ in _) _ _ =>
          destruct c eqn:?; cbv beta iota zeta
      end ].

Lemma wp_LargeCap_finish Cap Flag Mode Pulses U_Cap w (Q : Z -> World -> Prop) :
  u32 (1000 - CAP_FACTOR_LARGE bc) <> 0 ->
  u32 (1000 - CAP_FACTOR_MID bc) <> 0 ->
  (Cap < length (Caps w))%nat ->
  (forall r w',
      n_Discharge w' = n_Discharge w -> length (Caps w') = length (Caps w) ->
      (Flag <> 3 -> r = Flag /\ w' = w) -> Q r w') ->
  wp (LargeCap_finish bc hw Cap Flag Mode Pulses U_Cap) Q w.
Proof.
  intros HLarge HMid HV HQ. unfold LargeCap_finish.
  do 2 wp_step.
  destruct (Flag =? 3) eqn:HF.
  - apply Z.eqb_eq in HF.
    repeat wp_step.
    all: apply wp_LargeCap_hold; intros U' w1 (_ & _ & _ & _ & GCaps & _) ND1 _.
    all: repeat wp_more.
    all: apply HQ; proj_simpl; rewrite ?length_insert; try congruence.
  - repeat (wp_step; rewrite ?HF). apply HQ; auto.
Qed.

Lemma wp_DischargeProbes_cases (Q : unit -> World -> Prop) w :
  (Discharge_in hw (n_Discharge w) = false ->
   Q tt (log (Call_DischargeProbes false) (tick_Discharge w))) ->
  (Discharge_in hw (n_Discharge w) = true ->
   Q tt (set_Check (Checking.set_Found (COMP_ERROR bc) (Check w))
           (log (Call_DischargeProbes true) (tick_Discharge w)))) ->
  wp (DischargeProbes bc hw) Q w.
Proof.
  intros H0 H1. unfold wp, DischargeProbes.
  destruct (Discharge_in hw (n_Discharge w)); eexists _, _; (split; [reflexivity|]); auto.
Qed.

(** One pass through [large_cap]: it ends the call, or it jumps back with
    the mode of 1 ms pulses, three [ReadU()] calls and one
    [DischargeProbes()] call later. *)
Lemma wp_LargeCap_pass n Cap Mode w (Q : Z -> World -> Prop) :
  u32 (1000 - CAP_FACTOR_LARGE bc) <> 0 ->
  u32 (1000 - CAP_FACTOR_MID bc) <> 0 ->
  (Cap < length (Caps w))%nat ->
  (LargeCap_restarts bc hw Mode w = false ->
   forall r w',
     n_Discharge w' = S (n_Discharge w) ->
     (discharged bc hw w = true ->
      LargeCap_single_pulse hw (n_ReadU w) = true -> r = 2) ->
     Q r w') ->
  (LargeCap_restarts bc hw Mode w = true ->
   forall w1,
     n_Discharge w1 = S (n_Discharge w) -> n_ReadU w1 = (3 + n_ReadU w)%nat ->
     Check w1 = Check w -> Caps w1 = Caps w ->
     wp (LargeCap_from bc hw n Cap 3 (u8 (Z.lor (PULL_1MS bc) (PULL_UP bc)))) Q w1) ->
  wp (LargeCap_from bc hw (S n) Cap 3 Mode) Q w.
Proof.
  intros HLarge HMid HV Hend Hgoto. cbn [LargeCap_from].
  unfold LargeCap_restarts, discharged in *.
  wp_step. apply wp_DischargeProbes_cases; intros HD; rewrite HD in *;
    cbv beta iota zeta; proj_simpl.
  2:{ wp_step. wp_step. cbn [Checking.Found Checking.set_Found].
      rewrite Z.eqb_refl. wp_step. apply Hend; [reflexivity|reflexivity|].
      discriminate. }
  do 2 wp_step.
  destruct (Checking.Found (Check w) =? COMP_ERROR bc) eqn:HF.
  { wp_step. apply Hend; [reflexivity|reflexivity|]. discriminate. }
  cbn [negb andb] in *.
  repeat wp_step.
  change (s16 (s16 (u16 (ReadU_in hw (n_ReadU w))) - u16 (ReadU_in hw (S (n_ReadU w)))))
    with (LargeCap_U_Zero hw (n_ReadU w)).
  destruct (Z_lt_ge_dec (LargeCap_U_Cap hw (n_ReadU w) 1) 300) as [Hlt|Hge].
  - (* below 300 mV after the first pulse *)
    match goal with |- wp _ _ ?W =>
      destruct (LargeCap_charge_first_more Mode (n_ReadU w) W eq_refl Hlt)
        as (P' & U' & w' & E & HP' & G & ND)
    end.
    eapply wp_of_runs; [exact E|]. cbv beta iota zeta.
    replace (P' =? 1) with false by (symmetry; apply Z.eqb_neq; lia).
    rewrite andb_false_l. cbv iota.
    destruct G as (_ & _ & _ & _ & GCaps & _). proj_simpl.
    apply wp_LargeCap_finish; [exact HLarge|exact HMid|solve_valid|].
    intros r w2 ND2 _ HFlag.
    assert (HS : LargeCap_single_pulse hw (n_ReadU w) = false).
    { unfold LargeCap_single_pulse. rewrite Z.gtb_ltb. apply Z.ltb_ge. lia. }
    rewrite HS in *. apply Hend; [reflexivity| |discriminate].
    rewrite ND2, ND. reflexivity.
  - (* the first pulse ends the loop *)
    eapply wp_of_runs.
    { apply (LargeCap_charge_first_exit Mode (n_ReadU w)); [|exact Hge].
      proj_simpl. reflexivity. }
    cbv beta iota zeta. change (1 =? 1) with true. rewrite andb_true_l.
    fold (LargeCap_single_pulse hw (n_ReadU w)).
    destruct (LargeCap_single_pulse hw (n_ReadU w)) eqn:HS.
    + destruct (nonzero (Z.land Mode (PULL_10MS bc))) eqn:HM.
      * replace (LargeCap_U_Cap hw (n_ReadU w) 1 <? 300) with false
          by (symmetry; apply Z.ltb_ge; lia).
        apply Hgoto; reflexivity.
      * apply wp_LargeCap_finish; [exact HLarge|exact HMid|solve_valid|].
        intros r w2 ND2 _ HFlag. destruct HFlag as [-> _]; [lia|].
        apply Hend; [reflexivity|rewrite ND2; reflexivity|reflexivity].
    + apply wp_LargeCap_finish; [exact HLarge|exact HMid|solve_valid|].
      intros r w2 ND2 _ HFlag.
      apply Hend; [reflexivity|rewrite ND2; reflexivity|discriminate].
Qed.

Lemma LargeCap_finish_skip Cap Flag Mode Pulses U_Cap w :
  Flag <> 3 -> runs (LargeCap_finish bc hw Cap Flag Mode Pulses U_Cap) w Flag w.
Proof.
  intros HF. apply Z.eqb_neq in HF.
  unfold runs, LargeCap_finish, mbind, M_bind, gets. rewrite HF.
  unfold mret, M_ret. rewrite HF. reflexivity.
Qed.

(** C2.  In a build whose mode of 1 ms pulses is not one of 10 ms pulses
    and whose compensation factors CAP_FACTOR_LARGE and CAP_FACTOR_MID differ
    from 1000 (the code divides by 1000 less the factor), [LargeCap]
    returns, and it passes through its label [large_cap] once or
    twice: twice exactly when the first pass, in the mode of 10 ms pulses,
    discharges the probes and sees more than 1300 mV after a single pulse.
    When the second pass, in the mode of 1 ms pulses, sees that again, the
    result is 2 ("capacitance too low"). *)
Theorem LargeCap_restarts_once fuel Cap w :
  Z.land (u8 (Z.lor (PULL_1MS bc) (PULL_UP bc))) (PULL_10MS bc) = 0 ->
  u32 (1000 - CAP_FACTOR_LARGE bc) <> 0 ->
  u32 (1000 - CAP_FACTOR_MID bc) <> 0 ->
  (Cap < length (Caps w))%nat ->
  (2 <= fuel)%nat ->
  let Mode_10MS := u8 (Z.lor (PULL_10MS bc) (PULL_UP bc)) in
  exists r w',
    runs (LargeCap bc hw fuel Cap) w r w' /\
    LargeCap_passes w w' = (if LargeCap_restarts bc hw Mode_10MS w then 2 else 1)%nat /\
    (LargeCap_restarts bc hw Mode_10MS w = true ->
     Discharge_in hw (S (n_Discharge w)) = false ->
     LargeCap_single_pulse hw (3 + n_ReadU w) = true ->
     r = 2).
Proof.
  intros Hmode HLarge HMid HV Hfuel Mode_10MS.
  destruct fuel as [|[|fuel]]; [lia|lia|].
  unfold LargeCap. fold Mode_10MS.
  apply (wp_runs _ (fun r w' =>
    LargeCap_passes w w' = (if LargeCap_restarts bc hw Mode_10MS w then 2 else 1)%nat /\
    (LargeCap_restarts bc hw Mode_10MS w = true ->
     Discharge_in hw (S (n_Discharge w)) = false ->
     LargeCap_single_pulse hw (3 + n_ReadU w) = true -> r = 2))).
  apply wp_LargeCap_pass; [exact HLarge|exact HMid|exact HV| |].
  - intros Hno r w' ND _. rewrite Hno. split; [|discriminate].
    unfold LargeCap_passes. rewrite ND. lia.
  - intros Hyes w1 ND1 NR1 HC1 HCaps1. rewrite Hyes.
    assert (Hlast : LargeCap_restarts bc hw (u8 (Z.lor (PULL_1MS bc) (PULL_UP bc))) w1 = false).
    { unfold LargeCap_restarts. rewrite Hmode. apply andb_false_r. }
    apply wp_LargeCap_pass;
      [exact HLarge|exact HMid|rewrite HCaps1; exact HV| |rewrite Hlast; discriminate].
    intros _ r w' ND Hlow. split.
    + unfold LargeCap_passes. rewrite ND, ND1. lia.
    + intros _ HD2 HS2. apply Hlow.
      * unfold discharged. rewrite ND1, HD2, HC1.
        unfold LargeCap_restarts, discharged in Hyes.
        apply andb_prop in Hyes as [Hyes _]. apply andb_prop in Hyes as [Hyes _].
        apply andb_prop in Hyes as [_ Hyes]. rewrite Hyes. reflexivity.
      * rewrite NR1. exact HS2.
Qed.

(** C9.  When the probes are discharged, the DUT stays below 300 mV for the
    first 125 pulses and is still below 75 mV, zero offset considered,
    after pulse 126, the charge loop ends there: [LargeCap] returns 1
    ("capacitance too high") after exactly 126 charging pulses and leaves
    the capacitor records alone. *)
Theorem LargeCap_early_exit fuel Cap w :
  discharged bc hw w = true ->
  (1 <= fuel)%nat ->
  (forall i, (1 <= i < 126)%nat -> LargeCap_U_Cap hw (n_ReadU w) i < 300) ->
  LargeCap_U_Cap hw (n_ReadU w) 126 < 75 ->
  exists w',
    runs (LargeCap bc hw fuel Cap) w 1 w' /\
    pulses w' = (pulses w + 126)%nat /\
    Caps w' = Caps w.
Proof.
  intros Hd Hfuel Hlow H126.
  destruct fuel as [|fuel]; [lia|].
  unfold discharged in Hd. apply andb_prop in Hd as [HD HF].
  apply negb_true_iff in HD. apply negb_true_iff in HF.
  unfold LargeCap. cbn [LargeCap_from].
  apply wp_result.
  wp_step. apply wp_DischargeProbes_cases; [intros _|congruence].
  cbv beta iota zeta; proj_simpl.
  do 2 wp_step. rewrite HF.
  repeat wp_step.
  change (s16 (s16 (u16 (ReadU_in hw (n_ReadU w))) - u16 (ReadU_in hw (S (n_ReadU w)))))
    with (LargeCap_U_Zero hw (n_ReadU w)).
  match goal with |- wp _ _ ?W =>
    destruct (LargeCap_charge_slow (u8 (Z.lor (PULL_10MS bc) (PULL_UP bc)))
                (n_ReadU w) 126 500 0 W) as (w' & E & G & ND & HP);
      [lia | lia | proj_simpl; lia | intros i Hi; apply Hlow; lia | exact H126 |]
  end.
  eapply wp_of_runs; [exact E|]. cbv beta iota zeta.
  replace (LargeCap_U_Cap hw (n_ReadU w) 126 <? 300) with true
    by (symmetry; apply Z.ltb_lt; lia).
  change (126 =? 1) with false. rewrite andb_false_l. cbv iota.
  eapply wp_of_runs; [apply LargeCap_finish_skip; lia|].
  split; [reflexivity|]. split.
  - rewrite HP. reflexivity.
  - destruct G as (_ & _ & _ & _ & GCaps & _). rewrite GCaps. reflexivity.
Qed.


(** ** Reasoning about the runs that return *)

Lemma wlp_runs {X} (m : M X) Q w :
  wlp m Q w <-> forall x w', runs m w x w' -> Q x w'.
Proof. reflexivity. Qed.

Lemma wlp_ret {X} (x : X) (Q : X -> World -> Prop) w : Q x w -> wlp (mret x) Q w.
Proof. intros H y w' E. inversion E; subst. exact H. Qed.

Lemma wlp_bind {X Y} (m : M X) (k : X -> M Y) (Q : Y -> World -> Prop) w :
  wlp m (fun x w1 => wlp (k x) Q w1) w -> wlp (m ≫= k) Q w.
Proof.
  intros H y w2 E. unfold mbind, M_bind in E.
  destruct (m w) as [[x w1]|] eqn:Em; [|discriminate].
  exact (H x w1 Em y w2 E).
Qed.

Lemma wlp_mono {X} (m : M X) (Q Q' : X -> World -> Prop) w :
  wlp m Q w -> (forall x w', Q x w' -> Q' x w') -> wlp m Q' w.
Proof. intros H HQ x w' E. apply HQ, H, E. Qed.

Lemma wlp_undefined {X} (Q : X -> World -> Prop) w : wlp undefined Q w.
Proof. intros x w' E. discriminate E. Qed.

Lemma wlp_gets {X} (f : World -> X) (Q : X -> World -> Prop) w :
  Q (f w) w -> wlp (gets f) Q w.
Proof. intros H y w' E. inversion E; subst. exact H. Qed.

Lemma wlp_modify (f : World -> World) (Q : unit -> World -> Prop) w :
  Q tt (f w) -> wlp (modify f) Q w.
Proof. intros H y w' E. inversion E; subst. exact H. Qed.

Lemma wlp_emit (e : event) (Q : unit -> World -> Prop) w :
  Q tt (log e w) -> wlp (emit e) Q w.
Proof. apply wlp_modify. Qed.

Lemma wlp_ReadU ch (Q : Z -> World -> Prop) w :
  Q (u16 (ReadU_in hw (n_ReadU w)))
    (log (Call_ReadU ch (u16 (ReadU_in hw (n_ReadU w)))) (tick_ReadU w)) ->
  wlp (ReadU hw ch) Q w.
Proof. intros H y w' E. inversion E; subst. exact H. Qed.

Lemma wlp_in_TIFR1 (Q : Z -> World -> Prop) w :
  Q (u8 (TIFR1_in hw (n_TIFR1 w)))
    (log (Rd TIFR1 (u8 (TIFR1_in hw (n_TIFR1 w)))) (tick_TIFR1 w)) ->
  wlp (in_TIFR1 hw) Q w.
Proof. intros H y w' E. inversion E; subst. exact H. Qed.

Lemma wlp_in_ICR1 (Q : Z -> World -> Prop) w :
  Q (u16 (ICR1_in hw (n_ICR1 w)))
    (log (Rd ICR1 (u16 (ICR1_in hw (n_ICR1 w)))) (tick_ICR1 w)) ->
  wlp (in_ICR1 hw) Q w.
Proof. intros H y w' E. inversion E; subst. exact H. Qed.

Lemma wlp_in_TCNT1 (Q : Z -> World -> Prop) w :
  Q (u16 (TCNT1_in hw (n_TCNT1 w)))
    (log (Rd TCNT1 (u16 (TCNT1_in hw (n_TCNT1 w)))) (tick_TCNT1 w)) ->
  wlp (in_TCNT1 hw) Q w.
Proof. intros H y w' E. inversion E; subst. exact H. Qed.

Lemma wlp_DischargeProbes (Q : unit -> World -> Prop) w :
  (forall failed,
     Q tt (let w1 := log (Call_DischargeProbes failed) (tick_Discharge w) in
           if failed
           then set_Check (Checking.set_Found (COMP_ERROR bc) (Check w1)) w1
           else w1)) ->
  wlp (DischargeProbes bc hw) Q w.
Proof. intros H y w' E. inversion E; subst. apply H. Qed.

Lemma wlp_store Cap f (Q : unit -> World -> Prop) w :
  (forall c, Caps w !! Cap = Some c ->
     Q tt (set_Caps (<[Cap := f c]> (Caps w)) w)) ->
  wlp (store Cap f) Q w.
Proof.
  intros H y w' E. unfold store in E.
  destruct (Caps w !! Cap) as [c|] eqn:Hc; [|discriminate].
  inversion E; subst. apply H. reflexivity.
Qed.

Lemma wlp_deref Cap (Q : Capacitor_Type -> World -> Prop) w :
  (forall c, Caps w !! Cap = Some c -> Q c w) ->
  wlp (deref Cap) Q w.
Proof.
  intros H y w' E. unfold deref in E.
  destruct (Caps w !! Cap) as [c|] eqn:Hc; [|discriminate].
  inversion E; subst. apply H. reflexivity.
Qed.

Lemma wlp_lift {X} (o : option X) (Q : X -> World -> Prop) w :
  (forall x, o = Some x -> Q x w) -> wlp (lift o) Q w.
Proof.
  intros H y w' E. unfold lift in E. destruct o as [x|]; [|discriminate].
  inversion E; subst. apply H. reflexivity.
Qed.

Ltac wlp_step :=
  lazymatch goal with
  | |- wlp (mbind _ _) _ _ => apply wlp_bind
  | |- wlp (mret _) _ _ => apply wlp_ret
  | |- wlp skip _ _ => apply wlp_ret
  | |- wlp undefined _ _ => apply wlp_undefined
  | |- wlp (gets _) _ _ => apply wlp_gets
  | |- wlp (modify _) _ _ => apply wlp_modify
  | |- wlp (call_UpdateProbes2 _ _ _) _ _ => apply wlp_modify
  | |- wlp (emit _) _ _ => apply wlp_emit
  | |- wlp (out _ _) _ _ => apply wlp_emit
  | |- wlp (out_and _ _) _ _ => apply wlp_emit
  | |- wlp (out_or _ _) _ _ => apply wlp_emit
  | |- wlp (await_clear _ _) _ _ => apply wlp_emit
  | |- wlp (await_set _ _) _ _ => apply wlp_emit
  | |- wlp (wait_us _) _ _ => apply wlp_emit
  | |- wlp wdt_reset _ _ => apply wlp_emit
  | |- wlp (PullProbe _ _) _ _ => apply wlp_emit
  | |- wlp (DischargeCap _ _) _ _ => apply wlp_emit
  | |- wlp (ReadU _ _) _ _ => apply wlp_ReadU
  | |- wlp (in_TIFR1 _) _ _ => apply wlp_in_TIFR1
  | |- wlp (in_ICR1 _) _ _ => apply wlp_in_ICR1
  | |- wlp (in_TCNT1 _) _ _ => apply wlp_in_TCNT1
  | |- wlp (DischargeProbes _ _) _ _ => apply wlp_DischargeProbes; intros [|]
  | |- wlp (store _ _) _ _ => apply wlp_store; intros ? ?
  | |- wlp (deref _) _ _ => apply wlp_deref; intros ? ?
  | |- wlp (lift _) _ _ =>
      let x := fresh "x" in
      apply wlp_lift; intros x ?;
      first [destruct x as [[? ?] ?] | destruct x as [? ?] | idtac]
  | |- wlp (when _ _) _ _ => unfold when
  | |- wlp (if ?c then _ else _) _ _ => destruct c eqn:?
  | |- wlp (match ?c with Some _ => _ | None => _ end) _ _ => destruct c eqn:?
  | |- wlp (let '(_, _) := ?c in _) _ _ => destruct c eqn:?
  end; cbv beta iota zeta; proj_simpl.

(** ** Capacitance measurement for small caps *)

Lemma timer_loop_step fuel Ticks2 w :
  timer_loop bc hw (S fuel) Ticks2 w =
    let TempByte := u8 (TIFR1_in hw (n_TIFR1 w)) in
    let w1 := log (Rd TIFR1 TempByte) (tick_TIFR1 w) in
    (if nonzero (Z.land TempByte (bit ICF1)) then mret (TempByte, Ticks2) else
     if nonzero (Z.land TempByte (bit TOV1)) then
       out TIFR1 (bit TOV1);;
       wdt_reset;;
       if u16 (Ticks2 + 1) =? overflow_budget bc
       then mret (TempByte, u16 (Ticks2 + 1))
       else timer_loop bc hw fuel (u16 (Ticks2 + 1))
     else timer_loop bc hw fuel Ticks2) w1.
Proof. reflexivity. Qed.

Lemma overflows_last k n :
  overflowed hw (k + n) = true -> (1 <= overflows hw k (S n))%nat.
Proof.
  revert k. induction n as [|n IH]; intros k H.
  - cbn [overflows]. rewrite Nat.add_0_r in H. rewrite H. lia.
  - change (overflows hw k (S (S n)))
      with ((if overflowed hw k then 1 else 0) + overflows hw (S k) (S n))%nat.
    specialize (IH (S k)). rewrite Nat.add_succ_comm in IH. specialize (IH H). lia.
Qed.

(** The timer loop of a run without capture event ends with the overflow
    that uses up the budget. *)
Lemma timer_loop_timeout n :
  forall fuel Ticks2 w,
    (S n <= fuel)%nat ->
    0 <= Ticks2 -> overflow_budget bc <= 65535 ->
    (forall i, (i < S n)%nat -> captured hw (n_TIFR1 w + i) = false) ->
    overflowed hw (n_TIFR1 w + n) = true ->
    Ticks2 + Z.of_nat (overflows hw (n_TIFR1 w) (S n)) = overflow_budget bc ->
    exists TempByte w',
      runs (timer_loop bc hw fuel Ticks2) w (TempByte, overflow_budget bc) w'
      /\ nonzero (Z.land TempByte (bit TOV1)) = true
      /\ same_globals w w' /\ n_ReadU w' = n_ReadU w /\ n_ICR1 w' = n_ICR1 w
      /\ n_TCNT1 w' = n_TCNT1 w.
Proof.
  induction n as [|n IH]; intros fuel Ticks2 w Hfuel HT HB Hcap Hov Hsum;
    (destruct fuel as [|fuel]; [lia|]);
    unfold runs; rewrite timer_loop_step; cbv zeta;
    pose proof (Hcap 0%nat ltac:(lia)) as Hc0;
    rewrite Nat.add_0_r in Hc0; unfold captured in Hc0; rewrite Hc0.
  - rewrite Nat.add_0_r in Hov. pose proof Hov as Hov'.
    unfold overflowed in Hov'. rewrite Hov'.
    cbn [overflows] in Hsum. rewrite Hov in Hsum.
    rewrite (u16_id (Ticks2 + 1)) by lia.
    replace (Ticks2 + 1) with (overflow_budget bc) by lia.
    unfold mbind, M_bind, out, wdt_reset, emit, modify.
    rewrite Z.eqb_refl.
    eexists _, _. split; [reflexivity|]. split; [exact Hov'|].
    split; [frame|]. repeat split.
  - change (overflows hw (n_TIFR1 w) (S (S n)))
      with ((if overflowed hw (n_TIFR1 w) then 1 else 0)
            + overflows hw (S (n_TIFR1 w)) (S n))%nat in Hsum.
    assert (Hlast : (1 <= overflows hw (S (n_TIFR1 w)) (S n))%nat).
    { apply overflows_last. rewrite Nat.add_succ_comm. exact Hov. }
    destruct (overflowed hw (n_TIFR1 w)) eqn:Hov0;
      pose proof Hov0 as Hov0'; unfold overflowed in Hov0'; rewrite Hov0'.
    + rewrite (u16_id (Ticks2 + 1)) by lia.
      unfold mbind, M_bind, out, wdt_reset, emit, modify.
      replace (Ticks2 + 1 =? overflow_budget bc) with false
        by (symmetry; apply Z.eqb_neq; lia).
      edestruct (IH fuel (Ticks2 + 1)) as (TB & w' & E & HTB & G & R1 & R2 & R3);
        [lia | lia | exact HB | | | | ].
      4:{ exists TB, w'. split; [exact E|]. split; [exact HTB|].
          split; [eapply same_globals_trans; [|exact G]; frame|].
          rewrite R1, R2, R3. repeat split. }
      * intros i Hi. proj_simpl.
        replace (S (n_TIFR1 w) + i)%nat with (n_TIFR1 w + S i)%nat by lia.
        apply Hcap. lia.
      * proj_simpl.
        replace (S (n_TIFR1 w) + n)%nat with (n_TIFR1 w + S n)%nat by lia. exact Hov.
      * proj_simpl. lia.
    + edestruct (IH fuel Ticks2) as (TB & w' & E & HTB & G & R1 & R2 & R3);
        [lia | lia | exact HB | | | | ].
      4:{ exists TB, w'. split; [exact E|]. split; [exact HTB|].
          split; [eapply same_globals_trans; [|exact G]; frame|].
          rewrite R1, R2, R3. repeat split. }
      * intros i Hi. proj_simpl.
        replace (S (n_TIFR1 w) + i)%nat with (n_TIFR1 w + S i)%nat by lia.
        apply Hcap. lia.
      * proj_simpl.
        replace (S (n_TIFR1 w) + n)%nat with (n_TIFR1 w + S n)%nat by lia. exact Hov.
      * proj_simpl. lia.
Qed.

(** C3.  In every run of [SmallCap] that discharges the probes and sees no
    capture event before the overflow counter reaches its budget of
    CPU_FREQ / 5000 overflows, the function returns 1 ("capacitance too
    high") and leaves every capacitor record as it was on entry. *)
Theorem SmallCap_timeout fuel Cap w n :
  1 <= overflow_budget bc <= 65534 ->
  discharged bc hw w = true ->
  timer_times_out bc hw (n_TIFR1 w) n ->
  (n <= fuel)%nat ->
  exists w', runs (SmallCap bc hw fuel Cap) w 1 w' /\ Caps w' = Caps w.
Proof.
  intros HB Hd (Hcap & (n' & -> & Hov) & Hsum) Hfuel.
  unfold discharged in Hd. apply andb_prop in Hd as [HD HF].
  apply negb_true_iff in HD. apply negb_true_iff in HF.
  apply wp_result. unfold SmallCap.
  wp_step. apply wp_DischargeProbes_cases; [intros _|congruence].
  cbv beta iota zeta; proj_simpl.
  do 2 wp_step. rewrite HF.
  repeat wp_step.
  match goal with |- wp _ _ ?W =>
    destruct (timer_loop_timeout n' fuel 0 W) as (TB & w1 & E & HTB & G & R1 & R2 & R3);
      [exact Hfuel | lia | lia | exact Hcap | exact Hov | proj_simpl; lia |]
  end.
  eapply wp_of_runs; [exact E|]. cbv beta iota zeta. rewrite HTB.
  destruct G as (_ & _ & _ & GProbes & GCaps & _). proj_simpl.
  assert (Hge1 : (overflow_budget bc + 1 >=? overflow_budget bc) = true)
    by (rewrite Z.geb_leb; apply Z.leb_le; lia).
  assert (Hge0 : (overflow_budget bc >=? overflow_budget bc) = true)
    by (rewrite Z.geb_leb; apply Z.leb_le; lia).
  rewrite (u16_id (overflow_budget bc + 1)) by lia.
  repeat (wp_step; rewrite ?Hge0, ?Hge1; change (1 =? 3) with false; cbv iota).
  all: split; [reflexivity | exact GCaps].
Qed.


Lemma wlp_timer_loop fuel :
  forall Ticks2 w (Q : Z * Z -> World -> Prop),
    0 <= Ticks2 < 65536 ->
    (forall TempByte Ticks2' w',
        same_globals w w' -> n_ReadU w' = n_ReadU w ->
        0 <= Ticks2' < 65536 -> Q (TempByte, Ticks2') w') ->
    wlp (timer_loop bc hw fuel Ticks2) Q w.
Proof.
  induction fuel as [|fuel IH]; intros Ticks2 w Q HT HQ; cbn [timer_loop].
  - apply wlp_undefined.
  - repeat wlp_step.
    + apply HQ; [frame|reflexivity|exact HT].
    + apply HQ; [frame|reflexivity|apply u16_range].
    + apply IH; [apply u16_range|]. intros TB T' w' G R HT'.
      apply HQ; [|rewrite R; reflexivity|exact HT'].
      eapply same_globals_trans; [|exact G]. frame.
    + apply IH; [exact HT|]. intros TB T' w' G R HT'.
      apply HQ; [|rewrite R; reflexivity|exact HT'].
      eapply same_globals_trans; [|exact G]. frame.
Qed.

Lemma wlp_discharge_below ch fuel :
  forall w (Q : unit -> World -> Prop),
    (forall w', same_globals w w' -> Q tt w') ->
    wlp (discharge_below hw fuel ch) Q w.
Proof.
  induction fuel as [|fuel IH]; intros w Q HQ; cbn [discharge_below].
  - apply wlp_undefined.
  - repeat wlp_step.
    + apply IH. intros w' G. apply HQ.
      eapply same_globals_trans; [|exact G]. frame.
    + apply HQ. frame.
Qed.

Lemma wlp_wait5us_times n :
  forall w (Q : unit -> World -> Prop),
    (forall w', same_globals w w' -> Q tt w') ->
    wlp (wait5us_times n) Q w.
Proof.
  induction n as [|n IH]; intros w Q HQ; cbn [wait5us_times].
  - apply wlp_ret, HQ, same_globals_refl.
  - do 2 wlp_step. apply IH. intros w' G. apply HQ.
    eapply same_globals_trans; [|exact G]. frame.
Qed.

(** The self-adjustment stores the comparator offset only when it lies
    strictly between -50 and 50 mV. *)
Lemma wlp_SmallCap_adjust fuel Value U_c w :
  wlp (SmallCap_adjust hw fuel Value U_c)
      (fun _ w' =>
         Caps w' = Caps w /\ Probes w' = Probes w /\
         Adjust.RZero (NV w') = Adjust.RZero (NV w) /\
         Adjust.CapZero (NV w') = Adjust.CapZero (NV w) /\
         exists U_bandgap,
           (U_bandgap = u16 (Config.Bandgap (Cfg w)) \/
            U_bandgap = u16 (u16 (Config.Bandgap (Cfg w)) + s8 Value)) /\
           Adjust.CompOffset (NV w') =
             let Offset := s16 (U_c - U_bandgap) in
             if (Offset >? -50) && (Offset <? 50)
             then Offset
             else Adjust.CompOffset (NV w)) w.
Proof.
  unfold SmallCap_adjust.
  do 3 wlp_step. apply wlp_discharge_below.
  intros w1 (GNV & GCfg & _ & GProbes & GCaps & _).
  do 14 wlp_step.
  cbn [Config.Bandgap Config.set_AutoScale]. rewrite GCfg.
  repeat wlp_step.
  all: cbn [Adjust.set_CompOffset Adjust.set_RefOffset Adjust.CompOffset
            Adjust.RZero Adjust.CapZero].
  all: rewrite ?GNV, ?GProbes, ?GCaps.
  all: repeat (split; [reflexivity|]).
  all: match goal with
       | H : (s16 (_ - ?t) >? -50) && _ = _ |- _ =>
           exists t; (split; [first [left; reflexivity | right; reflexivity]|]);
           cbv zeta; rewrite H; try reflexivity
       end.
  all: match goal with
       | H : (?a >? -50) && (?a <? 50) = true |- _ =>
           apply andb_prop in H as [H1 H2];
           apply Z.gtb_lt in H1; apply Z.ltb_lt in H2; apply s8_id; lia
       end.
Qed.

Ltac split_frames :=
  repeat match goal with
         | H : same_globals _ _ |- _ => destruct H as (?&?&?&?&?&?&?)
         end.

Lemma same_capacitance_refl c : same_capacitance c c.
Proof. repeat split. Qed.

(** The voltage loss measurement leaves the capacitance alone. *)
Lemma wlp_SmallCap_vloss Cap Scale Value w :
  wlp (SmallCap_vloss bc hw Cap Scale Value)
      (fun early w' =>
         (early = None \/ early = Some 0) /\
         NV w' = NV w /\
         forall c, Caps w !! Cap = Some c ->
                   exists c', Caps w' !! Cap = Some c' /\ same_capacitance c c') w.
Proof.
  unfold SmallCap_vloss.
  repeat wlp_step.
  all: try (apply wlp_wait5us_times; intros w1 G1; repeat wlp_step;
            apply wlp_wait5us_times; intros w2 G2; repeat wlp_step).
  all: split_frames; proj_simpl.
  all: split; [first [left; reflexivity | right; reflexivity]|].
  all: split; [congruence|].
  all: intros c0 Hc0.
  all: first
         [ exists c0; split; [congruence | apply same_capacitance_refl]
         | match goal with
           | Hs : Caps ?w2 !! _ = Some ?c |- context [<[_ := ?x]> (Caps ?w2)] =>
               exists x; split;
               [ apply list_lookup_insert_eq; eapply lookup_lt_Some; exact Hs
               | assert (c = c0) by congruence; subst; repeat split ]
           end ].
Qed.


(** What a run of [SmallCap] that returns has done: the comparator offset
    is as before or strictly between -50 and 50, and with the result 3 the
    record holds what "calculate capacitance" makes of a timer value. *)
Lemma wlp_SmallCap fuel Cap w :
  wlp (SmallCap bc hw fuel Cap)
      (fun r w' =>
         (Adjust.CompOffset (NV w') = Adjust.CompOffset (NV w) \/
          -50 < Adjust.CompOffset (NV w') < 50) /\
         (r = 3 ->
          exists c' Ticks Ticks2,
            0 <= Ticks < 65536 /\ 0 <= Ticks2 < 65536 /\
            Caps w' !! Cap = Some c' /\
            SmallCap_calc bc (NV w) (Cfg w) (Probes w) Ticks Ticks2 =
              Some (Capacitor.Scale c', Capacitor.Raw c', Capacitor.Value c'))) w.
Proof.
  unfold SmallCap.
  repeat wlp_step.
  all: try (split; [left; reflexivity | discriminate]).
  all: apply wlp_timer_loop; [lia|]; intros TB T2 w1 G1 R1 HT2.
  all: repeat wlp_step.
  all: try (eapply wlp_mono; [apply wlp_SmallCap_adjust|];
            intros [] w2 (GCaps2 & GProbes2 & GRZ2 & GCZ2 & (Ub & HUb & HCO));
            cbv beta iota zeta; repeat wlp_step).
  all: try (eapply wlp_mono; [apply wlp_SmallCap_vloss|];
            intros early w3 (Hearly & GNV3 & HCaps3);
            destruct Hearly as [-> | ->];
            cbv beta iota zeta; repeat wlp_step).
  all: split_frames; proj_simpl.
  all: split.
  (* the comparator offset *)
  all: try solve
         [ repeat match goal with
                  | H : NV ?w3 = NV _ |- context [NV ?w3] => rewrite H
                  end;
           first
             [ left; congruence
             | match goal with
               | HCO : Adjust.CompOffset (NV _) = (if ?c then _ else _) |- _ =>
                   rewrite HCO; destruct c eqn:Hc;
                   [ right; apply andb_prop in Hc as [Hc1 Hc2];
                     apply Z.gtb_lt in Hc1; apply Z.ltb_lt in Hc2; lia
                   | left; congruence ]
               end ] ].
  (* the record *)
  all: intros Hr.
  all: try discriminate Hr.
  all: try solve
         [ exfalso;
           match goal with
           | Hb : (?x =? 3) = false |- _ => apply Z.eqb_neq in Hb; contradiction
           end ].
  all: match goal with
       | Hp : SmallCap_calc _ _ _ _ ?T ?T2 = Some (?S, ?R, ?V),
         Hc : Caps ?w1 !! ?i = Some ?c |- _ =>
           assert (Hlk : <[i := Capacitor.set_result (Probe.ID_2 (Probes w))
                                 (Probe.ID_1 (Probes w)) S R V c]> (Caps w1) !! i =
                         Some (Capacitor.set_result (Probe.ID_2 (Probes w))
                                 (Probe.ID_1 (Probes w)) S R V c))
             by (apply list_lookup_insert_eq; eapply lookup_lt_Some; exact Hc);
           try match goal with
               | G2 : Caps _ = <[_ := _]> _ |- _ => rewrite <- G2 in Hlk
               end;
           first
             [ match goal with
               | HC3 : forall c, _ -> exists c', _ |- _ =>
                   destruct (HC3 _ Hlk) as (c' & Hc' & (S1 & S2 & S3));
                   exists c', T, T2;
                   split; [apply u16_range|];
                   split; [first [assumption | apply u16_range]|];
                   split; [exact Hc'|];
                   rewrite S1, S2, S3
               end
             | eexists _, T, T2;
               split; [apply u16_range|];
               split; [first [assumption | apply u16_range]|];
               split; [exact Hlk|] ];
           cbn [Capacitor.Scale Capacitor.Raw Capacitor.Value Capacitor.set_result];
           rewrite <- Hp; congruence
       end.
Qed.


(** "calculate capacitance": the zero offset is considered on the pF scale
    only, and there it is subtracted or the value is set to 0. *)
Lemma SmallCap_calc_cases nv cfg p Ticks Ticks2 Scale Raw Value :
  SmallCap_calc bc nv cfg p Ticks Ticks2 = Some (Scale, Raw, Value) ->
  let CapZero := u32 (NV_CapZero bc nv p) in
  0 <= Raw /\
  ((Scale = -12 /\ Value = if Raw >=? CapZero then Raw - CapZero else 0) \/
   (Scale = -9 /\ Value = Raw)).
Proof.
  intros E CapZero. unfold SmallCap_calc in E. cbv zeta in E.
  set (f := u16 (GetFactor bc (u16 (Config.Bandgap cfg + Adjust.CompOffset nv))
                   (TABLE_SMALL_CAP bc))) in *.
  set (d := u32 (Z.quot (CPU_FREQ bc) 10000)) in *.
  pose proof (u32_range (NV_CapZero bc nv p)) as HCZ. fold CapZero in HCZ, E.
  assert (Hdiv : forall a b q, udiv (u32 a) (u32 b) = Some q -> 0 <= q < 4294967296).
  { intros a b q Hq. unfold udiv in Hq.
    destruct (u32 b =? 0); [discriminate|]. inversion Hq; subst q.
    pose proof (u32_range a). pose proof (u32_range b).
    pose proof (div_range (u32 a) (u32 b) ltac:(lia) ltac:(lia)). lia. }
  assert (HR : forall x Raw',
             (Raw1 ← udiv (u32 (x * f)) d;
              if CAP_FACTOR_SMALL bc =? 0 then Some Raw1
              else udiv (u32 (Raw1 * 1000)) (u32 (1000 - CAP_FACTOR_SMALL bc))) =
               Some Raw' ->
             0 <= Raw' < 4294967296).
  { intros x Raw' H.
    destruct (udiv (u32 (x * f)) d) as [Raw1|] eqn:H1; [|discriminate H].
    apply Hdiv in H1. cbn in H.
    destruct (CAP_FACTOR_SMALL bc =? 0).
    - inversion H; subst. exact H1.
    - apply Hdiv in H. exact H. }
  destruct (SmallCap_ticks Ticks Ticks2 >? UINT32_MAX / 1000).
  - change (s8 (-12 + 3)) with (-9) in E. change (-9 =? -12) with false in E.
    cbv iota in E.
    match type of E with
    | mbind _ ?m = _ => destruct m as [r1|] eqn:H1; [|discriminate E]
    end.
    cbn in E.
    match type of E with
    | mbind _ ?m = _ => destruct m as [r2|] eqn:H2; [|discriminate E]
    end.
    cbn in E. inversion E; subst.
    split; [|right; auto].
    eapply (HR (SmallCap_ticks Ticks Ticks2 / 1000)). rewrite H1. cbn. exact H2.
  - change (-12 =? -12) with true in E. cbv iota in E.
    match type of E with
    | mbind _ ?m = _ => destruct m as [r1|] eqn:H1; [|discriminate E]
    end.
    cbn in E.
    match type of E with
    | mbind _ ?m = _ => destruct m as [r2|] eqn:H2; [|discriminate E]
    end.
    cbn in E. inversion E; subst Scale Raw.
    assert (HRaw : 0 <= r2 < 4294967296).
    { eapply (HR (SmallCap_ticks Ticks Ticks2)). rewrite H1. cbn. exact H2. }
    split; [lia|]. left. split; [reflexivity|].
    destruct (r2 >=? CapZero) eqn:Hge; [|reflexivity].
    rewrite Z.geb_leb in Hge. apply Z.leb_le in Hge.
    apply u32_id. lia.
Qed.

(** C8.  In every successful measurement of [SmallCap] the record holds
    either the scale -12 (pF) and a value from which the zero offset
    CapZero was subtracted, or the scale -9 (nF), reached by rescaling the
    tick count, and a value equal to the raw value: on the nF scale no zero
    offset is subtracted. *)
Theorem SmallCap_zero_offset_on_pF_only fuel Cap w w' :
  runs (SmallCap bc hw fuel Cap) w 3 w' ->
  exists c',
    Caps w' !! Cap = Some c' /\
    let CapZero := SmallCap_CapZero bc w in
    (Capacitor.Scale c' = -12 /\
     Capacitor.Value c' = if Capacitor.Raw c' >=? CapZero
                          then Capacitor.Raw c' - CapZero
                          else 0) \/
    (Capacitor.Scale c' = -9 /\ Capacitor.Value c' = Capacitor.Raw c').
Proof.
  intros E. destruct (wlp_SmallCap fuel Cap w 3 w' E) as (_ & H).
  destruct (H eq_refl) as (c' & Ticks & Ticks2 & _ & _ & Hc' & Hcalc).
  exists c'. split; [exact Hc'|].
  apply SmallCap_calc_cases in Hcalc. apply Hcalc.
Qed.

(** C5.  Zero-offset subtraction never yields a negative or wrapped value.
    In every successful measurement of [SmallCap] the value lies between 0
    and the raw value; where the zero offset is considered (pF scale) and
    CapZero is greater than the raw value, the value is exactly 0; and a
    CapZero below 1000 pF that is greater than the raw value in pF gives
    the value 0 on either scale.  In every ESR measurement whose raw ESR
    does not exceed RZero the result is 0 for a capacitor that compares
    greater than 1000 uF and UINT16_MAX otherwise. *)
Theorem zero_offset_never_negative :
  (forall fuel Cap w w',
      runs (SmallCap bc hw fuel Cap) w 3 w' ->
      exists c',
        Caps w' !! Cap = Some c' /\
        0 <= Capacitor.Value c' <= Capacitor.Raw c' /\
        (Capacitor.Scale c' = -12 ->
         SmallCap_CapZero bc w > Capacitor.Raw c' -> Capacitor.Value c' = 0) /\
        (SmallCap_CapZero bc w < 1000 ->
         SmallCap_CapZero bc w >
           Capacitor.Raw c' * 10 ^ (Capacitor.Scale c' + 12) ->
         Capacitor.Value c' = 0)) /\
  (forall Cap c w,
      ESR_measured bc hw Cap c w ->
      ESR_Sum_2 hw w > ESR_Sum_1 hw w ->
      let Sum_1 := ESR_Sum_1 hw w in
      let Sum_2 := ESR_Sum_2 hw w in
      let RZero := u16 (NV_RZero bc (NV w) (ESR_probes bc c w)) in
      let raw := u16 (u32 (u16 (Adjust.RiL (NV w) * 10) * (Sum_2 - Sum_1)) / Sum_1) in
      raw <= RZero ->
      exists w',
        runs (MeasureESR bc hw (Some Cap)) w
             (if CmpValue bc (Capacitor.Value c) (Capacitor.Scale c) 1000 (-6) >? 0
              then 0 else UINT16_MAX) w').
Proof.
  split.
  - intros fuel Cap w w' E.
    destruct (wlp_SmallCap fuel Cap w 3 w' E) as (_ & H).
    destruct (H eq_refl) as (c' & Ticks & Ticks2 & _ & _ & Hc' & Hcalc).
    exists c'. split; [exact Hc'|].
    apply SmallCap_calc_cases in Hcalc. cbv zeta in Hcalc.
    fold (SmallCap_CapZero bc w) in Hcalc.
    pose proof (u32_range (NV_CapZero bc (NV w) (Probes w))) as HCZ.
    fold (SmallCap_CapZero bc w) in HCZ.
    destruct Hcalc as (HR & [(HS & HV) | (HS & HV)]); rewrite HS, HV.
    + destruct (Capacitor.Raw c' >=? SmallCap_CapZero bc w) eqn:Hge;
        rewrite Z.geb_leb in Hge;
        [apply Z.leb_le in Hge | apply Z.leb_gt in Hge].
      * split; [lia|]. split; [lia|]. intros _ Hgt.
        change (10 ^ (-12 + 12)) with 1 in Hgt. lia.
      * split; [lia|]. split; reflexivity.
    + split; [lia|]. split; [intros HS'; discriminate HS'|].
      intros Hlt Hgt. change (10 ^ (-9 + 12)) with 1000 in Hgt. lia.
  - intros Cap c w HM Hgt Sum_1 Sum_2 RZero raw Hle.
    destruct (MeasureESR_valid_sums Cap c w HM Hgt) as (w' & E).
    exists w'. fold Sum_1 Sum_2 RZero raw in E.
    replace (raw >? RZero) with false in E
      by (symmetry; rewrite Z.gtb_ltb; apply Z.ltb_ge; lia).
    exact E.
Qed.

Lemma lor_shiftl_16 a b :
  0 <= a < 65536 -> 0 <= b -> Z.lor a (Z.shiftl b 16) = a + 65536 * b.
Proof.
  intros Ha Hb.
  assert (HL : Z.land a (Z.shiftl b 16) = 0).
  { apply Z.bits_inj'. intros n Hn. rewrite Z.land_spec, Z.bits_0.
    destruct (Z.lt_ge_cases n 16) as [Hlt|Hge].
    - rewrite Z.shiftl_spec_low by lia. apply andb_false_r.
    - destruct (Z.eq_dec a 0) as [->|Hne].
      + rewrite Z.bits_0. reflexivity.
      + rewrite (Z.bits_above_log2 a n); [reflexivity|lia|].
        assert (Z.log2 a < 16) by (apply Z.log2_lt_pow2; lia). lia. }
  rewrite <- Z.lxor_lor by exact HL.
  rewrite <- Z.add_nocarry_lxor by exact HL.
  rewrite Z.shiftl_mul_pow2 by lia. change (2 ^ 16) with 65536. lia.
Qed.

(** C10.  For every captured counter value [Ticks] and overflow count
    [Ticks2] (both 16 bits wide) the combined 32-bit tick count is
    Ticks + 65536 * Ticks2; the overhead of 2 ticks is subtracted exactly
    when that count is greater than 2, so the raw tick value is the count
    itself or the count less 2 and never wraps below zero. *)
Theorem SmallCap_ticks_no_underflow Ticks Ticks2 :
  0 <= Ticks < 65536 ->
  0 <= Ticks2 < 65536 ->
  let count := Ticks + 65536 * Ticks2 in
  SmallCap_ticks Ticks Ticks2 = (if count >? 2 then count - 2 else count) /\
  0 <= SmallCap_ticks Ticks Ticks2 <= count.
Proof.
  intros HT HT2 count. unfold SmallCap_ticks.
  rewrite (u32_id Ticks), (u32_id Ticks2) by lia.
  assert (HS : Z.shiftl Ticks2 16 = 65536 * Ticks2)
    by (rewrite Z.shiftl_mul_pow2 by lia; change (2 ^ 16) with 65536; lia).
  rewrite (u32_id (Z.shiftl Ticks2 16)) by lia.
  rewrite lor_shiftl_16 by lia. fold count.
  destruct (count >? 2) eqn:Hc.
  - apply Z.gtb_lt in Hc. rewrite u32_id by lia. lia.
  - rewrite Z.gtb_ltb in Hc. apply Z.ltb_ge in Hc. lia.
Qed.

(** ** Reference cap *)

Lemma wlp_RefCap_discharge n :
  forall TempByte w (Q : Z -> World -> Prop),
    (forall TempByte' w', same_globals w w' -> Q TempByte' w') ->
    wlp (RefCap_discharge bc hw n TempByte) Q w.
Proof.
  induction n as [|n IH]; intros TempByte w Q HQ; cbn [RefCap_discharge].
  - repeat wlp_step. apply HQ, same_globals_refl.
  - repeat wlp_step.
    + apply IH. intros T' w' G. apply HQ.
      eapply same_globals_trans; [|exact G]. frame.
    + apply IH. intros T' w' G. apply HQ.
      eapply same_globals_trans; [|exact G]. frame.
    + apply HQ, same_globals_refl.
Qed.








(** ** Capacitance between two probe pins *)

(** The loop through the resistors stays inside the array when no more
    resistors are counted than the array holds (at most 100). *)
Lemma MeasureCap_resistors_returns count Probe1 Probe2 rs :
  forall TempByte,
    0 <= TempByte -> count <= 100 ->
    count - TempByte <= Z.of_nat (length rs) ->
    exists TempByte',
      MeasureCap_resistors bc rs count Probe1 Probe2 TempByte = Some TempByte'.
Proof.
  induction rs as [|r rs IH]; intros TempByte HT Hc Hlen; cbn [MeasureCap_resistors].
  - cbn [length] in Hlen.
    replace (TempByte <? count) with false by (symmetry; apply Z.ltb_ge; lia). eauto.
  - cbn [length] in Hlen. destruct (TempByte <? count) eqn:Hlt; [|eauto].
    apply Z.ltb_lt in Hlt.
    match goal with
    | |- context [u8 ((if ?b then _ else _) + 1)] => destruct b
    end.
    + destruct (CmpValue bc (Resistor.Value r) (Resistor.Scale r) 10 0 =? -1).
      * apply IH; [apply u8_range|lia|]. change (u8 (99 + 1)) with 100. lia.
      * apply IH; [apply u8_range|lia|]. rewrite u8_id by lia. lia.
    + apply IH; [apply u8_range|lia|]. rewrite u8_id by lia. lia.
Qed.

(** C4.  When a diode with a forward voltage below 1500 mV is recorded
    between the two probes, [MeasureCap] returns with nothing done but the
    reset of the capacitor record: no estimator has run (the trace and the
    oracles are where they were) and the record holds A = 0, B = 0,
    Scale = -12, Raw = 0, Value = 0, I_leak_Value = 0. *)
Theorem MeasureCap_skips_low_Vf_diode fuel Probe1 Probe2 ID w c Diode :
  Caps w !! Z.to_nat ID = Some c ->
  Checking.Resistors (Check w) <= Z.of_nat (length (Resistors w)) ->
  (length (Resistors w) <= 100)%nat ->
  SearchDiode bc (Check w) (Diodes w) Probe1 Probe2 = Some Diode ->
  Diode.V_f Diode < 1500 ->
  let c' := Cap_reset bc c in
  runs (MeasureCap bc hw fuel Probe1 Probe2 ID) w tt
       (set_Caps (<[Z.to_nat ID := c']> (Caps w)) w) /\
  Capacitor.A c' = 0 /\ Capacitor.B c' = 0 /\ Capacitor.Scale c' = -12 /\
  Capacitor.Raw c' = 0 /\ Capacitor.Value c' = 0 /\ Capacitor.I_leak_Value c' = 0.
Proof.
  intros Hc Hcount Hlen Hd HVf c'. split; [|repeat split].
  assert (W : wp (MeasureCap bc hw fuel Probe1 Probe2 ID)
                 (fun _ w' => w' = set_Caps (<[Z.to_nat ID := c']> (Caps w)) w) w).
  { unfold MeasureCap. cbv zeta.
    wp_step. apply wp_store; [eapply lookup_lt_Some; exact Hc|].
    intros c0 Hc0. assert (c0 = c) by congruence. subst c0. fold c'.
    cbv beta iota zeta; proj_simpl.
    apply Z.ltb_lt in HVf.
    assert (Hdiode :
      wp (ds ← gets Diodes;
          (let low_Vf := match SearchDiode bc (Check w) ds Probe1 Probe2 with
                         | Some Diode => Diode.V_f Diode <? 1500
                         | None => false
                         end in
           if low_Vf then skip else
           call_UpdateProbes2 bc Probe1 Probe2;;
           TempByte ← LargeCap bc hw fuel (Z.to_nat ID);
           TempByte ← (if TempByte =? 2 then SmallCap bc hw fuel (Z.to_nat ID)
                       else mret TempByte);
           chk ← gets Check;
           c ← deref (Z.to_nat ID);
           when (Checking.Found chk <? COMP_DIODE bc)
             (if Checking.Found chk =? COMP_RESISTOR bc then
                when (Capacitor.Scale c >=? -6)
                  (modify (fun w => set_Check
                             (Checking.set_Found (COMP_CAPACITOR bc) (Check w)) w))
              else
                when ((Capacitor.Scale c >? -12) || (Capacitor.Value c >=? 5))
                  (modify (fun w => set_Check
                             (Checking.set_Found (COMP_CAPACITOR bc) (Check w)) w)));;
           DischargeProbes bc hw;;
           out ADC_DDR 0;; out ADC_PORT 0;; out R_DDR 0;; out R_PORT 0))
         (fun _ w' => w' = set_Caps (<[Z.to_nat ID := c']> (Caps w)) w)
         (set_Caps (<[Z.to_nat ID := c']> (Caps w)) w)).
    { do 2 wp_step. rewrite Hd, HVf. wp_step. reflexivity. }
    do 2 wp_step. wp_step; [wp_step; reflexivity|].
    wp_step. wp_step.
    - do 3 wp_step.
      destruct (MeasureCap_resistors_returns (Checking.Resistors (Check w))
                  Probe1 Probe2 (Resistors w) 0) as (T' & HT'); [lia|lia|lia|].
      eapply wp_lift; [exact HT'|]. cbv beta iota zeta.
      wp_step. destruct (negb (T' =? 100)); [wp_step; reflexivity|].
      exact Hdiode.
    - wp_step. exact Hdiode. }
  destruct W as ([] & w' & E & ->). exact E.
Qed.


(** * Further properties of the code *)

(** ** ESR measurement *)

Lemma wlp_in_ADCW (Q : Z -> World -> Prop) w :
  Q (u16 (ADCW_in hw (n_ADCW w)))
    (log (Rd ADCW (u16 (ADCW_in hw (n_ADCW w)))) (tick_ADCW w)) ->
  wlp (in_ADCW hw) Q w.
Proof. intros H y w' E. inversion E; subst. exact H. Qed.

Ltac wlp_more :=
  first
    [ wlp_step
    | lazymatch goal with
      | |- wlp (in_ADCW _) _ _ => apply wlp_in_ADCW
      | |- wlp DelayTimer _ _ => unfold DelayTimer
      | |- wlp (SetUpDelayTimer _) _ _ => unfold SetUpDelayTimer
      | |- wlp (OldESR.SetupDelayTimer _) _ _ => unfold OldESR.SetupDelayTimer
      end; cbv beta iota zeta; proj_simpl ].

(** A property of every run, as a postcondition *)
Ltac by_wlp :=
  match goal with
  | |- forall r w', runs ?m ?w r w' -> @?Q r w' => change (wlp m Q w)
  end.

Lemma wlp_ESR_round Probe1 Probe2 Bits st w (Q : Z * Z * Z * Z -> World -> Prop) :
  (forall st' w',
      same_globals w w' -> n_ADCW w' = (4 + n_ADCW w)%nat ->
      n_Discharge w' = n_Discharge w -> Q st' w') ->
  wlp (ESR_round bc hw Probe1 Probe2 Bits st) Q w.
Proof.
  intros HQ. destruct st as [[[U_2 U_4] Sum_1] Sum_2]. unfold ESR_round.
  repeat wlp_more.
  all: apply HQ; [frame|reflexivity|reflexivity].
Qed.

Lemma wlp_ESR_loop Probe1 Probe2 Bits n :
  forall st w (Q : Z * Z * Z * Z -> World -> Prop),
    (forall st' w',
        same_globals w w' -> n_ADCW w' = (4 * n + n_ADCW w)%nat ->
        n_Discharge w' = n_Discharge w -> Q st' w') ->
    wlp (ESR_loop bc hw Probe1 Probe2 Bits n st) Q w.
Proof.
  induction n as [|n IH]; intros st w Q HQ; cbn [ESR_loop].
  - apply wlp_ret, HQ; [apply same_globals_refl|reflexivity|reflexivity].
  - wlp_step. apply wlp_ESR_round. intros st1 w1 G1 NA1 ND1.
    apply IH. intros st2 w2 G2 NA2 ND2. apply HQ.
    + eapply same_globals_trans; eassumption.
    + rewrite NA2, NA1. lia.
    + congruence.
Qed.

Lemma ESR_process_range ESR nv p c Sum_1 Sum_2 :
  0 <= ESR <= UINT16_MAX ->
  0 <= ESR_process bc ESR nv p c Sum_1 Sum_2 <= UINT16_MAX.
Proof.
  intros HE. unfold ESR_process, UINT16_MAX in *. cbv zeta.
  repeat match goal with
         | |- context [if ?b then _ else _] => destruct b
         end; try lia.
  match goal with |- context [u16 ?x] => pose proof (u16_range x) end. lia.
Qed.

(** X1.  Every run of [MeasureESR] returns a value of 16 bits and leaves
    the capacitor records and the adjustment values alone.  Either it reads
    the ADC not at all, and then the result is UINT16_MAX, or it reads it
    exactly 4 * 255 times, calls [DischargeProbes()] twice, and leaves the
    bandgap reference as the reference used last. *)
Theorem MeasureESR_frame Cap w r w' :
  runs (MeasureESR bc hw Cap) w r w' ->
  0 <= r <= UINT16_MAX /\
  Caps w' = Caps w /\ NV w' = NV w /\
  ((n_ADCW w' = n_ADCW w /\ r = UINT16_MAX) \/
   (n_ADCW w' = (1020 + n_ADCW w)%nat /\
    n_Discharge w' = (2 + n_Discharge w)%nat /\
    Config.Ref (Cfg w') = ADC_REF_BANDGAP bc)).
Proof.
  revert r w'. by_wlp.
  assert (HU : 0 <= UINT16_MAX <= UINT16_MAX) by (unfold UINT16_MAX; lia).
  destruct Cap as [Cap|]; unfold MeasureESR.
  2:{ apply wlp_ret. split; [exact HU|]. split; [reflexivity|]. split; [reflexivity|].
      left. split; reflexivity. }
  repeat wlp_more.
  all: try (split; [exact HU|]; split; [reflexivity|]; split; [reflexivity|];
            left; split; reflexivity).
  all: apply wlp_ESR_loop; intros [[[U_2 U_4] Sum_1] Sum_2] w1 G1 NA1 ND1.
  all: repeat wlp_more.
  all: split_frames; proj_simpl.
  all: split; [apply ESR_process_range; exact HU|].
  all: split; [congruence|]. 
  all: split; [congruence|].
  all: right; split; [rewrite NA1; reflexivity|].
  all: split; [rewrite ND1; reflexivity|reflexivity].
Qed.

(** ** The older ESR measurement *)

Lemma wp_in_ADCW (Q : Z -> World -> Prop) w :
  Q (u16 (ADCW_in hw (n_ADCW w)))
    (log (Rd ADCW (u16 (ADCW_in hw (n_ADCW w)))) (tick_ADCW w)) ->
  wp (in_ADCW hw) Q w.
Proof. intros H. eexists _, _. split; [reflexivity|exact H]. Qed.

Ltac wp_next :=
  first
    [ wp_step
    | lazymatch goal with
      | |- wp (in_ADCW _) _ _ => apply wp_in_ADCW
      | |- wp DelayTimer _ _ => unfold DelayTimer
      end; cbv beta iota zeta; proj_simpl ].

Lemma OldESR_unloaded_sum_range k n :
  0 <= OldESR.unloaded_sum hw k n <= 65535 * Z.of_nat n.
Proof.
  revert k. induction n as [|n IH]; intros k; cbn [OldESR.unloaded_sum]; [lia|].
  specialize (IH (4 + k)%nat).
  pose proof (u16_range (u16 (ADCW_in hw k) + u16 (ADCW_in hw (2 + k)))). lia.
Qed.

Lemma OldESR_loaded_sum_range k n :
  0 <= OldESR.loaded_sum hw k n <= 65535 * Z.of_nat n.
Proof.
  revert k. induction n as [|n IH]; intros k; cbn [OldESR.loaded_sum]; [lia|].
  specialize (IH (4 + k)%nat).
  pose proof (u16_range (u16 (ADCW_in hw (1 + k)) + u16 (ADCW_in hw (3 + k)))). lia.
Qed.

Lemma wp_OldESR_round Probe1 Probe2 Bits Sum_1 Sum_2 w (Q : Z * Z -> World -> Prop) :
  (forall w',
      same_globals w w' -> n_ADCW w' = (4 + n_ADCW w)%nat ->
      n_Discharge w' = n_Discharge w ->
      Q (u32 (Sum_1 + u16 (u16 (ADCW_in hw (n_ADCW w))
                           + u16 (ADCW_in hw (2 + n_ADCW w)))),
         u32 (Sum_2 + u16 (u16 (ADCW_in hw (1 + n_ADCW w))
                           + u16 (ADCW_in hw (3 + n_ADCW w))))) w') ->
  wp (OldESR.round hw Probe1 Probe2 Bits (Sum_1, Sum_2)) Q w.
Proof.
  intros HQ. unfold OldESR.round.
  repeat wp_next.
  all: apply HQ; [frame|reflexivity|reflexivity].
Qed.

Lemma wp_OldESR_loop Probe1 Probe2 Bits n :
  forall Sum_1 Sum_2 w (Q : Z * Z -> World -> Prop),
    0 <= Sum_1 -> 0 <= Sum_2 ->
    Sum_1 + 65535 * Z.of_nat n < 4294967296 ->
    Sum_2 + 65535 * Z.of_nat n < 4294967296 ->
    (forall w',
        same_globals w w' -> n_Discharge w' = n_Discharge w ->
        Q (Sum_1 + OldESR.unloaded_sum hw (n_ADCW w) n,
           Sum_2 + OldESR.loaded_sum hw (n_ADCW w) n) w') ->
    wp (OldESR.loop hw Probe1 Probe2 Bits n (Sum_1, Sum_2)) Q w.
Proof.
  induction n as [|n IH]; intros Sum_1 Sum_2 w Q H1 H2 B1 B2 HQ;
    cbn [OldESR.loop OldESR.unloaded_sum OldESR.loaded_sum].
  - apply wp_ret. specialize (HQ w (same_globals_refl w) eq_refl).
    rewrite !Z.add_0_r in HQ. exact HQ.
  - wp_step. apply wp_OldESR_round. intros w1 G1 NA1 ND1.
    pose proof (u16_range (u16 (ADCW_in hw (n_ADCW w)) + u16 (ADCW_in hw (2 + n_ADCW w)))).
    pose proof (u16_range (u16 (ADCW_in hw (1 + n_ADCW w)) + u16 (ADCW_in hw (3 + n_ADCW w)))).
    rewrite (u32_id (Sum_1 + _)), (u32_id (Sum_2 + _)) by lia.
    apply IH; [lia|lia|lia|lia|].
    intros w2 G2 ND2. rewrite NA1.
    assert (G : same_globals w w2) by (eapply same_globals_trans; eassumption).
    assert (ND : n_Discharge w2 = n_Discharge w) by congruence.
    specialize (HQ w2 G ND). cbn [OldESR.unloaded_sum OldESR.loaded_sum] in HQ.
    rewrite !Z.add_assoc in HQ. exact HQ.
Qed.

(** X2.  The older [MeasureESR], when it is carried out (a capacitor of
    180 nF or more, probes discharged, delay timer set up), returns the raw
    ESR less RZero when the sum with load exceeds the sum without load and
    the raw ESR exceeds RZero, and UINT16_MAX in every other case, whatever
    the capacitance: this variant has no answer of 0 Ohm. *)
Theorem OldESR_result Cap c w :
  OldESR.measured bc hw Cap c w ->
  let Sum_1 := OldESR.Sum_1 hw w in
  let Sum_2 := OldESR.Sum_2 hw w in
  let RZero := u16 (NV_RZero bc (NV w) (ESR_probes bc c w)) in
  let raw := u16 (u32 (u16 (Adjust.RiL (NV w) * 10) * (Sum_2 - Sum_1)) / Sum_1) in
  exists w',
    runs (OldESR.MeasureESR bc hw (Some Cap)) w
         (if (Sum_2 >? Sum_1) && (raw >? RZero) then raw - RZero else UINT16_MAX) w'.
Proof.
  intros (HC & Hcmp & HF & HD & Hn) Sum_1 Sum_2 RZero raw.
  pose proof (OldESR_unloaded_sum_range (n_ADCW w) 255) as R1.
  pose proof (OldESR_loaded_sum_range (n_ADCW w) 255) as R2.
  cut (wp (OldESR.MeasureESR bc hw (Some Cap))
          (fun r _ => r = if (Sum_2 >? Sum_1) && (raw >? RZero)
                          then raw - RZero else UINT16_MAX) w).
  { intros (r & w' & E & ->). exists w'. exact E. }
  unfold OldESR.MeasureESR.
  wp_step. apply wp_deref; [eapply lookup_lt_Some; exact HC|].
  intros c0 Hc0. assert (c0 = c) by congruence. subst c0. cbv beta iota zeta.
  replace (CmpValue bc (Capacitor.Value c) (Capacitor.Scale c) 180 (-9) <? 0) with false
    by (symmetry; apply Z.ltb_ge; lia).
  wp_step. apply wp_DischargeProbes_cases; [intros _|congruence].
  cbv beta iota zeta; proj_simpl.
  do 2 wp_step. rewrite (proj2 (Z.eqb_neq _ _) HF).
  do 6 wp_step.
  unfold OldESR.SetupDelayTimer.
  replace (OldESR.delay_cycles bc <? 17) with false by (symmetry; apply Z.ltb_ge; lia).
  repeat wp_next; try discriminate.
  apply wp_OldESR_loop; [lia|lia|lia|lia|].
  intros w1 (GNV & GCfg & GCheck & GProbes & GCaps & _) ND1. proj_simpl.
  repeat wp_next.
  apply wp_DischargeProbes. intros w2 _. wp_step.
  rewrite GNV, GProbes. unfold OldESR.process. cbv zeta.
  fold (OldESR.Sum_1 hw w) (OldESR.Sum_2 hw w). fold Sum_1 Sum_2.
  fold (ESR_probes bc c w). fold RZero.
  assert (S1 : 1 <= Sum_1 <= 16711426) by (unfold Sum_1, OldESR.Sum_1; lia).
  assert (S2 : 1 <= Sum_2 <= 16711426) by (unfold Sum_2, OldESR.Sum_2; lia).
  pose proof (u16_range (Adjust.RiL (NV w) * 10)) as HR.
  pose proof (u16_range (NV_RZero bc (NV w) (ESR_probes bc c w))) as HZ. fold RZero in HZ.
  rewrite (u32_id (u16 _)) by lia.
  destruct (Sum_2 >? Sum_1) eqn:Hgt.
  - apply Z.gtb_lt in Hgt. rewrite (u32_id (Sum_2 - Sum_1)) by lia.
    fold raw. rewrite andb_true_l.
    destruct (raw >? RZero) eqn:Hraw; [|reflexivity].
    apply Z.gtb_lt in Hraw.
    pose proof (u16_range (u32 (u16 (Adjust.RiL (NV w) * 10) * (Sum_2 - Sum_1)) / Sum_1)) as Hr.
    fold raw in Hr. apply u16_id. lia.
  - rewrite andb_false_l, Z.mul_0_r.
    change (u32 0) with 0. rewrite Z.div_0_l by lia. change (u16 0) with 0.
    replace (0 >? RZero) with false
      by (symmetry; rewrite Z.gtb_ltb; apply Z.ltb_ge; lia).
    reflexivity.
Qed.

(** ** Capacitance measurement for large caps *)

Lemma pulses_log_pulse mask mode w :
  pulses (log (Call_PullProbe mask mode) w) = S (pulses w).
Proof. reflexivity. Qed.

Lemma wlp_LargeCap_charge Mode U_Zero n :
  forall Pulses w (Q : Z * Z -> World -> Prop),
    0 <= Pulses < 500 ->
    (forall Pulses' U_Cap w',
        same_globals w w' -> n_Discharge w' = n_Discharge w ->
        Pulses < Pulses' <= 500 -> 0 <= U_Cap < 65536 ->
        pulses w' = (pulses w + Z.to_nat (Pulses' - Pulses))%nat ->
        Q (Pulses', U_Cap) w') ->
    wlp (LargeCap_charge hw n Mode U_Zero Pulses) Q w.
Proof.
  induction n as [|n IH]; intros Pulses w Q HP HQ; cbn [LargeCap_charge].
  - apply wlp_undefined.
  - rewrite (u16_id (Pulses + 1)) by lia.
    assert (HU : forall v, 0 <= (if v >? u16 U_Zero then u16 (v - u16 U_Zero) else 0) < 65536).
    { intros v. destruct (v >? u16 U_Zero); [apply u16_range|lia]. }
    repeat wlp_step.
    + destruct (Pulses + 1 =? 500) eqn:H500; [discriminate|].
      apply Z.eqb_neq in H500.
      apply IH; [lia|]. intros P' U' w' G ND HP' HU' Hpul.
      apply HQ; [|rewrite ND; reflexivity|lia|exact HU'|].
      * eapply same_globals_trans; [|exact G]. frame.
      * rewrite Hpul. unfold pulses. proj_simpl. cbn [count_events is_pulse].
        fold (pulses w). lia.
    + apply HQ; [frame|reflexivity|lia|apply HU|].
      unfold pulses. proj_simpl. cbn [count_events is_pulse].
      fold (pulses w). replace (Pulses + 1 - Pulses) with 1 by lia.
      change (Z.to_nat 1) with 1%nat. lia.
Qed.

Lemma wlp_LargeCap_hold ch n :
  forall U_leak w (Q : Z -> World -> Prop),
    (forall U' w', same_globals w w' -> n_Discharge w' = n_Discharge w ->
                   pulses w' = pulses w -> Q U' w') ->
    wlp (LargeCap_hold hw n ch U_leak) Q w.
Proof.
  induction n as [|n IH]; intros U_leak w Q HQ; cbn [LargeCap_hold].
  - apply wlp_ret, HQ; [apply same_globals_refl|reflexivity|reflexivity].
  - do 4 wlp_step. apply IH. intros U' w' G ND HP. apply HQ.
    + eapply same_globals_trans; [|exact G]. frame.
    + rewrite ND. reflexivity.
    + rewrite HP. reflexivity.
Qed.

Ltac stored :=
  repeat match goal with
         | H : <[?i := ?x]> ?l !! ?i = Some ?c |- _ =>
             rewrite list_lookup_insert_eq in H
               by (rewrite ?length_insert; eapply lookup_lt_Some; eassumption);
             inversion H; subst c; clear H
         end.

(** From "Check if DUT sustains the charge" on: the result is the flag or
    0, a result other than 3 leaves the records but for the voltage loss,
    and the result 3 leaves a measurement in the record. *)
Lemma wlp_LargeCap_finish Cap Flag Mode Pulses U_Cap w :
  wlp (LargeCap_finish bc hw Cap Flag Mode Pulses U_Cap)
      (fun r w' =>
         NV w' = NV w /\ Cfg w' = Cfg w /\ Check w' = Check w /\
         Probes w' = Probes w /\
         n_Discharge w' = n_Discharge w /\ pulses w' = pulses w /\
         (r = Flag \/ r = 0) /\
         (r <> 3 -> only_U_loss bc Cap w w') /\
         (r = 3 -> exists c', Caps w' !! Cap = Some c' /\
                              LargeCap_record bc (Probes w) c')) w.
Proof.
  unfold LargeCap_finish.
  repeat wlp_step.
  all: try (apply wlp_LargeCap_hold; intros U' w1 G1 ND1 HP1; repeat wlp_step).
  all: try congruence.
  all: try destruct G1 as (GNV & GCfg & GCheck & GProbes & GCaps & _).
  all: proj_simpl; stored.
  all: unfold pulses in *; proj_simpl; cbn [count_events is_pulse] in *.
  all: do 6 (split; [congruence|]).
  all: split;
    [ first [ left; reflexivity
            | match goal with
              | |- context [if ?c then 0 else _] =>
                  destruct c; [right|left]; reflexivity
              end ] |].
  all: split; intros Hr.
  all: repeat match goal with
              | Hb : (_ =? 3) = true |- _ => apply Z.eqb_eq in Hb
              | Hb : (_ =? 3) = false |- _ => apply Z.eqb_neq in Hb
              end.
  all: try congruence.
  (* a result other than 3 *)
  all: try (lazymatch goal with |- only_U_loss _ _ _ _ => idtac end;
            unfold only_U_loss; proj_simpl;
            first [ left; congruence
                  | right; split; [assumption|]; eexists _, _;
                    split; [rewrite <- GCaps; eassumption|];
                    rewrite GCaps; reflexivity ]).
  (* the result 3 *)
  all: eexists; split;
    [ apply list_lookup_insert_eq; rewrite ?length_insert;
      eapply lookup_lt_Some; eassumption |].
  all: unfold LargeCap_record;
    cbn [Capacitor.A Capacitor.B Capacitor.Scale Capacitor.Raw Capacitor.Value
         Capacitor.set_result Capacitor.set_I_leak_Value
         Capacitor.set_I_leak_Scale Capacitor.set_U_loss].
  all: change (UINT32_MAX / 1000) with 4294967 in *.
  all: lazymatch goal with
       | Hp : (if ?R >? 4294967 then _ else _) = (?z, ?z0) |- _ =>
           pose proof (u32_range R) as HR0;
           match R with | u32 ?y => pose proof (u32_range y) as HR end;
           assert (Hz : 0 <= z <= 4294967 /\ (z0 = -9 \/ z0 = -6));
           [ destruct (R >? 4294967) eqn:Hbig; inversion Hp; subst z z0;
             [ split; [|right; reflexivity]; split;
               [ apply Z.div_pos; lia
               | assert (R / 1000 < 4294968)
                   by (apply Z.div_lt_upper_bound; lia); lia ]
             | split; [|left; reflexivity];
               rewrite Z.gtb_ltb in Hbig; apply Z.ltb_ge in Hbig; lia ]
           | clear Hp ]
       end.
  all: destruct Hz as (Hz & Hscale).
  all: match goal with
       | Hd : udiv (u32 (?z * 1000)) ?d = Some ?x |- _ =>
           unfold udiv in Hd; destruct (d =? 0); [discriminate Hd|];
           inversion Hd; subst x; clear Hd;
           rewrite (u32_id (z * 1000)) by lia
       end.
  all: split; [reflexivity|]; split; [reflexivity|]; split; [exact Hscale|];
    split; [exact Hz|].
  all: first [left; reflexivity | right; reflexivity].
Qed.

(** One pass through [large_cap]: the call ends with it, or it jumps back
    after a single pulse. *)
Lemma wlp_LargeCap_pass n Cap Flag Mode w (Q : Z -> World -> Prop) :
  0 <= Flag <= 3 ->
  (forall r w',
      NV w' = NV w -> Cfg w' = Cfg w -> Probes w' = Probes w ->
      (Check w' = Check w \/
       Check w' = Checking.set_Found (COMP_ERROR bc) (Check w)) ->
      0 <= r <= 3 ->
      (pulses w' <= pulses w + 500)%nat ->
      (r <> 3 -> only_U_loss bc Cap w w') ->
      (r = 3 -> exists c', Caps w' !! Cap = Some c' /\
                           LargeCap_record bc (Probes w) c') ->
      Q r w') ->
  (nonzero (Z.land Mode (PULL_10MS bc)) = true ->
   forall w1,
     same_globals w w1 -> pulses w1 = S (pulses w) ->
     wlp (LargeCap_from bc hw n Cap Flag (u8 (Z.lor (PULL_1MS bc) (PULL_UP bc)))) Q w1) ->
  wlp (LargeCap_from bc hw (S n) Cap Flag Mode) Q w.
Proof.
  intros HFlag Hend Hgoto. cbn [LargeCap_from].
  repeat wlp_step.
  all: try match goal with
           | H : (Checking.Found (Checking.set_Found _ _) =? _) = false |- _ =>
               cbn [Checking.Found Checking.set_Found] in H;
               rewrite Z.eqb_refl in H; discriminate H
           end.
  all: try (apply Hend; proj_simpl;
            [ reflexivity | reflexivity | reflexivity
            | first [left; reflexivity | right; reflexivity] | lia
            | unfold pulses; proj_simpl; cbn [count_events is_pulse]; lia
            | intros _; left; reflexivity | intros; lia ]).
  apply wlp_LargeCap_charge; [lia|].
  intros P' U' w1 G1 ND1 HP' HU' Hpul1.
  assert (Hp0 : pulses w1 = (pulses w + Z.to_nat P')%nat).
  { rewrite Hpul1, Z.sub_0_r. unfold pulses. proj_simpl.
    cbn [count_events is_pulse]. reflexivity. }
  destruct G1 as (GNV & GCfg & GCheck & GProbes & GCaps & GRes & GDio). proj_simpl.
  assert (Hfinish : forall Flag',
             0 <= Flag' <= 3 ->
             wlp (LargeCap_finish bc hw Cap Flag' Mode P' U') Q w1).
  { intros Flag' HF'. eapply wlp_mono; [apply wlp_LargeCap_finish|].
    intros r w2 (FNV & FCfg & FCheck & FProbes & FND & FP & Fr & Fkept & Frec).
    apply Hend; try congruence.
    - left. congruence.
    - destruct Fr; lia.
    - rewrite FP, Hp0. lia.
    - intros Hr. specialize (Fkept Hr). unfold only_U_loss in *.
      rewrite GCaps in Fkept. exact Fkept.
    - intros Hr. rewrite <- GProbes. apply Frec, Hr. }
  repeat wlp_step.
  - (* goto large_cap *)
    match goal with
    | Hc : (_ =? 1) && (_ >? 1300) = true |- _ =>
        apply andb_prop in Hc as [Hone Hhigh]
    end.
    apply Z.eqb_eq in Hone. apply Z.gtb_lt in Hhigh.
    replace (U' <? 300) with false by (symmetry; apply Z.ltb_ge; lia).
    cbv iota. apply Hgoto.
    + first [reflexivity | assumption].
    + apply same_globals_by_eq; assumption.
    + rewrite Hp0, Hone. change (Z.to_nat 1) with 1%nat. lia.
  - apply Hfinish. lia.
  - apply Hfinish. destruct (U' <? 300); lia.
Qed.

(** What every run of [LargeCap] from its label on keeps and leaves *)
Lemma wlp_LargeCap_from n Cap :
  forall Flag Mode w,
    0 <= Flag <= 3 ->
    wlp (LargeCap_from bc hw n Cap Flag Mode)
        (fun r w' =>
           NV w' = NV w /\ Cfg w' = Cfg w /\ Probes w' = Probes w /\
           (Check w' = Check w \/
            Check w' = Checking.set_Found (COMP_ERROR bc) (Check w)) /\
           0 <= r <= 3 /\
           (r <> 3 -> only_U_loss bc Cap w w') /\
           (r = 3 -> exists c', Caps w' !! Cap = Some c' /\
                                LargeCap_record bc (Probes w) c')) w.
Proof.
  induction n as [|n IH]; intros Flag Mode w HFlag.
  - apply wlp_undefined.
  - apply wlp_LargeCap_pass; [exact HFlag| |].
    + intros r w' ? ? ? ? ? ? ? ?. auto 10.
    + intros _ w1 (GNV & GCfg & GCheck & GProbes & GCaps & _) _.
      eapply wlp_mono; [apply IH; exact HFlag|].
      intros r w' (FNV & FCfg & FProbes & FCheck & Fr & Fkept & Frec).
      rewrite GNV in FNV. rewrite GCfg in FCfg. rewrite GProbes in FProbes, Frec.
      rewrite GCheck in FCheck. unfold only_U_loss in *. rewrite GCaps in Fkept.
      auto 10.
Qed.

(** X3.  In a build whose mode of 1 ms pulses is not one of 10 ms pulses, a
    call of [LargeCap] sends at most 501 charging pulses: up to 500 in one
    pass, or a single pulse of 10 ms and up to 500 pulses of 1 ms. *)
Theorem LargeCap_pulse_budget fuel Cap w r w' :
  Z.land (u8 (Z.lor (PULL_1MS bc) (PULL_UP bc))) (PULL_10MS bc) = 0 ->
  runs (LargeCap bc hw fuel Cap) w r w' ->
  (pulses w' <= pulses w + 501)%nat.
Proof.
  intros Hmode. revert r w'. by_wlp. unfold LargeCap.
  destruct fuel as [|fuel]; [apply wlp_undefined|].
  apply wlp_LargeCap_pass; [lia| |].
  - intros r w' _ _ _ _ _ Hp _ _. lia.
  - intros _ w1 _ Hp1.
    destruct fuel as [|fuel]; [apply wlp_undefined|].
    apply wlp_LargeCap_pass; [lia| |].
    + intros r w' _ _ _ _ _ Hp _ _. lia.
    + unfold nonzero. rewrite Hmode. discriminate.
Qed.

(** X4.  Every run of [LargeCap] returns 0, 1, 2 or 3 and leaves the
    adjustment values, the configuration and the probes alone.  A result
    other than 3 leaves the capacitor records as they were, but for the
    voltage loss of the record measured (builds with SW_C_VLOSS store it
    before the drop is found too large). *)
Theorem LargeCap_failure_keeps_records fuel Cap w r w' :
  runs (LargeCap bc hw fuel Cap) w r w' ->
  0 <= r <= 3 /\
  NV w' = NV w /\ Cfg w' = Cfg w /\ Probes w' = Probes w /\
  (r <> 3 -> only_U_loss bc Cap w w') /\
  (r <> 3 -> SW_C_VLOSS bc = false -> Caps w' = Caps w).
Proof.
  revert r w'. by_wlp. unfold LargeCap.
  eapply wlp_mono; [apply wlp_LargeCap_from; lia|].
  intros r w' (FNV & FCfg & FProbes & _ & Fr & Fkept & _).
  split; [exact Fr|]. split; [exact FNV|]. split; [exact FCfg|].
  split; [exact FProbes|]. split; [exact Fkept|].
  intros Hr Hno. destruct (Fkept Hr) as [H|[H _]]; [exact H|congruence].
Qed.

(** X5.  A run of [LargeCap] with the result 3 leaves a measurement in the
    record: the pins of the probes (the pulled-down one first), the scale
    -9 (nF) or -6 (uF), a raw value of at most UINT32_MAX / 1000, and as
    the value the raw value compensated by one of the two factors, raw *
    1000 / (1000 - CAP_FACTOR), a product that cannot wrap. *)
Theorem LargeCap_success_record fuel Cap w w' :
  runs (LargeCap bc hw fuel Cap) w 3 w' ->
  exists c', Caps w' !! Cap = Some c' /\ LargeCap_record bc (Probes w) c'.
Proof.
  intros E.
  assert (W : wlp (LargeCap bc hw fuel Cap)
                  (fun r w' => r = 3 -> exists c', Caps w' !! Cap = Some c' /\
                                                   LargeCap_record bc (Probes w) c') w).
  { unfold LargeCap. eapply wlp_mono; [apply wlp_LargeCap_from; lia|].
    intros r w2 (_ & _ & _ & _ & _ & _ & Frec). exact Frec. }
  exact (W 3 w' E eq_refl).
Qed.

(** The condition of the charge loop, in terms of the pulse number *)
Lemma LargeCap_loop_condition k i :
  nonzero (if Z.of_nat i =? 500 then 0
           else if LargeCap_U_Cap hw k i >=? 300 then 0
                else if (Z.of_nat i =? 126) && (LargeCap_U_Cap hw k i <? 75)
                     then 0 else 1) =
  LargeCap_goes_on hw k i.
Proof.
  unfold LargeCap_goes_on.
  replace (Z.of_nat i =? 500) with (Nat.eqb i 500).
  2:{ destruct (Nat.eqb_spec i 500) as [->|Hne]; [reflexivity|].
      symmetry. apply Z.eqb_neq. lia. }
  replace (Z.of_nat i =? 126) with (Nat.eqb i 126).
  2:{ destruct (Nat.eqb_spec i 126) as [->|Hne]; [reflexivity|].
      symmetry. apply Z.eqb_neq. lia. }
  rewrite Z.geb_leb.
  destruct (Nat.eqb i 500); [reflexivity|].
  destruct (Z.leb_spec 300 (LargeCap_U_Cap hw k i));
    destruct (Z.ltb_spec (LargeCap_U_Cap hw k i) 300); try lia; [reflexivity|].
  destruct (Nat.eqb i 126 && (LargeCap_U_Cap hw k i <? 75)); reflexivity.
Qed.

(** The charge loop runs up to the pulse at which its condition fails. *)
Lemma LargeCap_charge_exit Mode k e d :
  forall n P w,
    (P + d = e)%nat -> (1 <= d <= n)%nat -> (e <= 500)%nat ->
    n_ReadU w = (2 + k + P)%nat ->
    (forall i, (P < i < e)%nat -> LargeCap_goes_on hw k i = true) ->
    LargeCap_goes_on hw k e = false ->
    exists w',
      runs (LargeCap_charge hw n Mode (LargeCap_U_Zero hw k) (Z.of_nat P)) w
           (Z.of_nat e, LargeCap_U_Cap hw k e) w'
      /\ same_globals w w' /\ n_Discharge w' = n_Discharge w
      /\ pulses w' = (pulses w + d)%nat
      /\ n_ReadU w' = (n_ReadU w + d)%nat.
Proof.
  induction d as [|d IH]; intros n P w HPd Hd He Hk Hon Hoff; [lia|].
  destruct n as [|n]; [lia|].
  unfold runs. rewrite LargeCap_charge_step. cbv zeta.
  rewrite (u16_id (Z.of_nat P + 1)) by lia.
  rewrite Hk.
  replace (2 + k + P)%nat with (1 + S P + k)%nat by lia.
  change (if u16 (ReadU_in hw (1 + S P + k)) >? u16 (LargeCap_U_Zero hw k)
          then u16 (u16 (ReadU_in hw (1 + S P + k)) - u16 (LargeCap_U_Zero hw k))
          else 0) with (LargeCap_U_Cap hw k (S P)).
  replace (Z.of_nat P + 1) with (Z.of_nat (S P)) by lia.
  rewrite LargeCap_loop_condition.
  destruct d as [|d].
  - replace (S P) with e by lia. rewrite Hoff.
    eexists. split; [reflexivity|]. split; [frame|]. split; [reflexivity|].
    split.
    + unfold pulses. proj_simpl. cbn [count_events is_pulse]. lia.
    + proj_simpl. lia.
  - rewrite (Hon (S P)) by lia.
    edestruct (IH n (S P)) as (w' & E & G & ND & HPul & HRd);
      [lia | lia | lia | | | exact Hoff | ].
    3:{ exists w'. split; [exact E|]. split; [|split; [|split]].
        - eapply same_globals_trans; [|exact G]. frame.
        - rewrite ND. reflexivity.
        - rewrite HPul. unfold pulses. proj_simpl. cbn [count_events is_pulse]. lia.
        - rewrite HRd. proj_simpl. lia. }
    + proj_simpl. lia.
    + intros i Hi. apply Hon. lia.
Qed.


(** The delay loop returns the last of its readings. *)
Lemma wp_LargeCap_hold_last ch n :
  forall U_leak w (Q : Z -> World -> Prop),
    (forall w', same_globals w w' -> n_Discharge w' = n_Discharge w ->
                pulses w' = pulses w -> n_ReadU w' = (n_ReadU w + S n)%nat ->
                Q (u16 (ReadU_in hw (n_ReadU w + n))) w') ->
    wp (LargeCap_hold hw (S n) ch U_leak) Q w.
Proof.
  induction n as [|n IH]; intros U_leak w Q HQ.
  - cbn [LargeCap_hold]. do 5 wp_step.
    specialize (HQ (log Wdt_reset
                      (log (Call_ReadU ch (u16 (ReadU_in hw (n_ReadU w))))
                         (tick_ReadU w)))).
    rewrite Nat.add_0_r in HQ. apply HQ; [frame|reflexivity|reflexivity|].
    proj_simpl. lia.
  - change (LargeCap_hold hw (S (S n)) ch U_leak)
      with (U_leak ← ReadU hw ch; wdt_reset;; LargeCap_hold hw (S n) ch U_leak).
    do 4 wp_step. apply IH. intros w' G ND HP HR. proj_simpl.
    replace (S (n_ReadU w) + n)%nat with (n_ReadU w + S n)%nat by lia.
    apply HQ.
    + eapply same_globals_trans; [|exact G]. frame.
    + rewrite ND. reflexivity.
    + rewrite HP. reflexivity.
    + rewrite HR. lia.
Qed.

Lemma wp_LargeCap_hold_from ch n U_leak w (Q : Z -> World -> Prop) :
  (1 <= n)%nat ->
  (forall w', same_globals w w' -> n_Discharge w' = n_Discharge w ->
              pulses w' = pulses w -> n_ReadU w' = (n_ReadU w + n)%nat ->
              Q (u16 (ReadU_in hw (n_ReadU w + n - 1))) w') ->
  wp (LargeCap_hold hw n ch U_leak) Q w.
Proof.
  intros Hn HQ. destruct n as [|n]; [lia|].
  apply wp_LargeCap_hold_last. intros w' G ND HP HR.
  replace (n_ReadU w + n)%nat with (n_ReadU w + S n - 1)%nat by lia.
  apply HQ; assumption.
Qed.

(** X7.  A measurement of [LargeCap] in its first pass (pulses of 10 ms):
    when the probes are discharged, the charge loop ends with pulse [e] at
    300 mV or more (not above 1300 mV after a single pulse) and the DUT
    loses at most 100 mV while it is held, the result is 3 after [e]
    pulses, and the record holds the raw value factor * e * 10 nF, scaled
    down by 1000 to uF when it is above UINT32_MAX / 1000, and the value
    compensated by CAP_FACTOR_LARGE. *)
Theorem LargeCap_measures fuel Cap w e :
  discharged bc hw w = true ->
  (1 <= fuel)%nat ->
  (Cap < length (Caps w))%nat ->
  nonzero (Z.land (u8 (Z.lor (PULL_10MS bc) (PULL_UP bc))) (PULL_10MS bc)) = true ->
  u32 (1000 - CAP_FACTOR_LARGE bc) <> 0 ->
  LargeCap_ends_at hw (n_ReadU w) e ->
  300 <= LargeCap_U_Cap hw (n_ReadU w) e ->
  (e = 1%nat -> LargeCap_U_Cap hw (n_ReadU w) e <= 1300) ->
  LargeCap_U_Drop hw (n_ReadU w) e <= 100 ->
  let R := LargeCap_raw_10ms bc hw (n_ReadU w) e in
  exists w' c',
    runs (LargeCap bc hw fuel Cap) w 3 w' /\
    pulses w' = (pulses w + e)%nat /\
    Caps w' !! Cap = Some c' /\
    Capacitor.Raw c' = (if R >? UINT32_MAX / 1000 then R / 1000 else R) /\
    Capacitor.Scale c' = (if R >? UINT32_MAX / 1000 then -6 else -9) /\
    Capacitor.Value c' = Capacitor.Raw c' * 1000 / u32 (1000 - CAP_FACTOR_LARGE bc).
Proof.
  intros Hd Hfuel HV Hmode HLarge (He1 & Hon & Hoff) H300 Hone Hdrop R.
  assert (He : (e <= 500)%nat).
  { destruct (le_lt_dec e 500) as [H|H]; [exact H|].
    specialize (Hon 500%nat ltac:(lia)). unfold LargeCap_goes_on in Hon.
    discriminate Hon. }
  destruct fuel as [|fuel]; [lia|].
  unfold discharged in Hd. apply andb_prop in Hd as [HD HF].
  apply negb_true_iff in HD. apply negb_true_iff in HF.
  cut (wp (LargeCap bc hw (S fuel) Cap)
          (fun r w' => r = 3 /\ pulses w' = (pulses w + e)%nat /\
             exists c', Caps w' !! Cap = Some c' /\
               Capacitor.Raw c' = (if R >? UINT32_MAX / 1000 then R / 1000 else R) /\
               Capacitor.Scale c' = (if R >? UINT32_MAX / 1000 then -6 else -9) /\
               Capacitor.Value c' =
                 Capacitor.Raw c' * 1000 / u32 (1000 - CAP_FACTOR_LARGE bc)) w).
  { intros (r & w' & E & -> & HP & c' & Hc'). exists w', c'. tauto. }
  unfold LargeCap. cbn [LargeCap_from].
  wp_step. apply wp_DischargeProbes_cases; [intros _|congruence].
  cbv beta iota zeta; proj_simpl.
  do 2 wp_step. rewrite HF.
  repeat wp_step.
  change (s16 (s16 (u16 (ReadU_in hw (n_ReadU w))) - u16 (ReadU_in hw (S (n_ReadU w)))))
    with (LargeCap_U_Zero hw (n_ReadU w)).
  match goal with |- wp _ _ ?W =>
    destruct (LargeCap_charge_exit (u8 (Z.lor (PULL_10MS bc) (PULL_UP bc)))
                (n_ReadU w) e e 500 0 W) as (w1 & E & G & ND & HP & HR);
      [lia | lia | lia | proj_simpl; lia | intros i Hi; apply Hon; lia | exact Hoff |]
  end.
  eapply wp_of_runs; [exact E|]. cbv beta iota zeta. proj_simpl.
  replace (LargeCap_U_Cap hw (n_ReadU w) e <? 300) with false
    by (symmetry; apply Z.ltb_ge; lia).
  replace ((Z.of_nat e =? 1) && (LargeCap_U_Cap hw (n_ReadU w) e >? 1300)) with false.
  2:{ symmetry. apply andb_false_iff.
      destruct (Nat.eq_dec e 1%nat) as [->|Hne].
      - right. rewrite Z.gtb_ltb. apply Z.ltb_ge. apply Hone. reflexivity.
      - left. apply Z.eqb_neq. lia. }
  cbv iota.
  destruct G as (GNV & GCfg & GCheck & GProbes & GCaps & _). proj_simpl.
  assert (HR1 : n_ReadU w1 = (2 + e + n_ReadU w)%nat) by lia. clear HR.
  unfold LargeCap_finish.
  rewrite Hmode. change (3 =? 3) with true. cbv iota. rewrite Nat2Z.id.
  repeat wp_step.
  apply wp_LargeCap_hold_from; [exact He1|].
  intros w2 (G2NV & G2Cfg & G2Check & G2Probes & G2Caps & _) ND2 HP2 HR2. proj_simpl.
  rewrite HR1.
  replace (S (2 + e + n_ReadU w) + e - 1)%nat with (2 + e + e + n_ReadU w)%nat by lia.
  subst R. unfold LargeCap_raw_10ms, LargeCap_U_Drop in *. cbv zeta in *.
  set (a := u16 (ReadU_in hw (2 + e + n_ReadU w))) in *.
  set (b := u16 (ReadU_in hw (2 + e + e + n_ReadU w))) in *.
  assert (Hpul : pulses w2 = (pulses w + e)%nat).
  { rewrite HP2. unfold pulses in *. proj_simpl. cbn [count_events is_pulse] in *.
    rewrite HP. reflexivity. }
  destruct (a >? b) eqn:Hcmp.
  - assert (Hgt : (u16 (a - b) >? 100) = false)
      by (rewrite Z.gtb_ltb; apply Z.ltb_ge; lia).
    repeat (wp_more; rewrite ?Hgt; try change (3 =? 3) with true; cbv iota).
    all: stored.
    all: split; [reflexivity|].
    all: split;
      [ unfold pulses in *; proj_simpl; cbn [count_events is_pulse] in *;
        congruence |].
    all: eexists; split;
      [ apply list_lookup_insert_eq; rewrite ?length_insert;
        eapply lookup_lt_Some; eassumption |].
    all: cbn [Capacitor.A Capacitor.B Capacitor.Scale Capacitor.Raw Capacitor.Value
              Capacitor.set_result Capacitor.set_I_leak_Value
              Capacitor.set_I_leak_Scale Capacitor.set_U_loss].
    all: split; [reflexivity|]; split; [reflexivity|].
    all: change (UINT32_MAX / 1000) with 4294967 in *.
    all: match goal with
         | Hb : (?R >? 4294967) = _ |- _ =>
             pose proof (u32_range R) as HR0;
             match R with | u32 ?y => pose proof (u32_range y) as HRy end;
             rewrite Z.gtb_ltb in Hb;
             first [apply Z.ltb_lt in Hb | apply Z.ltb_ge in Hb]
         end.
    all: rewrite u32_id; [reflexivity|].
    all: try lia.
    all: split; [apply Z.mul_nonneg_nonneg; [apply Z.div_pos; lia|lia]|].
    all: match goal with
         | |- ?R / 1000 * 1000 < _ =>
             pose proof (Z.mul_div_le R 1000 ltac:(lia)); lia
         end.
  - change (0 >? 100) with false. 
    repeat (wp_more; try change (0 >? 100) with false;
            try change (3 =? 3) with true; cbv iota).
    all: stored.
    all: split; [reflexivity|].
    all: split;
      [ unfold pulses in *; proj_simpl; cbn [count_events is_pulse] in *;
        congruence |].
    all: eexists; split;
      [ apply list_lookup_insert_eq; rewrite ?length_insert;
        eapply lookup_lt_Some; eassumption |].
    all: cbn [Capacitor.A Capacitor.B Capacitor.Scale Capacitor.Raw Capacitor.Value
              Capacitor.set_result Capacitor.set_I_leak_Value
              Capacitor.set_I_leak_Scale Capacitor.set_U_loss].
    all: split; [reflexivity|]; split; [reflexivity|].
    all: change (UINT32_MAX / 1000) with 4294967 in *.
    all: match goal with
         | Hb : (?R >? 4294967) = _ |- _ =>
             pose proof (u32_range R) as HR0;
             match R with | u32 ?y => pose proof (u32_range y) as HRy end;
             rewrite Z.gtb_ltb in Hb;
             first [apply Z.ltb_lt in Hb | apply Z.ltb_ge in Hb]
         end.
    all: rewrite u32_id; [reflexivity|].
    all: try lia.
    all: split; [apply Z.mul_nonneg_nonneg; [apply Z.div_pos; lia|lia]|].
    all: match goal with
         | |- ?R / 1000 * 1000 < _ =>
             pose proof (Z.mul_div_le R 1000 ltac:(lia)); lia
         end.
Qed.

(** ** Probes that cannot be discharged *)

(** X8.  When [DischargeProbes()] reports an error, or an error is on
    record already, both estimators return 0 at once: no charging pulse, no
    voltage reading, no timer poll, the capacitor records and the
    adjustment values as they were, and COMP_ERROR on record. *)
Theorem estimators_skip_on_discharge_error fuel Cap w :
  discharged bc hw w = false ->
  (1 <= fuel)%nat ->
  exists w',
    runs (LargeCap bc hw fuel Cap) w 0 w' /\
    runs (SmallCap bc hw fuel Cap) w 0 w' /\
    Checking.Found (Check w') = COMP_ERROR bc /\
    Caps w' = Caps w /\ NV w' = NV w /\
    pulses w' = pulses w /\ n_ReadU w' = n_ReadU w /\ n_TIFR1 w' = n_TIFR1 w.
Proof.
  intros Hd Hfuel. destruct fuel as [|fuel]; [lia|].
  unfold discharged in Hd.
  unfold runs, LargeCap, SmallCap. cbn [LargeCap_from].
  unfold mbind, M_bind, DischargeProbes, gets.
  destruct (Discharge_in hw (n_Discharge w)) eqn:HD; proj_simpl.
  - cbn [Checking.Found Checking.set_Found]. rewrite Z.eqb_refl.
    eexists. repeat split.
  - cbn [negb andb] in Hd. apply negb_false_iff in Hd. rewrite Hd.
    eexists. split; [reflexivity|]. split; [reflexivity|].
    apply Z.eqb_eq in Hd. proj_simpl. repeat split. exact Hd.
Qed.

(** ** Capacitance measurement for small caps *)

Lemma wlp_discharge_below_reads ch fuel :
  forall w (Q : unit -> World -> Prop),
    (forall w' j,
        same_globals w w' -> (n_ReadU w <= j)%nat -> n_ReadU w' = S j ->
        n_TIFR1 w' = n_TIFR1 w ->
        u16 (ReadU_in hw j) <= 980 -> Q tt w') ->
    wlp (discharge_below hw fuel ch) Q w.
Proof.
  induction fuel as [|fuel IH]; intros w Q HQ; cbn [discharge_below].
  - apply wlp_undefined.
  - repeat wlp_step.
    + apply IH. intros w' j G Hj HR HT Hlow. proj_simpl.
      apply (HQ w' j); [|lia|exact HR|exact HT|exact Hlow].
      eapply same_globals_trans; [|exact G]. frame.
    + apply (HQ _ (n_ReadU w)); [frame|lia|reflexivity|reflexivity|].
      match goal with
      | H : (_ >? 980) = false |- _ => rewrite Z.gtb_ltb in H; apply Z.ltb_ge in H; exact H
      end.
Qed.

(** The self-adjustment in full: the readings it takes, the offset of the
    bandgap reference and what it leaves alone. *)
Lemma wlp_SmallCap_adjust_offsets fuel Value U_c w :
  wlp (SmallCap_adjust hw fuel Value U_c)
      (fun _ w' =>
         Caps w' = Caps w /\ Probes w' = Probes w /\ Check w' = Check w /\
         Cfg w' = Config.set_AutoScale 1 (Cfg w) /\
         n_TIFR1 w' = n_TIFR1 w /\
         Adjust.RiL (NV w') = Adjust.RiL (NV w) /\
         Adjust.RZero (NV w') = Adjust.RZero (NV w) /\
         Adjust.CapZero (NV w') = Adjust.CapZero (NV w) /\
         exists j,
           (n_ReadU w <= j)%nat /\ n_ReadU w' = (3 + j)%nat /\
           u16 (ReadU_in hw j) <= 980 /\
           let Ticks := u16 (ReadU_in hw (1 + j)) in
           let Ticks2 := u16 (ReadU_in hw (2 + j)) in
           let Offset := s16 (Ticks - Ticks2) in
           Adjust.RefOffset (NV w') =
             if (Offset <? -4) || (Offset >? 4)
             then s8 (Adjust.RefOffset (NV w)
                      + s8 (Z.quot (s32 (s32 Offset * u16 (Config.Bandgap (Cfg w))))
                                   Ticks2))
             else Adjust.RefOffset (NV w)) w.
Proof.
  unfold SmallCap_adjust.
  do 3 wlp_step. apply wlp_discharge_below_reads.
  intros w1 j (GNV & GCfg & GCheck & GProbes & GCaps & _) Hj HR HT Hlow.
  do 14 wlp_step.
  cbn [Config.Bandgap Config.set_AutoScale]. rewrite GCfg.
  repeat wlp_step.
  all: cbn [Adjust.set_CompOffset Adjust.set_RefOffset Adjust.CompOffset
            Adjust.RefOffset Adjust.RiL Adjust.RZero Adjust.CapZero
            Config.set_AutoScale Config.Ref Config.AutoScale Config.Bandgap
            Config.Samples].
  all: rewrite ?GNV, ?GProbes, ?GCaps, ?GCheck, ?GCfg, ?HT.
  all: do 8 (split; [reflexivity|]).
  all: exists j; split; [exact Hj|]; split; [rewrite HR; reflexivity|];
    split; [exact Hlow|].
  all: cbv zeta; rewrite HR in *.
  all: cbn [Nat.add].
  all: match goal with
       | H : (_ <? -4) || (_ >? 4) = _ |- _ => rewrite H
       end.
  all: reflexivity.
Qed.

(** What the voltage loss measurement leaves alone *)
Lemma wlp_SmallCap_vloss_frame Cap Scale Value w :
  wlp (SmallCap_vloss bc hw Cap Scale Value)
      (fun early w' =>
         (early = None \/
          (early = Some 0 /\ Checking.Found (Check w') = COMP_ERROR bc)) /\
         NV w' = NV w /\ Probes w' = Probes w /\
         (Check w' = Check w \/
          Check w' = Checking.set_Found (COMP_ERROR bc) (Check w)) /\
         Config.Bandgap (Cfg w') = Config.Bandgap (Cfg w) /\
         Config.Ref (Cfg w') = Config.Ref (Cfg w) /\
         Config.AutoScale (Cfg w') = Config.AutoScale (Cfg w)) w.
Proof.
  unfold SmallCap_vloss.
  repeat wlp_step.
  all: try (apply wlp_wait5us_times; intros w1 G1; repeat wlp_step;
            apply wlp_wait5us_times; intros w2 G2; repeat wlp_step).
  all: split_frames; proj_simpl.
  all: cbn [Config.set_Samples Config.Bandgap Config.Ref Config.AutoScale
            Checking.set_Found Checking.Found] in *.
  all: repeat match goal with
              | H : (_ =? COMP_ERROR bc) = true |- _ => apply Z.eqb_eq in H
              end.
  all: split; [first [left; reflexivity | right; split; [reflexivity|assumption]]|].
  all: try match goal with
           | H : (?x =? ?x) = false |- _ => rewrite Z.eqb_refl in H; discriminate H
           end.
  all: split; [congruence|].
  all: split; [congruence|].
  all: split; [first [left; congruence | right; congruence]|].
  all: repeat match goal with
              | H : Cfg ?x = _ |- context [Cfg ?x] => rewrite H
              end.
  all: cbn [Config.set_Samples Config.Bandgap Config.Ref Config.AutoScale].
  all: repeat split; congruence.
Qed.

(** What every run of [SmallCap] keeps *)
Lemma wlp_SmallCap_frame fuel Cap w :
  wlp (SmallCap bc hw fuel Cap)
      (fun r w' =>
         (r = 0 \/ r = 1 \/ r = 3) /\
         Probes w' = Probes w /\
         Config.Bandgap (Cfg w') = Config.Bandgap (Cfg w) /\
         Config.Ref (Cfg w') = Config.Ref (Cfg w) /\
         Adjust.RiL (NV w') = Adjust.RiL (NV w) /\
         Adjust.RZero (NV w') = Adjust.RZero (NV w) /\
         Adjust.CapZero (NV w') = Adjust.CapZero (NV w) /\
         (Check w' = Check w \/
          Check w' = Checking.set_Found (COMP_ERROR bc) (Check w)) /\
         (r = 0 -> Checking.Found (Check w') = COMP_ERROR bc) /\
         (r = 1 -> Caps w' = Caps w /\ NV w' = NV w /\ Cfg w' = Cfg w)) w.
Proof.
  unfold SmallCap.
  repeat wlp_step.
  all: try (apply wlp_timer_loop; [lia|]; intros TB T2 w1 G1 R1 HT2;
            repeat wlp_step).
  all: try (eapply wlp_mono; [apply wlp_SmallCap_adjust_offsets|];
            intros [] w2 (ACaps & AProbes & ACheck & ACfg & _ & ARiL & ARZ & ACZ & _);
            cbv beta iota zeta; repeat wlp_step).
  all: try (eapply wlp_mono; [apply wlp_SmallCap_vloss_frame|];
            intros early w3 (Hearly & VNV & VProbes & VCheck & VB & VR & VA);
            destruct Hearly as [-> | [-> HErr]];
            cbv beta iota zeta; repeat wlp_step).
  all: split_frames; proj_simpl.
  all: try match goal with
           | H : (Checking.Found (Checking.set_Found _ _) =? _) = false |- _ =>
               cbn [Checking.Found Checking.set_Found] in H;
               rewrite Z.eqb_refl in H; discriminate H
           | H : negb true && _ = true |- _ => discriminate H
           end.
  all: repeat match goal with
              | |- context [if ?c then 1 else 3] => destruct c eqn:?
              | H : context [if ?c then 1 else 3] |- _ => destruct c eqn:?
              end.
  all: try match goal with
           | H : (1 =? 3) = true |- _ => discriminate H
           | H : (3 =? 3) = false |- _ => discriminate H
           end.
  all: repeat match goal with
              | H : (_ =? COMP_ERROR bc) = true |- _ => apply Z.eqb_eq in H
              end.
  all: split;
    [first [left; reflexivity | right; left; reflexivity | right; right; reflexivity]|].
  all: split; [congruence|].
  all: repeat match goal with
              | H : _ \/ _ |- _ => destruct H
              end.
  all: repeat match goal with
              | H : Cfg ?x = _ |- context [Cfg ?x] => rewrite H
              | H : Config.Bandgap (Cfg ?x) = _ |- context [Config.Bandgap (Cfg ?x)] =>
                  rewrite H
              | H : Config.Ref (Cfg ?x) = _ |- context [Config.Ref (Cfg ?x)] =>
                  rewrite H
              | H : NV ?x = _ |- context [NV ?x] => rewrite H
              | H : Adjust.RiL (NV ?x) = _ |- context [Adjust.RiL (NV ?x)] =>
                  rewrite H
              | H : Adjust.RZero (NV ?x) = _ |- context [Adjust.RZero (NV ?x)] =>
                  rewrite H
              | H : Adjust.CapZero (NV ?x) = _ |- context [Adjust.CapZero (NV ?x)] =>
                  rewrite H
              | H : Check ?x = _ |- context [Check ?x] => rewrite H
              end.
  all: cbn [Config.set_AutoScale Config.set_Samples Config.Bandgap Config.Ref
            Checking.Found Checking.set_Found].
  all: do 5 (split; [reflexivity|]).
  all: split; [first [left; reflexivity | right; reflexivity]|].
  all: split; intros Hr; try discriminate Hr.
  all: try assumption.
  all: try reflexivity.
  all: try congruence.
  all: repeat split; congruence.
Qed.

(** X9.  Every run of [SmallCap] returns 0, 1 or 3, never the 2
    ("capacitance too low") of its header.  It returns 0 only with
    COMP_ERROR on record; with the result 1 the capacitor records, the
    adjustment values and the configuration are as they were.  No run
    changes the probes, the bandgap voltage or the reference of the
    configuration, or the adjustment values RiL, RZero and CapZero: the
    self-adjustment updates the offsets in NV only. *)
Theorem SmallCap_frame fuel Cap w r w' :
  runs (SmallCap bc hw fuel Cap) w r w' ->
  (r = 0 \/ r = 1 \/ r = 3) /\
  (r = 0 -> Checking.Found (Check w') = COMP_ERROR bc) /\
  (r = 1 -> Caps w' = Caps w /\ NV w' = NV w /\ Cfg w' = Cfg w) /\
  Probes w' = Probes w /\
  Config.Bandgap (Cfg w') = Config.Bandgap (Cfg w) /\
  Config.Ref (Cfg w') = Config.Ref (Cfg w) /\
  Adjust.RiL (NV w') = Adjust.RiL (NV w) /\
  Adjust.RZero (NV w') = Adjust.RZero (NV w) /\
  Adjust.CapZero (NV w') = Adjust.CapZero (NV w).
Proof.
  intros E.
  destruct (wlp_SmallCap_frame fuel Cap w r w' E)
    as (Hr & HP & HB & HRef & HRiL & HRZ & HCZ & _ & H0 & H1).
  auto 12.
Qed.

(** X10.  The self-adjustment of [SmallCap] takes its two readings of the
    capacitor right after the first reading of 980 mV or less.  When they
    differ by more than 4 mV, the offset of the bandgap reference in NV
    grows by difference * U_bandgap / reading with the bandgap reference,
    cut to 8 bits; when they differ by 4 mV or less it stays.  Of the
    configuration only auto-scaling changes, which is switched on again;
    the bandgap voltage kept there stays as it was. *)
Theorem SmallCap_adjust_RefOffset fuel Value U_c w w' :
  runs (SmallCap_adjust hw fuel Value U_c) w tt w' ->
  Cfg w' = Config.set_AutoScale 1 (Cfg w) /\
  exists j,
    (n_ReadU w <= j)%nat /\ n_ReadU w' = (3 + j)%nat /\
    u16 (ReadU_in hw j) <= 980 /\
    let Ticks := u16 (ReadU_in hw (1 + j)) in
    let Ticks2 := u16 (ReadU_in hw (2 + j)) in
    let Offset := s16 (Ticks - Ticks2) in
    Adjust.RefOffset (NV w') =
      if (Offset <? -4) || (Offset >? 4)
      then s8 (Adjust.RefOffset (NV w)
               + s8 (Z.quot (s32 (s32 Offset * u16 (Config.Bandgap (Cfg w))))
                            Ticks2))
      else Adjust.RefOffset (NV w).
Proof.
  intros E.
  destruct (wlp_SmallCap_adjust_offsets fuel Value U_c w tt w' E)
    as (_ & _ & _ & HCfg & _ & _ & _ & _ & H).
  split; [exact HCfg|exact H].
Qed.

(** The timer loop counts the overflows up to the capture event. *)
Lemma timer_loop_capture n :
  forall fuel Ticks2 w,
    (n < fuel)%nat ->
    0 <= Ticks2 -> overflow_budget bc <= 65535 ->
    captured_at hw (n_TIFR1 w) n ->
    Ticks2 + Z.of_nat (overflows hw (n_TIFR1 w) n) < overflow_budget bc ->
    exists w',
      runs (timer_loop bc hw fuel Ticks2) w
           (u8 (TIFR1_in hw (n_TIFR1 w + n)),
            Ticks2 + Z.of_nat (overflows hw (n_TIFR1 w) n)) w'
      /\ same_globals w w' /\ n_TIFR1 w' = (n_TIFR1 w + S n)%nat
      /\ n_ReadU w' = n_ReadU w /\ n_ICR1 w' = n_ICR1 w
      /\ n_TCNT1 w' = n_TCNT1 w /\ n_Discharge w' = n_Discharge w.
Proof.
  induction n as [|n IH]; intros fuel Ticks2 w Hfuel HT HB (Hcap & Hn) Hsum;
    (destruct fuel as [|fuel]; [lia|]);
    unfold runs; rewrite timer_loop_step; cbv zeta.
  - rewrite Nat.add_0_r in *. unfold captured in Hn. rewrite Hn.
    cbn [overflows]. rewrite Z.add_0_r.
    eexists. split; [reflexivity|]. split; [frame|]. proj_simpl.
    repeat split. lia.
  - pose proof (Hcap 0%nat ltac:(lia)) as Hc0.
    rewrite Nat.add_0_r in Hc0. unfold captured in Hc0. rewrite Hc0.
    change (overflows hw (n_TIFR1 w) (S n))
      with ((if overflowed hw (n_TIFR1 w) then 1 else 0)
            + overflows hw (S (n_TIFR1 w)) n)%nat in *.
    assert (Hcap' : captured_at hw (S (n_TIFR1 w)) n).
    { split.
      - intros i Hi. replace (S (n_TIFR1 w) + i)%nat with (n_TIFR1 w + S i)%nat by lia.
        apply Hcap. lia.
      - replace (S (n_TIFR1 w) + n)%nat with (n_TIFR1 w + S n)%nat by lia. exact Hn. }
    destruct (overflowed hw (n_TIFR1 w)) eqn:Hov0;
      pose proof Hov0 as Hov0'; unfold overflowed in Hov0'; rewrite Hov0'.
    + rewrite (u16_id (Ticks2 + 1)) by lia.
      unfold mbind, M_bind, out, wdt_reset, emit, modify.
      replace (Ticks2 + 1 =? overflow_budget bc) with false
        by (symmetry; apply Z.eqb_neq; lia).
      edestruct (IH fuel (Ticks2 + 1)) as (w' & E & G & R0 & R1 & R2 & R3 & R4);
        [lia | lia | exact HB | | | ].
      3:{ exists w'.
          replace (n_TIFR1 w + S n)%nat with (S (n_TIFR1 w) + n)%nat by lia.
          replace (Ticks2 + Z.of_nat (1 + overflows hw (S (n_TIFR1 w)) n))
            with (Ticks2 + 1 + Z.of_nat (overflows hw (S (n_TIFR1 w)) n)) by lia.
          split; [exact E|].
          split; [eapply same_globals_trans; [|exact G]; frame|].
          rewrite R0, R1, R2, R3, R4. proj_simpl. repeat split. lia. }
      * proj_simpl. exact Hcap'.
      * proj_simpl. lia.
    + edestruct (IH fuel Ticks2) as (w' & E & G & R0 & R1 & R2 & R3 & R4);
        [lia | lia | exact HB | | | ].
      3:{ exists w'.
          replace (n_TIFR1 w + S n)%nat with (S (n_TIFR1 w) + n)%nat by lia.
          replace (Ticks2 + Z.of_nat (0 + overflows hw (S (n_TIFR1 w)) n))
            with (Ticks2 + Z.of_nat (overflows hw (S (n_TIFR1 w)) n)) by lia.
          split; [exact E|].
          split; [eapply same_globals_trans; [|exact G]; frame|].
          rewrite R0, R1, R2, R3, R4. proj_simpl. repeat split. lia. }
      * proj_simpl. exact Hcap'.
      * proj_simpl. lia.
Qed.

(** X11.  A measurement of [SmallCap]: when the probes are discharged, the
    capture event comes at poll [n] of the timer loop and the overflows
    counted (one more for an overflow missed at the last poll) stay below
    the budget of CPU_FREQ / 5000, the result is 3 and the record holds
    what "calculate capacitance" makes of the captured counter and the
    overflow count, with the pins of the probes.  This is for a value
    outside the window of the self-adjustment and a build without
    SW_C_VLOSS; then nothing else in the records and nothing in the
    adjustment values changes. *)
Theorem SmallCap_measures fuel Cap w n c Scale Raw Value :
  SW_C_VLOSS bc = false ->
  overflow_budget bc <= 65535 ->
  discharged bc hw w = true ->
  (n < fuel)%nat ->
  Caps w !! Cap = Some c ->
  captured_at hw (n_TIFR1 w) n ->
  SmallCap_overflows hw w n < overflow_budget bc ->
  SmallCap_calc bc (NV w) (Cfg w) (Probes w)
                (u16 (ICR1_in hw (n_ICR1 w))) (SmallCap_overflows hw w n) =
    Some (Scale, Raw, Value) ->
  SmallCap_adjusts bc Scale Value = false ->
  exists w',
    runs (SmallCap bc hw fuel Cap) w 3 w' /\
    Caps w' = <[Cap := Capacitor.set_result (Probe.ID_2 (Probes w))
                         (Probe.ID_1 (Probes w)) Scale Raw Value c]> (Caps w) /\
    NV w' = NV w /\
    n_TIFR1 w' = (n_TIFR1 w + S n)%nat.
Proof.
  intros HVL HB Hd Hfuel Hc Hcap Hbudget Hcalc Hadj.
  unfold discharged in Hd. apply andb_prop in Hd as [HD HF].
  apply negb_true_iff in HD. apply negb_true_iff in HF.
  apply wp_result.
  unfold SmallCap.
  wp_step. apply wp_DischargeProbes_cases; [intros _|congruence].
  cbv beta iota zeta; proj_simpl.
  do 2 wp_step. rewrite HF.
  repeat wp_step.
  all: match goal with |- wp (timer_loop _ _ _ _) _ ?W =>
         destruct (timer_loop_capture n fuel 0 W) as (w1 & E & G & RT & RU & RI & RC & RD);
           [ exact Hfuel | lia | exact HB | exact Hcap
           | unfold SmallCap_overflows in Hbudget; cbv zeta in Hbudget;
             proj_simpl;
             destruct ((_ >? _) && _) in Hbudget; lia | ]
       end.
  all: eapply wp_of_runs; [exact E|]; cbv beta iota zeta; proj_simpl.
  all: destruct G as (GNV & GCfg & GCheck & GProbes & GCaps & _); proj_simpl.
  do 10 wp_step. rewrite RI, RC, !Z.add_0_l.
  unfold SmallCap_overflows, SmallCap_adjusts in *. cbv zeta in *.
  assert (Ho : 0 <= Z.of_nat (overflows hw (n_TIFR1 w) n)) by lia.
  destruct ((u16 (TCNT1_in hw (n_TCNT1 w)) >? u16 (ICR1_in hw (n_ICR1 w))) &&
            nonzero (Z.land (u8 (TIFR1_in hw (n_TIFR1 w + n))) (bit TOV1))) eqn:Hm.
  all: rewrite ?(u16_id (Z.of_nat (overflows hw (n_TIFR1 w) n) + 1)) by lia.
  all: match type of Hbudget with
       | ?T2 < _ =>
           assert (Hlt : (T2 >=? overflow_budget bc) = false)
             by (rewrite Z.geb_leb; apply Z.leb_gt; lia)
       end.
  all: repeat (wp_step; rewrite ?Hlt; try change (3 =? 3) with true; cbv iota).
  all: rewrite ?GNV, ?GCfg.
  all: eapply wp_lift; [exact Hcalc|]; cbv beta iota zeta.
  all: wp_step; apply wp_store;
    [proj_simpl; rewrite ?GCaps; eapply lookup_lt_Some; exact Hc|].
  all: intros c0 Hc0; cbv beta iota zeta; proj_simpl.
  all: rewrite Hadj, HVL.
  all: repeat wp_step.
  all: rewrite GCaps in Hc0; assert (c0 = c) by congruence; subst c0.
  all: split; [reflexivity|]. 
  all: split; [rewrite GCaps; reflexivity|].
  all: split; [exact GNV|].
  all: rewrite RT; reflexivity.
Qed.

(** ** Reference cap *)

Lemma s8_range x : -128 <= s8 x <= 127.
Proof. unfold s8. pose proof (Z.mod_pos_bound (x + 128) 256). lia. Qed.

(** What every run of [RefCap] keeps, and how it moves the bandgap
    voltage and its offset together. *)
Lemma wlp_RefCap_frame fuel w :
  wlp (RefCap bc hw fuel)
      (fun r w' =>
         (r = 0 \/ r = 1) /\
         Caps w' = Caps w /\ Probes w' = Probes w /\ Check w' = Check w /\
         (r = 0 -> NV w' = NV w /\ Cfg w' = Cfg w) /\
         Adjust.RiL (NV w') = Adjust.RiL (NV w) /\
         Adjust.RZero (NV w') = Adjust.RZero (NV w) /\
         Adjust.CapZero (NV w') = Adjust.CapZero (NV w) /\
         ((Config.Bandgap (Cfg w') = Config.Bandgap (Cfg w) /\
           Adjust.RefOffset (NV w') = Adjust.RefOffset (NV w)) \/
          exists d, -128 <= d <= 127 /\
            Config.Bandgap (Cfg w') = u16 (u16 (Config.Bandgap (Cfg w)) + d) /\
            Adjust.RefOffset (NV w') = s8 (Adjust.RefOffset (NV w) + d))) w.
Proof.
  unfold RefCap.
  repeat wlp_step.
  apply wlp_RefCap_discharge. intros T0 w0 G0.
  repeat wlp_step.
  2: apply wlp_timer_loop; [lia|]; intros TB T2 w1 G1 _ _; repeat wlp_step.
  all: try (apply wlp_discharge_below; intros w2 G2; repeat wlp_step).
  all: split_frames; proj_simpl.
  all: repeat match goal with
              | |- context [if ?c then 1 else 0] => destruct c eqn:?
              | H : context [if ?c then 1 else 0] |- _ => destruct c eqn:?
              end.
  all: try match goal with
           | H : nonzero 0 = true |- _ => discriminate H
           | H : nonzero 1 = false |- _ => discriminate H
           end.
  all: cbn [Adjust.set_CompOffset Adjust.set_RefOffset Adjust.CompOffset
            Adjust.RefOffset Adjust.RiL Adjust.RZero Adjust.CapZero
            Config.set_AutoScale Config.set_Bandgap Config.Bandgap] in *.
  all: split; [first [left; reflexivity | right; reflexivity]|].
  all: do 3 (split; [congruence|]).
  all: split; [intros Hr; try discriminate Hr; split; congruence|].
  all: do 3 (split; [congruence|]).
  all: repeat match goal with
              | H : Cfg ?x = _ |- context [Cfg ?x] => rewrite H
              | H : NV ?x = _ |- context [NV ?x] => rewrite H
              end.
  all: cbn [Config.set_AutoScale Config.set_Bandgap Config.Bandgap].
  all: first
         [ left; split; reflexivity
         | right; eexists; split; [apply s8_range|]; split; reflexivity ].
Qed.

(** X12.  Every run of [RefCap] returns 0 or 1 and leaves the capacitor
    records, the probes and RiL, RZero and CapZero alone; with the result
    0 the adjustment values and the configuration are as they were.  The
    bandgap voltage of the configuration and its offset in NV move
    together: both stay, or both take the same correction of 8 bits. *)
Theorem RefCap_frame fuel w r w' :
  runs (RefCap bc hw fuel) w r w' ->
  (r = 0 \/ r = 1) /\
  (r = 0 -> NV w' = NV w /\ Cfg w' = Cfg w) /\
  Caps w' = Caps w /\ Probes w' = Probes w /\
  Adjust.RiL (NV w') = Adjust.RiL (NV w) /\
  Adjust.RZero (NV w') = Adjust.RZero (NV w) /\
  Adjust.CapZero (NV w') = Adjust.CapZero (NV w) /\
  ((Config.Bandgap (Cfg w') = Config.Bandgap (Cfg w) /\
    Adjust.RefOffset (NV w') = Adjust.RefOffset (NV w)) \/
   exists d, -128 <= d <= 127 /\
     Config.Bandgap (Cfg w') = u16 (u16 (Config.Bandgap (Cfg w)) + d) /\
     Adjust.RefOffset (NV w') = s8 (Adjust.RefOffset (NV w) + d)).
Proof.
  intros E.
  destruct (wlp_RefCap_frame fuel w r w' E)
    as (Hr & HCaps & HProbes & _ & H0 & HRiL & HRZ & HCZ & Hstep).
  auto 12.
Qed.

(** The discharge loop of [RefCap] while the cap stays charged *)
Lemma RefCap_discharge_stays d :
  forall n T w,
    T + Z.of_nat d = 51 -> (d <= n)%nat -> 0 <= T ->
    (forall i, (i < d)%nat ->
               u16 (ReadU_in hw (n_ReadU w + i)) > CAP_DISCHARGED bc) ->
    exists w',
      runs (RefCap_discharge bc hw n T) w 51 w'
      /\ same_globals w w' /\ n_ReadU w' = (n_ReadU w + d)%nat
      /\ n_TIFR1 w' = n_TIFR1 w /\ sleeps w' = (sleeps w + d)%nat.
Proof.
  induction d as [|d IH]; intros n T w HT Hn HT0 Hhigh.
  - assert (T = 51) by lia. subst T.
    exists w. split; [|split; [apply same_globals_refl|repeat split; lia]].
    destruct n; reflexivity.
  - destruct n as [|n]; [lia|].
    unfold runs. cbn [RefCap_discharge].
    replace (T <=? 50) with true by (symmetry; apply Z.leb_le; lia).
    unfold mbind, M_bind, ReadU.
    pose proof (Hhigh 0%nat ltac:(lia)) as H0. rewrite Nat.add_0_r in H0.
    replace (u16 (ReadU_in hw (n_ReadU w)) <=? CAP_DISCHARGED bc) with false
      by (symmetry; apply Z.leb_gt; lia).
    unfold emit, modify. rewrite (u8_id (T + 1)) by lia.
    edestruct (IH n (T + 1)) as (w' & E & G & HR & HTI & HS); [lia|lia|lia| |].
    2:{ exists w'. split; [exact E|]. split; [|split; [|split]].
        - eapply same_globals_trans; [|exact G]. frame.
        - rewrite HR. proj_simpl. lia.
        - rewrite HTI. reflexivity.
        - rewrite HS. unfold sleeps. proj_simpl. cbn [count_events is_sleep]. lia. }
    intros i Hi. proj_simpl.
    replace (S (n_ReadU w) + i)%nat with (n_ReadU w + S i)%nat by lia.
    apply Hhigh. lia.
Qed.

(** X13.  When the reference cap is still above CAP_DISCHARGED at each of
    51 readings, [RefCap] gives up: it returns 0 after these 51 readings
    and 51 sleeps of 20 ms, without a poll of the timer, and leaves the
    adjustment values and the configuration as they were. *)
Theorem RefCap_discharge_timeout fuel w :
  (forall i, (i < 51)%nat ->
             u16 (ReadU_in hw (n_ReadU w + i)) > CAP_DISCHARGED bc) ->
  exists w',
    runs (RefCap bc hw fuel) w 0 w' /\
    NV w' = NV w /\ Cfg w' = Cfg w /\
    n_ReadU w' = (n_ReadU w + 51)%nat /\
    sleeps w' = (sleeps w + 51)%nat /\
    n_TIFR1 w' = n_TIFR1 w.
Proof.
  intros Hhigh. apply wp_result. unfold RefCap.
  repeat wp_step.
  match goal with |- wp _ _ ?W =>
    destruct (RefCap_discharge_stays 51 52 0 W) as (w' & E & G & HR & HT & HS);
      [lia | lia | lia | exact Hhigh |]
  end.
  eapply wp_of_runs; [exact E|]. cbv beta iota zeta.
  change (negb (51 =? 100)) with true. cbv iota.
  wp_step. destruct G as (GNV & GCfg & _). proj_simpl.
  split; [reflexivity|]. split; [exact GNV|]. split; [exact GCfg|].
  split; [exact HR|]. split; [|exact HT].
  rewrite HS. reflexivity.
Qed.

(** ** Capacitance between two probe pins *)

(** The loop through the resistors, from the counter [T0] on: it ends with
    100 at the first resistor of less than 10 Ohms between the probes, and
    with the number of resistors when there is none. *)
Lemma MeasureCap_resistors_from count Probe1 Probe2 rs :
  forall T0,
    0 <= T0 <= count -> count < 100 ->
    count - T0 <= Z.of_nat (length rs) ->
    exists T,
      MeasureCap_resistors bc rs count Probe1 Probe2 T0 = Some T /\
      ((T = 100 /\
        exists i r, Z.of_nat i < count - T0 /\ rs !! i = Some r /\
                    low_resistor bc Probe1 Probe2 r = true) \/
       (T = count /\
        forall i r, Z.of_nat i < count - T0 -> rs !! i = Some r ->
                    low_resistor bc Probe1 Probe2 r = false)).
Proof.
  induction rs as [|r rs IH]; intros T0 HT Hc Hlen; cbn [MeasureCap_resistors].
  - cbn [length] in Hlen.
    replace (T0 <? count) with false by (symmetry; apply Z.ltb_ge; lia).
    exists T0. split; [reflexivity|]. right. split; [lia|].
    intros i r' Hi. lia.
  - cbn [length] in Hlen. destruct (T0 <? count) eqn:Hlt.
    2:{ apply Z.ltb_ge in Hlt. exists T0. split; [reflexivity|]. right.
        split; [lia|]. intros i r' Hi. lia. }
    apply Z.ltb_lt in Hlt.
    destruct (low_resistor bc Probe1 Probe2 r) eqn:Hlow.
    + (* found: the counter jumps to 100 and the loop ends *)
      unfold low_resistor in Hlow. apply andb_prop in Hlow as [Hpins Hval].
      rewrite Hpins, Hval. change (u8 (99 + 1)) with 100.
      exists 100. split.
      * destruct rs; cbn [MeasureCap_resistors];
          replace (100 <? count) with false by (symmetry; apply Z.ltb_ge; lia);
          reflexivity.
      * left. split; [reflexivity|]. exists 0%nat, r.
        split; [lia|]. split; [reflexivity|].
        unfold low_resistor. rewrite Hpins, Hval. reflexivity.
    + assert (Hstep :
        (if ((Resistor.A r =? Probe1) && (Resistor.B r =? Probe2))
            || ((Resistor.A r =? Probe2) && (Resistor.B r =? Probe1))
         then if CmpValue bc (Resistor.Value r) (Resistor.Scale r) 10 0 =? -1
              then 99 else T0
         else T0) = T0).
      { unfold low_resistor in Hlow.
        destruct (((Resistor.A r =? Probe1) && (Resistor.B r =? Probe2))
                  || ((Resistor.A r =? Probe2) && (Resistor.B r =? Probe1)));
          [|reflexivity].
        rewrite andb_true_l in Hlow. rewrite Hlow. reflexivity. }
      rewrite Hstep, (u8_id (T0 + 1)) by lia.
      destruct (IH (T0 + 1)) as (T & HT' & Hres); [lia|lia|lia|].
      exists T. split; [exact HT'|].
      destruct Hres as [(-> & i & r' & Hi & Hr' & Hl) | (-> & Hnone)].
      * left. split; [reflexivity|]. exists (S i), r'.
        split; [lia|]. split; [exact Hr'|exact Hl].
      * right. split; [reflexivity|].
        intros [|i] r' Hi Hr'.
        -- cbn in Hr'. inversion Hr'; subst. exact Hlow.
        -- apply (Hnone i r'); [lia|exact Hr'].
Qed.

(** X14.  The loop of [MeasureCap] through the resistors found (fewer than
    100, all inside the array) ends with 100 exactly when one of them lies
    between the two probes, in either direction, and has less than 10
    Ohms; otherwise it ends with the number of resistors. *)
Theorem MeasureCap_resistors_finds_low rs count Probe1 Probe2 :
  0 <= count < 100 ->
  count <= Z.of_nat (length rs) ->
  exists T,
    MeasureCap_resistors bc rs count Probe1 Probe2 0 = Some T /\
    (T = 100 <->
     exists i r, Z.of_nat i < count /\ rs !! i = Some r /\
                 low_resistor bc Probe1 Probe2 r = true) /\
    (T <> 100 -> T = count).
Proof.
  intros Hc Hlen.
  destruct (MeasureCap_resistors_from count Probe1 Probe2 rs 0)
    as (T & HT & Hres); [lia|lia|lia|].
  exists T. split; [exact HT|].
  rewrite Z.sub_0_r in Hres.
  destruct Hres as [(-> & Hex) | (-> & Hnone)].
  - split; [|congruence]. split; [intros _; exact Hex|reflexivity].
  - split; [|reflexivity]. split; [lia|].
    intros (i & r & Hi & Hr & Hl). rewrite (Hnone i r Hi Hr) in Hl. discriminate Hl.
Qed.

(** X15.  With an error on record, or with a resistor on record and none
    of the resistors found lying between the two probes with less than 10
    Ohms, [MeasureCap] returns with nothing done but the reset of the
    capacitor record: no estimator runs and the probes are not touched. *)
Theorem MeasureCap_skips_error_and_resistor fuel Probe1 Probe2 ID w c :
  Caps w !! Z.to_nat ID = Some c ->
  Checking.Found (Check w) = COMP_ERROR bc \/
  (Checking.Found (Check w) = COMP_RESISTOR bc /\
   0 <= Checking.Resistors (Check w) < 100 /\
   Checking.Resistors (Check w) <= Z.of_nat (length (Resistors w)) /\
   forall i r, Z.of_nat i < Checking.Resistors (Check w) ->
               Resistors w !! i = Some r ->
               low_resistor bc Probe1 Probe2 r = false) ->
  runs (MeasureCap bc hw fuel Probe1 Probe2 ID) w tt
       (set_Caps (<[Z.to_nat ID := Cap_reset bc c]> (Caps w)) w).
Proof.
  intros Hc Hskip.
  assert (W : wp (MeasureCap bc hw fuel Probe1 Probe2 ID)
                 (fun _ w' => w' = set_Caps (<[Z.to_nat ID := Cap_reset bc c]> (Caps w)) w)
                 w).
  { unfold MeasureCap. cbv zeta.
    wp_step. apply wp_store; [eapply lookup_lt_Some; exact Hc|].
    intros c0 Hc0. assert (c0 = c) by congruence. subst c0.
    cbv beta iota zeta; proj_simpl.
    do 2 wp_step.
    destruct (Checking.Found (Check w) =? COMP_ERROR bc) eqn:HE;
      [wp_step; reflexivity|].
    destruct Hskip as [Herr | (Hres & Hcount & Hlen & Hnone)].
    { apply Z.eqb_neq in HE. contradiction. }
    rewrite Hres, Z.eqb_refl.
    repeat wp_step.
    destruct (MeasureCap_resistors_from (Checking.Resistors (Check w))
                Probe1 Probe2 (Resistors w) 0) as (T & HT & HT');
      [lia|lia|lia|].
    eapply wp_lift; [exact HT|]. cbv beta iota zeta.
    rewrite Z.sub_0_r in HT'.
    destruct HT' as [(-> & i & r & Hi & Hr & Hl) | (-> & _)].
    - rewrite (Hnone i r Hi Hr) in Hl. discriminate Hl.
    - replace (Checking.Resistors (Check w) =? 100) with false
        by (symmetry; apply Z.eqb_neq; lia).
      wp_step. cbn [negb]. repeat wp_step; first [reflexivity | discriminate]. }
  destruct W as ([] & w' & E & ->). exact E.
Qed.

(** X16.  [MeasureCap] does not report a ghost: when a call leaves
    COMP_CAPACITOR in [Check.Found] and it was not there before, the record
    holds a scale above pF or a value of 5 pF or more. *)
Theorem MeasureCap_reports_no_ghost fuel Probe1 Probe2 ID w w' :
  COMP_ERROR bc <> COMP_CAPACITOR bc ->
  runs (MeasureCap bc hw fuel Probe1 Probe2 ID) w tt w' ->
  Checking.Found (Check w') = COMP_CAPACITOR bc ->
  Checking.Found (Check w) = COMP_CAPACITOR bc \/
  exists c', Caps w' !! Z.to_nat ID = Some c' /\
             (Capacitor.Scale c' > -12 \/ Capacitor.Value c' >= 5).
Proof.
  intros Hne E.
  assert (W : wlp (MeasureCap bc hw fuel Probe1 Probe2 ID)
                  (fun _ w' =>
                     Checking.Found (Check w') = COMP_CAPACITOR bc ->
                     Checking.Found (Check w) = COMP_CAPACITOR bc \/
                     exists c', Caps w' !! Z.to_nat ID = Some c' /\
                                (Capacitor.Scale c' > -12 \/ Capacitor.Value c' >= 5)) w).
  { unfold MeasureCap. repeat wlp_step.
    all: try (intros HF; left; exact HF).
    all: unfold LargeCap.
    all: (eapply wlp_mono; [apply wlp_LargeCap_from; lia|]).
    all: intros r w1 (_ & _ & _ & LCheck & _ & _ & _).
    all: cbv beta; repeat wlp_step.
    all: try (eapply wlp_mono; [apply wlp_SmallCap_frame|];
              intros r2 w2 (_ & _ & _ & _ & _ & _ & _ & SCheck & _ & _);
              cbv beta; repeat wlp_step).
    all: cbn [Checking.Found Checking.set_Found]; intros HF.
    all: try congruence.
    all: try (right; eexists; split; [eassumption|];
              repeat match goal with
                     | H : (_ >=? _) = true |- _ => rewrite Z.geb_leb in H; apply Z.leb_le in H
                     | H : (_ >? _) = true |- _ => apply Z.gtb_lt in H
                     | H : _ || _ = true |- _ => apply orb_prop in H as [H|H]
                     end; lia).
    all: left.
    all: repeat match goal with
                | H : _ \/ _ |- _ => destruct H
                end.
    all: repeat match goal with
                | H : Check ?x = _, HF : context [Check ?x] |- _ => rewrite H in HF
                end.
    all: cbn [Checking.Found Checking.set_Found] in HF; congruence. }
  exact (W tt w' E).
Qed.
End Properties.

(** * Concrete runs *)


Lemma MeasureESR_formula_witness :
  ESR_measured sample_build (esr_hardware 130 140) 0 (sample_cap 100 (-6))
               (sample_world 100 (-6)) /\
  ESR_Sum_2 (esr_hardware 130 140) (sample_world 100 (-6)) >
  ESR_Sum_1 (esr_hardware 130 140) (sample_world 100 (-6)) /\
  exists w', runs (MeasureESR sample_build (esr_hardware 130 140) (Some 0%nat))
                  (sample_world 100 (-6)) 133 w'.
Proof.
  assert (HM : ESR_measured sample_build (esr_hardware 130 140) 0
                 (sample_cap 100 (-6)) (sample_world 100 (-6)))
    by (repeat split; vm_compute; congruence).
  assert (HS : ESR_Sum_2 (esr_hardware 130 140) (sample_world 100 (-6)) >
               ESR_Sum_1 (esr_hardware 130 140) (sample_world 100 (-6)))
    by (vm_compute; reflexivity).
  split; [exact HM|]. split; [exact HS|].
  exact (proj1 (MeasureESR_formula sample_build (esr_hardware 130 140) 0
                  (sample_cap 100 (-6)) (sample_world 100 (-6)) HM HS)).
Defined.

Lemma MeasureESR_invalid_sums_witness :
  ESR_measured sample_build (esr_hardware 140 130) 0 (sample_cap 100 (-6))
               (sample_world 100 (-6)) /\
  ESR_Sum_2 (esr_hardware 140 130) (sample_world 100 (-6)) <=
  ESR_Sum_1 (esr_hardware 140 130) (sample_world 100 (-6)) /\
  exists w', runs (MeasureESR sample_build (esr_hardware 140 130) (Some 0%nat))
                  (sample_world 100 (-6)) UINT16_MAX w'.
Proof.
  assert (HM : ESR_measured sample_build (esr_hardware 140 130) 0
                 (sample_cap 100 (-6)) (sample_world 100 (-6)))
    by (repeat split; vm_compute; congruence).
  assert (HS : ESR_Sum_2 (esr_hardware 140 130) (sample_world 100 (-6)) <=
               ESR_Sum_1 (esr_hardware 140 130) (sample_world 100 (-6)))
    by (vm_compute; congruence).
  split; [exact HM|]. split; [exact HS|].
  exact (MeasureESR_invalid_sums sample_build (esr_hardware 140 130) 0
           (sample_cap 100 (-6)) (sample_world 100 (-6)) HM HS).
Defined.

(** A DUT that takes 1400 mV from a single pulse in either mode: two
    passes, and the result 2. *)
Lemma LargeCap_restarts_once_witness :
  Z.land (u8 (Z.lor (PULL_1MS sample_build) (PULL_UP sample_build)))
         (PULL_10MS sample_build) = 0 /\
  u32 (1000 - CAP_FACTOR_LARGE sample_build) <> 0 /\
  u32 (1000 - CAP_FACTOR_MID sample_build) <> 0 /\
  (0 < length (Caps (sample_world 0 (-12))))%nat /\
  (2 <= 2)%nat /\
  exists w',
    runs (LargeCap sample_build small_dut 2 0) (sample_world 0 (-12)) 2 w' /\
    LargeCap_passes (sample_world 0 (-12)) w' = 2%nat.
Proof.
  assert (H1 : Z.land (u8 (Z.lor (PULL_1MS sample_build) (PULL_UP sample_build)))
                      (PULL_10MS sample_build) = 0) by reflexivity.
  assert (HL : u32 (1000 - CAP_FACTOR_LARGE sample_build) <> 0)
    by (vm_compute; discriminate).
  assert (HM : u32 (1000 - CAP_FACTOR_MID sample_build) <> 0)
    by (vm_compute; discriminate).
  assert (H2 : (0 < length (Caps (sample_world 0 (-12))))%nat) by (cbn; lia).
  assert (H3 : (2 <= 2)%nat) by lia.
  split; [exact H1|]. split; [exact HL|]. split; [exact HM|].
  split; [exact H2|]. split; [exact H3|].
  destruct (LargeCap_restarts_once sample_build small_dut 2 0 (sample_world 0 (-12))
              H1 HL HM H2 H3) as (r & w' & E & HP & Hr).
  exists w'.
  assert (r = 2) as -> by (apply Hr; reflexivity).
  split; [exact E|exact HP].
Defined.

(** 1600 overflows at 8 MHz and no capture event *)
Lemma SmallCap_timeout_witness :
  1 <= overflow_budget sample_build <= 65534 /\
  discharged sample_build no_capture (sample_world 0 (-12)) = true /\
  timer_times_out sample_build no_capture (n_TIFR1 (sample_world 0 (-12))) 1600 /\
  (1600 <= 1600)%nat /\
  exists w',
    runs (SmallCap sample_build no_capture 1600 0) (sample_world 0 (-12)) 1 w' /\
    Caps w' = Caps (sample_world 0 (-12)).
Proof.
  assert (H1 : 1 <= overflow_budget sample_build <= 65534) by (vm_compute; split; congruence).
  assert (H2 : discharged sample_build no_capture (sample_world 0 (-12)) = true)
    by reflexivity.
  assert (H3 : timer_times_out sample_build no_capture
                 (n_TIFR1 (sample_world 0 (-12))) 1600).
  { split; [|split].
    - intros i _. reflexivity.
    - exists 1599%nat. split; reflexivity.
    - vm_compute. reflexivity. }
  assert (H4 : (1600 <= 1600)%nat) by lia.
  split; [exact H1|]. split; [exact H2|]. split; [exact H3|]. split; [exact H4|].
  exact (SmallCap_timeout sample_build no_capture 1600 0 (sample_world 0 (-12)) 1600
           H1 H2 H3 H4).
Defined.

(** The diode of 700 mV between probes 0 and 1 *)
Lemma MeasureCap_skips_low_Vf_diode_witness :
  Caps diode_world !! Z.to_nat 0 = Some (sample_cap 470 (-9)) /\
  Checking.Resistors (Check diode_world) <= Z.of_nat (length (Resistors diode_world)) /\
  (length (Resistors diode_world) <= 100)%nat /\
  SearchDiode sample_build (Check diode_world) (Diodes diode_world) 0 1 =
    Some (Diode.mk 0 1 700) /\
  Diode.V_f (Diode.mk 0 1 700) < 1500 /\
  runs (MeasureCap sample_build quiet 2 0 1 0) diode_world tt
       (set_Caps (<[Z.to_nat 0 := Cap_reset sample_build (sample_cap 470 (-9))]>
                    (Caps diode_world)) diode_world).
Proof.
  assert (H1 : Caps diode_world !! Z.to_nat 0 = Some (sample_cap 470 (-9))) by reflexivity.
  assert (H2 : Checking.Resistors (Check diode_world) <=
               Z.of_nat (length (Resistors diode_world))) by (cbn; lia).
  assert (H3 : (length (Resistors diode_world) <= 100)%nat) by (cbn; lia).
  assert (H4 : SearchDiode sample_build (Check diode_world) (Diodes diode_world) 0 1 =
               Some (Diode.mk 0 1 700)) by reflexivity.
  assert (H5 : Diode.V_f (Diode.mk 0 1 700) < 1500) by (cbn; lia).
  split; [exact H1|]. split; [exact H2|]. split; [exact H3|].
  split; [exact H4|]. split; [exact H5|].
  exact (proj1 (MeasureCap_skips_low_Vf_diode sample_build quiet 2 0 1 0 diode_world
                  (sample_cap 470 (-9)) (Diode.mk 0 1 700) H1 H2 H3 H4 H5)).
Defined.

(** 28 pF raw against a zero offset of 40 pF gives the value 0; a raw ESR
    of 0.15 Ohm against a zero offset of 0.20 Ohm gives 0 for 2200 uF. *)
Lemma zero_offset_never_negative_witness :
  (exists w' c',
      runs (SmallCap sample_build (capture_after 0 30 0) 1 0) (sample_world 0 (-12)) 3 w' /\
      Caps w' !! 0%nat = Some c' /\
      Capacitor.Scale c' = -12 /\ Capacitor.Raw c' = 28 /\ Capacitor.Value c' = 0) /\
  (exists w',
      runs (MeasureESR sample_build (esr_hardware 130 131) (Some 0%nat))
           (sample_world 2200 (-6)) 0 w').
Proof.
  split.
  - assert (R : { w' | runs (SmallCap sample_build (capture_after 0 30 0) 1 0)
                            (sample_world 0 (-12)) 3 w' })
      by (eexists; vm_compute; reflexivity).
    destruct R as [w' R].
    destruct (proj1 (zero_offset_never_negative sample_build (capture_after 0 30 0))
                1%nat 0%nat (sample_world 0 (-12)) w' R)
      as (c' & Hc' & HV & H12 & _).
    exists w', c'. split; [exact R|]. split; [exact Hc'|].
    assert (Hlook : Caps w' !! 0%nat =
                    Some (Capacitor.mk 1 0 (-12) 28 0 0 0 0)).
    { unfold runs in R. vm_compute in R. inversion R. reflexivity. }
    rewrite Hlook in Hc'. inversion Hc'. repeat split.
  - assert (HM : ESR_measured sample_build (esr_hardware 130 131) 0
                   (sample_cap 2200 (-6)) (sample_world 2200 (-6)))
      by (repeat split; vm_compute; congruence).
    assert (HS : ESR_Sum_2 (esr_hardware 130 131) (sample_world 2200 (-6)) >
                 ESR_Sum_1 (esr_hardware 130 131) (sample_world 2200 (-6)))
      by (vm_compute; reflexivity).
    refine (proj2 (zero_offset_never_negative sample_build (esr_hardware 130 131))
              0%nat (sample_cap 2200 (-6)) (sample_world 2200 (-6)) HM HS _).
    vm_compute. congruence.
Defined.



(** 998 pF raw, 958 pF after the zero offset of 40 pF *)
Lemma SmallCap_zero_offset_on_pF_only_witness :
  exists w',
    runs (SmallCap sample_build (capture_after 0 1000 0) 1 0) (sample_world 0 (-12)) 3 w' /\
    exists c',
      Caps w' !! 0%nat = Some c' /\
      ((Capacitor.Scale c' = -12 /\
        Capacitor.Value c' =
          if Capacitor.Raw c' >=? SmallCap_CapZero sample_build (sample_world 0 (-12))
          then Capacitor.Raw c' - SmallCap_CapZero sample_build (sample_world 0 (-12))
          else 0) \/
       (Capacitor.Scale c' = -9 /\ Capacitor.Value c' = Capacitor.Raw c')).
Proof.
  assert (R : { w' | runs (SmallCap sample_build (capture_after 0 1000 0) 1 0)
                          (sample_world 0 (-12)) 3 w' })
    by (eexists; vm_compute; reflexivity).
  destruct R as [w' R]. exists w'. split; [exact R|].
  exact (SmallCap_zero_offset_on_pF_only sample_build (capture_after 0 1000 0)
           1%nat 0%nat (sample_world 0 (-12)) w' R).
Defined.

(** A DUT that stays at 0 mV *)
Lemma LargeCap_early_exit_witness :
  discharged sample_build quiet (sample_world 0 (-12)) = true /\
  (1 <= 1)%nat /\
  (forall i, (1 <= i < 126)%nat ->
             LargeCap_U_Cap quiet (n_ReadU (sample_world 0 (-12))) i < 300) /\
  LargeCap_U_Cap quiet (n_ReadU (sample_world 0 (-12))) 126 < 75 /\
  exists w',
    runs (LargeCap sample_build quiet 1 0) (sample_world 0 (-12)) 1 w' /\
    pulses w' = (pulses (sample_world 0 (-12)) + 126)%nat /\
    Caps w' = Caps (sample_world 0 (-12)).
Proof.
  assert (H1 : discharged sample_build quiet (sample_world 0 (-12)) = true) by reflexivity.
  assert (H2 : (1 <= 1)%nat) by lia.
  assert (H3 : forall i, (1 <= i < 126)%nat ->
                         LargeCap_U_Cap quiet (n_ReadU (sample_world 0 (-12))) i < 300)
    by (intros i _; reflexivity).
  assert (H4 : LargeCap_U_Cap quiet (n_ReadU (sample_world 0 (-12))) 126 < 75)
    by reflexivity.
  split; [exact H1|]. split; [exact H2|]. split; [exact H3|]. split; [exact H4|].
  exact (LargeCap_early_exit sample_build quiet 1 0 (sample_world 0 (-12)) H1 H2 H3 H4).
Defined.

(** 70 overflows and 1000 ticks: 4588520 - 2; a single tick stays. *)
Lemma SmallCap_ticks_no_underflow_witness :
  0 <= 1000 < 65536 /\ 0 <= 70 < 65536 /\
  SmallCap_ticks 1000 70 = 4588518 /\ 0 <= SmallCap_ticks 1000 70 <= 4588520.
Proof.
  assert (H1 : 0 <= 1000 < 65536) by lia.
  assert (H2 : 0 <= 70 < 65536) by lia.
  split; [exact H1|]. split; [exact H2|].
  exact (SmallCap_ticks_no_underflow 1000 70 H1 H2).
Defined.

(** * Sample runs of the further properties *)

(** An ESR measurement of 1.33 Ohm: 1020 readings of the ADC between two
    calls of [DischargeProbes()]. *)
Lemma MeasureESR_frame_witness :
  exists w',
    runs (MeasureESR sample_build (esr_hardware 130 140) (Some 0%nat))
         (sample_world 100 (-6)) 133 w' /\
    0 <= 133 <= UINT16_MAX /\
    Caps w' = Caps (sample_world 100 (-6)) /\ NV w' = NV (sample_world 100 (-6)) /\
    ((n_ADCW w' = n_ADCW (sample_world 100 (-6)) /\ 133 = UINT16_MAX) \/
     (n_ADCW w' = (1020 + n_ADCW (sample_world 100 (-6)))%nat /\
      n_Discharge w' = (2 + n_Discharge (sample_world 100 (-6)))%nat /\
      Config.Ref (Cfg w') = ADC_REF_BANDGAP sample_build)).
Proof.
  assert (R : { w' | runs (MeasureESR sample_build (esr_hardware 130 140) (Some 0%nat))
                          (sample_world 100 (-6)) 133 w' })
    by (eexists; vm_compute; reflexivity).
  destruct R as [w' R]. exists w'. split; [exact R|].
  exact (MeasureESR_frame sample_build (esr_hardware 130 140) (Some 0%nat)
           (sample_world 100 (-6)) 133 w' R).
Defined.

(** The same readings in the older variant: sums of 66301 and 71401, a raw
    ESR of 1.53 Ohm and 1.33 Ohm after RZero. *)
Lemma OldESR_result_witness :
  OldESR.measured sample_build (esr_hardware 130 140) 0 (sample_cap 100 (-6))
                  (sample_world 100 (-6)) /\
  exists w',
    runs (OldESR.MeasureESR sample_build (esr_hardware 130 140) (Some 0%nat))
         (sample_world 100 (-6)) 133 w'.
Proof.
  assert (HM : OldESR.measured sample_build (esr_hardware 130 140) 0
                 (sample_cap 100 (-6)) (sample_world 100 (-6)))
    by (repeat split; vm_compute; congruence).
  split; [exact HM|].
  exact (OldESR_result sample_build (esr_hardware 130 140) 0 (sample_cap 100 (-6))
           (sample_world 100 (-6)) HM).
Defined.

(** Two passes of a single pulse each *)
Lemma LargeCap_pulse_budget_witness :
  Z.land (u8 (Z.lor (PULL_1MS sample_build) (PULL_UP sample_build)))
         (PULL_10MS sample_build) = 0 /\
  exists w',
    runs (LargeCap sample_build small_dut 2 0) (sample_world 0 (-12)) 2 w' /\
    (pulses w' <= pulses (sample_world 0 (-12)) + 501)%nat.
Proof.
  assert (H1 : Z.land (u8 (Z.lor (PULL_1MS sample_build) (PULL_UP sample_build)))
                      (PULL_10MS sample_build) = 0) by reflexivity.
  assert (R : { w' | runs (LargeCap sample_build small_dut 2 0)
                          (sample_world 0 (-12)) 2 w' })
    by (eexists; vm_compute; reflexivity).
  split; [exact H1|].
  destruct R as [w' R]. exists w'. split; [exact R|].
  exact (LargeCap_pulse_budget sample_build small_dut 2 0 (sample_world 0 (-12)) 2 w'
           H1 R).
Defined.

(** A DUT that stays at 0 mV: the result 1 and the records as they were *)
Lemma LargeCap_failure_keeps_records_witness :
  exists w',
    runs (LargeCap sample_build quiet 1 0) (sample_world 0 (-12)) 1 w' /\
    NV w' = NV (sample_world 0 (-12)) /\ Cfg w' = Cfg (sample_world 0 (-12)) /\
    Probes w' = Probes (sample_world 0 (-12)) /\
    only_U_loss sample_build 0 (sample_world 0 (-12)) w' /\
    Caps w' = Caps (sample_world 0 (-12)).
Proof.
  assert (R : { w' | runs (LargeCap sample_build quiet 1 0)
                          (sample_world 0 (-12)) 1 w' })
    by (eexists; vm_compute; reflexivity).
  destruct R as [w' R]. exists w'. split; [exact R|].
  destruct (LargeCap_failure_keeps_records sample_build quiet 1 0
              (sample_world 0 (-12)) 1 w' R)
    as (_ & HNV & HCfg & HProbes & Hkept & Hsame).
  split; [exact HNV|]. split; [exact HCfg|]. split; [exact HProbes|].
  split; [apply Hkept; discriminate|].
  apply Hsame; [discriminate|reflexivity].
Defined.

(** 400 mV after the first pulse of 10 ms: 200 uF *)
Lemma LargeCap_success_record_witness :
  exists w',
    runs (LargeCap sample_build (steady_dut 400) 1 0) (sample_world 0 (-12)) 3 w' /\
    exists c', Caps w' !! 0%nat = Some c' /\
               LargeCap_record sample_build (Probes (sample_world 0 (-12))) c'.
Proof.
  assert (R : { w' | runs (LargeCap sample_build (steady_dut 400) 1 0)
                          (sample_world 0 (-12)) 3 w' })
    by (eexists; vm_compute; reflexivity).
  destruct R as [w' R]. exists w'. split; [exact R|].
  exact (LargeCap_success_record sample_build (steady_dut 400) 1 0
           (sample_world 0 (-12)) w' R).
Defined.


(** 400 mV after the first pulse and no drop: a factor of 20000 for one
    pulse of 10 ms, 200000 nF raw *)
Lemma LargeCap_measures_witness :
  discharged sample_build (steady_dut 400) (sample_world 0 (-12)) = true /\
  (1 <= 1)%nat /\
  (0 < length (Caps (sample_world 0 (-12))))%nat /\
  nonzero (Z.land (u8 (Z.lor (PULL_10MS sample_build) (PULL_UP sample_build)))
                  (PULL_10MS sample_build)) = true /\
  u32 (1000 - CAP_FACTOR_LARGE sample_build) <> 0 /\
  LargeCap_ends_at (steady_dut 400) (n_ReadU (sample_world 0 (-12))) 1 /\
  300 <= LargeCap_U_Cap (steady_dut 400) (n_ReadU (sample_world 0 (-12))) 1 /\
  LargeCap_U_Cap (steady_dut 400) (n_ReadU (sample_world 0 (-12))) 1 <= 1300 /\
  LargeCap_U_Drop (steady_dut 400) (n_ReadU (sample_world 0 (-12))) 1 <= 100 /\
  LargeCap_raw_10ms sample_build (steady_dut 400) (n_ReadU (sample_world 0 (-12))) 1
    = 200000 /\
  exists w' c',
    runs (LargeCap sample_build (steady_dut 400) 1 0) (sample_world 0 (-12)) 3 w' /\
    pulses w' = (pulses (sample_world 0 (-12)) + 1)%nat /\
    Caps w' !! 0%nat = Some c' /\
    Capacitor.Raw c' = 200000 /\
    Capacitor.Scale c' = -9 /\
    Capacitor.Value c' =
      Capacitor.Raw c' * 1000 / u32 (1000 - CAP_FACTOR_LARGE sample_build).
Proof.
  assert (H1 : discharged sample_build (steady_dut 400) (sample_world 0 (-12)) = true)
    by reflexivity.
  assert (H2 : (1 <= 1)%nat) by lia.
  assert (H3 : (0 < length (Caps (sample_world 0 (-12))))%nat) by (cbn; lia).
  assert (H4 : nonzero (Z.land (u8 (Z.lor (PULL_10MS sample_build) (PULL_UP sample_build)))
                               (PULL_10MS sample_build)) = true) by reflexivity.
  assert (H5 : u32 (1000 - CAP_FACTOR_LARGE sample_build) <> 0)
    by (vm_compute; discriminate).
  assert (H6 : LargeCap_ends_at (steady_dut 400) (n_ReadU (sample_world 0 (-12))) 1)
    by (split; [lia|split; [intros i Hi; lia|reflexivity]]).
  assert (H7 : 300 <= LargeCap_U_Cap (steady_dut 400) (n_ReadU (sample_world 0 (-12))) 1)
    by (vm_compute; congruence).
  assert (H8 : LargeCap_U_Cap (steady_dut 400) (n_ReadU (sample_world 0 (-12))) 1 <= 1300)
    by (vm_compute; congruence).
  assert (H9 : LargeCap_U_Drop (steady_dut 400) (n_ReadU (sample_world 0 (-12))) 1 <= 100)
    by (vm_compute; congruence).
  split; [exact H1|]. split; [exact H2|]. split; [exact H3|]. split; [exact H4|].
  split; [exact H5|]. split; [exact H6|]. split; [exact H7|]. split; [exact H8|].
  split; [exact H9|]. split; [vm_compute; reflexivity|].
  exact (LargeCap_measures sample_build (steady_dut 400) 1 0 (sample_world 0 (-12)) 1
           H1 H2 H3 H4 H5 H6 H7 (fun _ => H8) H9).
Defined.

(** Probes that cannot be discharged *)
Lemma estimators_skip_on_discharge_error_witness :
  discharged sample_build stuck_probes (sample_world 0 (-12)) = false /\
  (1 <= 1)%nat /\
  exists w',
    runs (LargeCap sample_build stuck_probes 1 0) (sample_world 0 (-12)) 0 w' /\
    runs (SmallCap sample_build stuck_probes 1 0) (sample_world 0 (-12)) 0 w' /\
    Checking.Found (Check w') = COMP_ERROR sample_build /\
    Caps w' = Caps (sample_world 0 (-12)) /\ NV w' = NV (sample_world 0 (-12)) /\
    pulses w' = pulses (sample_world 0 (-12)) /\
    n_ReadU w' = n_ReadU (sample_world 0 (-12)) /\
    n_TIFR1 w' = n_TIFR1 (sample_world 0 (-12)).
Proof.
  assert (H1 : discharged sample_build stuck_probes (sample_world 0 (-12)) = false)
    by reflexivity.
  assert (H2 : (1 <= 1)%nat) by lia.
  split; [exact H1|]. split; [exact H2|].
  exact (estimators_skip_on_discharge_error sample_build stuck_probes 1 0
           (sample_world 0 (-12)) H1 H2).
Defined.

(** A measurement of 4588 nF with the self-adjustment: the comparator
    offset in NV changes, the rest of what the property names stays. *)
Lemma SmallCap_frame_witness :
  exists w',
    runs (SmallCap sample_build (capture_after 70 1000 1120) 100 0)
         (sample_world 0 (-12)) 3 w' /\
    Probes w' = Probes (sample_world 0 (-12)) /\
    Config.Bandgap (Cfg w') = Config.Bandgap (Cfg (sample_world 0 (-12))) /\
    Config.Ref (Cfg w') = Config.Ref (Cfg (sample_world 0 (-12))) /\
    Adjust.RiL (NV w') = Adjust.RiL (NV (sample_world 0 (-12))) /\
    Adjust.RZero (NV w') = Adjust.RZero (NV (sample_world 0 (-12))) /\
    Adjust.CapZero (NV w') = Adjust.CapZero (NV (sample_world 0 (-12))).
Proof.
  assert (R : { w' | runs (SmallCap sample_build (capture_after 70 1000 1120) 100 0)
                          (sample_world 0 (-12)) 3 w' })
    by (eexists; vm_compute; reflexivity).
  destruct R as [w' R]. exists w'. split; [exact R|].
  exact (proj2 (proj2 (proj2 (SmallCap_frame sample_build (capture_after 70 1000 1120)
                                100 0 (sample_world 0 (-12)) 3 w' R)))).
Defined.

(** Readings of 900 mV with either reference: the offset of the bandgap
    reference stays. *)
Lemma SmallCap_adjust_RefOffset_witness :
  exists w',
    runs (SmallCap_adjust (capture_after 70 1000 1120) 5 4588 1120)
         (sample_world 0 (-12)) tt w' /\
    Cfg w' = Config.set_AutoScale 1 (Cfg (sample_world 0 (-12))) /\
    exists j,
      (n_ReadU (sample_world 0 (-12)) <= j)%nat /\ n_ReadU w' = (3 + j)%nat /\
      u16 (ReadU_in (capture_after 70 1000 1120) j) <= 980 /\
      let Ticks := u16 (ReadU_in (capture_after 70 1000 1120) (1 + j)) in
      let Ticks2 := u16 (ReadU_in (capture_after 70 1000 1120) (2 + j)) in
      let Offset := s16 (Ticks - Ticks2) in
      Adjust.RefOffset (NV w') =
        if (Offset <? -4) || (Offset >? 4)
        then s8 (Adjust.RefOffset (NV (sample_world 0 (-12)))
                 + s8 (Z.quot (s32 (s32 Offset
                                    * u16 (Config.Bandgap (Cfg (sample_world 0 (-12))))))
                              Ticks2))
        else Adjust.RefOffset (NV (sample_world 0 (-12))).
Proof.
  assert (R : { w' | runs (SmallCap_adjust (capture_after 70 1000 1120) 5 4588 1120)
                          (sample_world 0 (-12)) tt w' })
    by (eexists; vm_compute; reflexivity).
  destruct R as [w' R]. exists w'. split; [exact R|].
  exact (SmallCap_adjust_RefOffset (capture_after 70 1000 1120) 5 4588 1120
           (sample_world 0 (-12)) w' R).
Defined.

(** A capture at the first poll with the counter at 1000: 998 pF raw, 958
    pF after the zero offset *)
Lemma SmallCap_measures_witness :
  SW_C_VLOSS sample_build = false /\
  overflow_budget sample_build <= 65535 /\
  discharged sample_build (capture_after 0 1000 0) (sample_world 0 (-12)) = true /\
  (0 < 1)%nat /\
  Caps (sample_world 0 (-12)) !! 0%nat = Some (sample_cap 0 (-12)) /\
  captured_at (capture_after 0 1000 0) (n_TIFR1 (sample_world 0 (-12))) 0 /\
  SmallCap_overflows (capture_after 0 1000 0) (sample_world 0 (-12)) 0
    < overflow_budget sample_build /\
  SmallCap_calc sample_build (NV (sample_world 0 (-12))) (Cfg (sample_world 0 (-12)))
                (Probes (sample_world 0 (-12)))
                (u16 (ICR1_in (capture_after 0 1000 0) (n_ICR1 (sample_world 0 (-12)))))
                (SmallCap_overflows (capture_after 0 1000 0) (sample_world 0 (-12)) 0)
    = Some (-12, 998, 958) /\
  SmallCap_adjusts sample_build (-12) 958 = false /\
  exists w',
    runs (SmallCap sample_build (capture_after 0 1000 0) 1 0) (sample_world 0 (-12)) 3 w' /\
    Caps w' = <[0%nat := Capacitor.set_result
                           (Probe.ID_2 (Probes (sample_world 0 (-12))))
                           (Probe.ID_1 (Probes (sample_world 0 (-12))))
                           (-12) 998 958 (sample_cap 0 (-12))]>
                (Caps (sample_world 0 (-12))) /\
    NV w' = NV (sample_world 0 (-12)) /\
    n_TIFR1 w' = (n_TIFR1 (sample_world 0 (-12)) + 1)%nat.
Proof.
  assert (H1 : SW_C_VLOSS sample_build = false) by reflexivity.
  assert (H2 : overflow_budget sample_build <= 65535) by (vm_compute; congruence).
  assert (H3 : discharged sample_build (capture_after 0 1000 0) (sample_world 0 (-12))
               = true) by reflexivity.
  assert (H4 : (0 < 1)%nat) by lia.
  assert (H5 : Caps (sample_world 0 (-12)) !! 0%nat = Some (sample_cap 0 (-12)))
    by reflexivity.
  assert (H6 : captured_at (capture_after 0 1000 0) (n_TIFR1 (sample_world 0 (-12))) 0)
    by (split; [intros i Hi; lia|reflexivity]).
  assert (H7 : SmallCap_overflows (capture_after 0 1000 0) (sample_world 0 (-12)) 0
               < overflow_budget sample_build) by (vm_compute; reflexivity).
  assert (H8 : SmallCap_calc sample_build (NV (sample_world 0 (-12)))
                 (Cfg (sample_world 0 (-12))) (Probes (sample_world 0 (-12)))
                 (u16 (ICR1_in (capture_after 0 1000 0) (n_ICR1 (sample_world 0 (-12)))))
                 (SmallCap_overflows (capture_after 0 1000 0) (sample_world 0 (-12)) 0)
               = Some (-12, 998, 958)) by (vm_compute; reflexivity).
  assert (H9 : SmallCap_adjusts sample_build (-12) 958 = false) by reflexivity.
  split; [exact H1|]. split; [exact H2|]. split; [exact H3|]. split; [exact H4|].
  split; [exact H5|]. split; [exact H6|]. split; [exact H7|]. split; [exact H8|].
  split; [exact H9|].
  exact (SmallCap_measures sample_build (capture_after 0 1000 0) 1 0
           (sample_world 0 (-12)) 0 (sample_cap 0 (-12)) (-12) 998 958
           H1 H2 H3 H4 H5 H6 H7 H8 H9).
Defined.

(** The reference cap discharged at once and a capture at the first poll:
    the result 1, readings of 900 mV with either reference and the bandgap
    voltage as it was *)
Lemma RefCap_frame_witness :
  exists w',
    runs (RefCap sample_build (capture_after 0 1000 0) 10) (sample_world 0 (-12)) 1 w' /\
    Caps w' = Caps (sample_world 0 (-12)) /\
    Probes w' = Probes (sample_world 0 (-12)) /\
    Adjust.RiL (NV w') = Adjust.RiL (NV (sample_world 0 (-12))) /\
    Adjust.RZero (NV w') = Adjust.RZero (NV (sample_world 0 (-12))) /\
    Adjust.CapZero (NV w') = Adjust.CapZero (NV (sample_world 0 (-12))) /\
    ((Config.Bandgap (Cfg w') = Config.Bandgap (Cfg (sample_world 0 (-12))) /\
      Adjust.RefOffset (NV w') = Adjust.RefOffset (NV (sample_world 0 (-12)))) \/
     exists d, -128 <= d <= 127 /\
       Config.Bandgap (Cfg w') =
         u16 (u16 (Config.Bandgap (Cfg (sample_world 0 (-12)))) + d) /\
       Adjust.RefOffset (NV w') = s8 (Adjust.RefOffset (NV (sample_world 0 (-12))) + d)).
Proof.
  assert (R : { w' | runs (RefCap sample_build (capture_after 0 1000 0) 10)
                          (sample_world 0 (-12)) 1 w' })
    by (eexists; vm_compute; reflexivity).
  destruct R as [w' R]. exists w'. split; [exact R|].
  exact (proj2 (proj2 (RefCap_frame sample_build (capture_after 0 1000 0) 10
                         (sample_world 0 (-12)) 1 w' R))).
Defined.

(** A reference cap that stays at 100 mV *)
Lemma RefCap_discharge_timeout_witness :
  (forall i, (i < 51)%nat ->
             u16 (ReadU_in (steady_dut 100) (n_ReadU (sample_world 0 (-12)) + i))
             > CAP_DISCHARGED sample_build) /\
  exists w',
    runs (RefCap sample_build (steady_dut 100) 1) (sample_world 0 (-12)) 0 w' /\
    NV w' = NV (sample_world 0 (-12)) /\ Cfg w' = Cfg (sample_world 0 (-12)) /\
    n_ReadU w' = (n_ReadU (sample_world 0 (-12)) + 51)%nat /\
    sleeps w' = (sleeps (sample_world 0 (-12)) + 51)%nat /\
    n_TIFR1 w' = n_TIFR1 (sample_world 0 (-12)).
Proof.
  assert (H1 : forall i, (i < 51)%nat ->
                 u16 (ReadU_in (steady_dut 100) (n_ReadU (sample_world 0 (-12)) + i))
                 > CAP_DISCHARGED sample_build)
    by (intros i _; reflexivity).
  split; [exact H1|].
  exact (RefCap_discharge_timeout sample_build (steady_dut 100) 1
           (sample_world 0 (-12)) H1).
Defined.

(** A resistor of 5 Ohm between probes 1 and 0, found from probe 0 to
    probe 1 *)
Lemma MeasureCap_resistors_finds_low_witness :
  0 <= 1 < 100 /\
  1 <= Z.of_nat (length [Resistor.mk 1 0 0 5]) /\
  exists T,
    MeasureCap_resistors sample_build [Resistor.mk 1 0 0 5] 1 0 1 0 = Some T /\
    (T = 100 <->
     exists i r, Z.of_nat i < 1 /\ [Resistor.mk 1 0 0 5] !! i = Some r /\
                 low_resistor sample_build 0 1 r = true) /\
    (T <> 100 -> T = 1).
Proof.
  assert (H1 : 0 <= 1 < 100) by lia.
  assert (H2 : 1 <= Z.of_nat (length [Resistor.mk 1 0 0 5])) by (cbn; lia).
  split; [exact H1|]. split; [exact H2|].
  exact (MeasureCap_resistors_finds_low sample_build [Resistor.mk 1 0 0 5] 1 0 1 H1 H2).
Defined.

(** The resistor of 1 kOhm between probes 0 and 1 *)
Lemma MeasureCap_skips_error_and_resistor_witness :
  Caps resistor_world !! Z.to_nat 0 = Some (sample_cap 470 (-9)) /\
  (Checking.Found (Check resistor_world) = COMP_ERROR sample_build \/
   (Checking.Found (Check resistor_world) = COMP_RESISTOR sample_build /\
    0 <= Checking.Resistors (Check resistor_world) < 100 /\
    Checking.Resistors (Check resistor_world)
      <= Z.of_nat (length (Resistors resistor_world)) /\
    forall i r, Z.of_nat i < Checking.Resistors (Check resistor_world) ->
                Resistors resistor_world !! i = Some r ->
                low_resistor sample_build 0 1 r = false)) /\
  runs (MeasureCap sample_build quiet 1 0 1 0) resistor_world tt
       (set_Caps (<[Z.to_nat 0 := Cap_reset sample_build (sample_cap 470 (-9))]>
                    (Caps resistor_world)) resistor_world).
Proof.
  assert (H1 : Caps resistor_world !! Z.to_nat 0 = Some (sample_cap 470 (-9)))
    by reflexivity.
  assert (H2 : Checking.Found (Check resistor_world) = COMP_ERROR sample_build \/
               (Checking.Found (Check resistor_world) = COMP_RESISTOR sample_build /\
                0 <= Checking.Resistors (Check resistor_world) < 100 /\
                Checking.Resistors (Check resistor_world)
                  <= Z.of_nat (length (Resistors resistor_world)) /\
                forall i r, Z.of_nat i < Checking.Resistors (Check resistor_world) ->
                            Resistors resistor_world !! i = Some r ->
                            low_resistor sample_build 0 1 r = false)).
  { right. split; [reflexivity|]. split; [cbn; lia|]. split; [cbn; lia|].
    intros [|i] r Hi Hr; [|cbn in Hi; lia].
    inversion Hr. reflexivity. }
  split; [exact H1|]. split; [exact H2|].
  exact (MeasureCap_skips_error_and_resistor sample_build quiet 1 0 1 0 resistor_world
           (sample_cap 470 (-9)) H1 H2).
Defined.

(** 200 uF between probes 0 and 1: a capacitor is reported. *)
Lemma MeasureCap_reports_no_ghost_witness :
  COMP_ERROR sample_build <> COMP_CAPACITOR sample_build /\
  exists w',
    runs (MeasureCap sample_build (steady_dut 400) 2 0 1 0) (sample_world 0 (-12)) tt w' /\
    Checking.Found (Check w') = COMP_CAPACITOR sample_build /\
    (Checking.Found (Check (sample_world 0 (-12))) = COMP_CAPACITOR sample_build \/
     exists c', Caps w' !! Z.to_nat 0 = Some c' /\
                (Capacitor.Scale c' > -12 \/ Capacitor.Value c' >= 5)).
Proof.
  assert (H1 : COMP_ERROR sample_build <> COMP_CAPACITOR sample_build)
    by (vm_compute; discriminate).
  assert (R : { w' | runs (MeasureCap sample_build (steady_dut 400) 2 0 1 0)
                          (sample_world 0 (-12)) tt w'
                     /\ Checking.Found (Check w') = COMP_CAPACITOR sample_build })
    by (eexists; split; vm_compute; reflexivity).
  split; [exact H1|].
  destruct R as [w' [R HF]]. exists w'. split; [exact R|]. split; [exact HF|].
  exact (MeasureCap_reports_no_ghost sample_build (steady_dut 400) 2 0 1 0
           (sample_world 0 (-12)) w' H1 R HF).
Defined.
